(** * notify-core: the dispatch engine, the delivery coordinator and the
    preference gate, embedded from [notification_center.ts],
    [console_transport_adapter.ts], [memory_storage_adapter.ts] and
    [memory_queue_adapter.ts]. *)

From Stdlib Require Import ZArith QArith List String Ascii Bool Lia Sorted.
From stdpp Require Import base option countable gmap strings pretty.

Local Open Scope Z_scope.
Local Open Scope string_scope.
Local Open Scope list_scope.

(* ===================================================================== *)
(** ** Core types ([types.ts]) *)
(* ===================================================================== *)

Inductive ChannelType := inapp | push | email | sms | webhook.

Inductive NotificationStatus :=
  st_pending | st_sent | st_delivered | st_failed | st_read.

Inductive NotificationPriority := low | normal | high | urgent.

Inductive DeliveryStatus :=
  ds_pending | ds_sent | ds_delivered | ds_failed | ds_bounced.

Global Instance ChannelType_eq_dec : EqDecision ChannelType.
Proof. solve_decision. Defined.

Global Instance NotificationStatus_eq_dec : EqDecision NotificationStatus.
Proof. solve_decision. Defined.

Global Instance DeliveryStatus_eq_dec : EqDecision DeliveryStatus.
Proof. solve_decision. Defined.

Definition ChannelType_code (c : ChannelType) : nat :=
  match c with
  | inapp => 0 | push => 1 | email => 2 | sms => 3 | webhook => 4
  end%nat.

Definition ChannelType_of_code (k : nat) : option ChannelType :=
  match k with
  | 0 => Some inapp | 1 => Some push | 2 => Some email
  | 3 => Some sms | 4 => Some webhook | _ => None
  end%nat.

Global Instance ChannelType_countable : Countable ChannelType.
Proof.
  refine (inj_countable ChannelType_code ChannelType_of_code _).
  intros []; reflexivity.
Defined.

(** A JavaScript value of type [string] that may be [undefined] is an
    [option string]; a [Date] is its epoch time in milliseconds; the free-form
    [data] payload is an object from keys to (printed) values. *)
Definition Data : Type := gmap string string.

Record NotificationAction := {
  action_id : string;
  action_label : string;
  action_url : option string;
  action_handler : option string
}.

Record Notification := {
  id : string;
  type : option string;
  title : option string;
  body : option string;
  data : option Data;
  userId : string;
  groupId : option string;
  priority : NotificationPriority;
  category : option string;
  status : NotificationStatus;
  readAt : option Z;
  createdAt : Z;
  scheduledFor : option Z;
  expiresAt : option Z;
  channels : list ChannelType;
  actions : option (list NotificationAction)
}.

Record NotificationInput := {
  in_type : option string;
  in_title : option string;
  in_body : option string;
  in_userId : string;
  in_groupId : option string;
  in_data : option Data;
  in_priority : option NotificationPriority;
  in_category : option string;
  in_channels : list ChannelType;
  in_scheduledFor : option Z;
  in_expiresAt : option Z;
  in_actions : option (list NotificationAction);
  in_template : option string
}.

Record QuietHours := {
  start : string;
  end_ : string;
  timezone : option string
}.

Inductive ChannelFrequency := realtime | batched | digest.

Record ChannelPreferences := {
  enabled : bool;
  categories : option (list string);
  quietHours : option QuietHours;
  frequency : option ChannelFrequency
}.

Record NotificationPreferences := {
  pref_userId : string;
  pref_channels : gmap ChannelType ChannelPreferences;
  globalMute : option bool;
  updatedAt : option Z;
  pref_data : option Data
}.

Record DeliveryReceipt := {
  notificationId : string;
  channel : ChannelType;
  r_status : DeliveryStatus;
  attempts : Z;
  lastAttempt : Z;
  nextRetry : option Z;
  error : option string;
  metadata : option Data
}.

(** [new Error(message)]. *)
Record JsError := mkError { message : string }.

(* ===================================================================== *)
(** ** JavaScript values: truthiness and numbers *)
(* ===================================================================== *)

(** [!!s] for a possibly undefined string: [undefined] and the empty string
    are falsy. *)
Definition truthy_string (s : option string) : bool :=
  match s with
  | Some s => negb (String.eqb s EmptyString)
  | None => false
  end.

(** [a || b] on possibly undefined strings. *)
Definition or_string (a b : option string) : option string :=
  if truthy_string a then a else b.

(** [a || b] where [a] is an object, a [Date] or a non-empty string literal
    of an enumeration when defined: every defined value is truthy. *)
Definition or_defined {A : Type} (a b : option A) : option A :=
  match a with
  | Some _ => a
  | None => b
  end.

(** [!!b] for an optional boolean. *)
Definition truthy_bool (b : option bool) : bool :=
  match b with
  | Some true => true
  | _ => false
  end.

(** [!!x] for an optional integral number of milliseconds. *)
Definition truthy_number (x : option Z) : bool :=
  match x with
  | Some z => negb (Z.eqb z 0)
  | None => false
  end.

(** A JavaScript number: a double is [NaN], an infinity or a rational. *)
Inductive JsNumber := NaN | NegInf | Fin (q : Q) | PosInf.

Definition Q_ltb (x y : Q) : bool :=
  Z.ltb (Qnum x * QDen y) (Qnum y * QDen x).

(** [a < b]: false as soon as one side is [NaN]. *)
Definition js_lt (a b : JsNumber) : bool :=
  match a, b with
  | NaN, _ | _, NaN => false
  | _, NegInf => false
  | NegInf, _ => true
  | PosInf, _ => false
  | Fin _, PosInf => true
  | Fin x, Fin y => Q_ltb x y
  end.

(** [a >= b]: false as soon as one side is [NaN], hence not [negb (js_lt a b)]. *)
Definition js_ge (a b : JsNumber) : bool :=
  match a, b with
  | NaN, _ | _, NaN => false
  | _, NegInf => true
  | NegInf, _ => false
  | PosInf, _ => true
  | Fin _, PosInf => false
  | Fin x, Fin y => Qle_bool y x
  end.

(** [a > b]. *)
Definition js_gt (a b : JsNumber) : bool := js_lt b a.

Definition js_of_Z (z : Z) : JsNumber := Fin (inject_Z z).

(** [s.split(':')[0]]: the characters before the first colon. *)
Fixpoint first_segment (s : string) : string :=
  match s with
  | EmptyString => EmptyString
  | String c rest =>
      if Ascii.eqb c ":" then EmptyString else String c (first_segment rest)
  end.

(** [l.includes(x)] on strings. *)
Definition includes (l : list string) (x : string) : bool :=
  existsb (String.eqb x) l.

(* ===================================================================== *)
(** ** The runtime and the collaborators' state *)
(* ===================================================================== *)

(** Everything outside the core (the storage, queue and transport back ends,
    the closures of the middleware and of the subscribers, the clock and the
    random source) lives in a state of type [St].  The runtime gives the
    built-ins the core calls. *)
Class Runtime (St : Type) := {
(** [Date.now()] *)
  Date_now : St -> Z;
(** [new Date().getHours()] *)
  Date_getHours : St -> Z;
(** [Math.random().toString(36).substr(2, 9)] *)
  Math_random_base36 : St -> string * St;
(** [Number(s)] *)
  Number : string -> JsNumber
}.

(* ===================================================================== *)
(** ** [ConsoleTransportAdapter] *)
(* ===================================================================== *)

Module ConsoleTransportAdapter.
Section WithRuntime.
Context {St : Type} `{Runtime St}.

(** The quiet-hours test at the end of [canSend]: [true] when the current
    hour falls in the window. *)
Definition inQuietHours (qh : QuietHours) (st : St) : bool :=
  let currentHour := js_of_Z (Date_getHours st) in
  let startHour := Number (first_segment (start qh)) in
  let endHour := Number (first_segment (end_ qh)) in
  if js_gt startHour endHour
  then js_ge currentHour startHour || js_lt currentHour endHour
  else js_ge currentHour startHour && js_lt currentHour endHour.

Definition canSend (name : ChannelType) (notification : Notification)
    (preferences : NotificationPreferences) (st : St) : bool :=
  if truthy_bool (globalMute preferences) then false
  else
    let channelPref := pref_channels preferences !! name in
    if match channelPref with
       | Some cp => negb (enabled cp)
       | None => false
       end
    then false
    else
      if match channelPref ≫= categories with
         | Some cats =>
             truthy_string (category notification)
             && negb (includes cats
                       (default EmptyString (category notification)))
         | None => false
         end
      then false
      else
        match channelPref ≫= quietHours with
        | Some qh => negb (inQuietHours qh st)
        | None => true
        end.

(** [send]: logs and reports a delivery. *)
Definition send (name : ChannelType) (notification : Notification)
    (st : St) : DeliveryReceipt :=
  {| notificationId := id notification;
     channel := name;
     r_status := ds_delivered;
     attempts := 1;
     lastAttempt := Date_now st;
     nextRetry := None;
     error := None;
     metadata := None |}.
End WithRuntime.
End ConsoleTransportAdapter.

(* ===================================================================== *)
(** ** Effects: exceptions, collaborator state, and the log of calls *)
(* ===================================================================== *)

Inductive Result (A : Type) := Ok (a : A) | Throw (e : JsError).
Arguments Ok {A} a.
Arguments Throw {A} e.

(** An operation of a collaborator (an awaited promise): it resolves or
    rejects, and may change the collaborators' state. *)
Definition Eff (St A : Type) : Type := St -> Result A * St.

Inductive EventType := ev_sent | ev_delivered | ev_read | ev_failed.

Record NotificationEvent := {
  ev_type : EventType;
  ev_notification : Notification;
  timestamp : Z
}.

(** One entry per call the core makes to a collaborator, to a middleware hook
    or to a subscriber's callback ([k] is the callback's rank in its set). *)
Inductive Event :=
| CallBeforeSend (mw : string) (n : Notification)
| CallAfterSend (mw : string) (n : Notification)
| CallOnError (mw : string) (e : JsError) (n : Notification)
| StorageSave (n : Notification)
| StorageFindById (nid : string)
| StorageDelete (nid : string)
| StorageCountUnread (uid : string)
| StorageGetPreferences (uid : string)
| StorageSaveReceipt (r : DeliveryReceipt)
| StorageGetReceipts (nid : string)
| QueueEnqueue (n : Notification)
| QueueEnqueueDelayed (n : Notification) (delay : Z)
| TransportCanSend (ch : ChannelType) (n : Notification)
| TransportSend (ch : ChannelType) (n : Notification)
    (prefs : NotificationPreferences)
| PublishNotification (uid : string) (k : nat) (n : Notification)
| PublishEvent (uid : string) (k : nat) (ev : NotificationEvent)
| PublishUnread (uid : string) (k : nat) (count : Z).

(** A computation of the core over a state [W]: its completion, the new
    state, and the calls it made, oldest first. *)
Definition M (W A : Type) : Type := W -> Result A * W * list Event.

Definition ret {W A} (a : A) : M W A := fun s => (Ok a, s, []).

Definition bind {W A B} (m : M W A) (k : A -> M W B) : M W B :=
  fun s =>
    match m s with
    | (Ok a, s1, log1) =>
        match k a s1 with
        | (r, s2, log2) => (r, s2, log1 ++ log2)
        end
    | (Throw e, s1, log1) => (Throw e, s1, log1)
    end.

Definition throw {W A} (e : JsError) : M W A := fun s => (Throw e, s, []).

(** [try { m } catch (error) { handler error }] *)
Definition try_catch {W A} (m : M W A) (handler : JsError -> M W A) : M W A :=
  fun s =>
    match m s with
    | (Ok a, s1, log1) => (Ok a, s1, log1)
    | (Throw e, s1, log1) =>
        match handler e s1 with
        | (r, s2, log2) => (r, s2, log1 ++ log2)
        end
    end.

Declare Scope dispatch_scope.
Delimit Scope dispatch_scope with dispatch.
Notation "'let*' x ':=' m 'in' k" := (bind m (fun x => k))
  (at level 10, x name, m at level 100, k at level 200) : dispatch_scope.
Notation "m1 '>>' m2" := (bind m1 (fun _ => m2))
  (at level 100, m2 at level 200, right associativity) : dispatch_scope.
Local Open Scope dispatch_scope.

(** A synchronous step that returns or throws. *)
Definition of_result {W A} (r : Result A) : M W A := fun s => (r, s, []).

(** A logged call to a collaborator. *)
Definition call {St A} (ev : Event) (op : Eff St A) : M St A :=
  fun st => match op st with (r, st1) => (r, st1, [ev]) end.

(** Reading the state without changing it (the clock). *)
Definition gets {W A} (f : W -> A) : M W A := fun s => (Ok (f s), s, []).

(** [for (const x of l) { await f(x) }]: the first exception leaves the loop. *)
Fixpoint for_each {W A} (f : A -> M W unit) (l : list A) : M W unit :=
  match l with
  | [] => ret tt
  | x :: rest => f x >> for_each f rest
  end.

(** [l.forEach(f)] over a set, with the rank of each element. *)
Fixpoint for_each_from {W A} (k : nat) (f : nat -> A -> M W unit)
    (l : list A) : M W unit :=
  match l with
  | [] => ret tt
  | x :: rest => f k x >> for_each_from (Datatypes.S k) f rest
  end.

(** [await Promise.all(l.map(async ...))] with collaborators that settle in
    call order: every callback runs, none is cancelled when another one
    rejects, and the first rejection is the one reported. *)
Fixpoint promise_all {W A} (l : list (M W A)) : M W (list A) :=
  match l with
  | [] => ret []
  | p :: rest =>
      fun s =>
        match p s with
        | (r, s1, log1) =>
            match promise_all rest s1 with
            | (rs, s2, log2) =>
                (match r, rs with
                 | Ok a, Ok others => Ok (a :: others)
                 | Throw e, _ => Throw e
                 | Ok _, Throw e => Throw e
                 end, s2, log1 ++ log2)
            end
        end
  end.

(** The local variable [notification] of [send] names an object that
    [sendNow] updates in place: the [try] block runs over the object and
    the collaborators' state. *)
Definition lift {St A} (m : M St A) : M (Notification * St) A :=
  fun s =>
    match m (snd s) with
    | (r, st1, log) => (r, (fst s, st1), log)
    end.

Definition get_object {St} : M (Notification * St) Notification :=
  gets fst.

Definition update_object {St} (f : Notification -> Notification)
    : M (Notification * St) unit :=
  fun s => (Ok tt, (f (fst s), snd s), []).

Definition with_object {St A} (n : Notification)
    (m : M (Notification * St) A) : M St A :=
  fun st =>
    match m (n, st) with
    | (r, s1, log) => (r, snd s1, log)
    end.

(* ===================================================================== *)
(** ** Adapter contracts *)
(* ===================================================================== *)

(** A collaborator is handed a notification by value: what it does shows in
    the collaborators' state and in its answer, not in the caller's object. *)
Module StorageAdapter.
Record t (St : Type) := {
    save : Notification -> Eff St unit;
    findById : string -> Eff St (option Notification);
    countUnread : string -> Eff St Z;
    delete : string -> Eff St unit;
    getPreferences : string -> Eff St NotificationPreferences;
    saveReceipt : option (DeliveryReceipt -> Eff St unit);
    getReceipts : option (string -> Eff St (list DeliveryReceipt))
  }.
Arguments save {St}. Arguments findById {St}. Arguments countUnread {St}.
Arguments delete {St}. Arguments getPreferences {St}.
Arguments saveReceipt {St}. Arguments getReceipts {St}.
End StorageAdapter.

Module TransportAdapter.
Record t (St : Type) := {
    name : ChannelType;
    send : Notification -> NotificationPreferences -> Eff St DeliveryReceipt;
    canSend : Notification -> NotificationPreferences -> Eff St bool
  }.
Arguments name {St}. Arguments send {St}. Arguments canSend {St}.
End TransportAdapter.

Module QueueAdapter.
Record t (St : Type) := {
    enqueue : Notification -> Eff St unit;
    enqueueDelayed : Notification -> Z -> Eff St unit
  }.
Arguments enqueue {St}. Arguments enqueueDelayed {St}.
End QueueAdapter.

Module NotificationMiddleware.
Record t (St : Type) := {
    name : string;
    beforeSend : option (Notification -> Eff St (option Notification));
    afterSend : option (Notification -> Eff St unit);
    onError : option (JsError -> Notification -> Eff St unit)
  }.
Arguments name {St}. Arguments beforeSend {St}.
Arguments afterSend {St}. Arguments onError {St}.
End NotificationMiddleware.

(** [string | ((data) => string)]; the function may throw. *)
Inductive TemplateText :=
| Literal (s : string)
| Computed (f : option Data -> Result string).

Record TemplateDefaults := {
  d_title : TemplateText;
  d_body : TemplateText;
  d_channels : list ChannelType;
  d_priority : NotificationPriority;
  d_category : option string;
  d_expiresIn : option Z
}.

Record NotificationTemplate := {
  tpl_id : string;
  tpl_type : string;
  defaults : TemplateDefaults
}.

Record NotificationConfig (St : Type) := {
  cfg_storage : StorageAdapter.t St;
  cfg_transports : list (TransportAdapter.t St);
  cfg_queue : option (QueueAdapter.t St);
  cfg_middleware : option (list (NotificationMiddleware.t St))
}.
Arguments cfg_storage {St}. Arguments cfg_transports {St}.
Arguments cfg_queue {St}. Arguments cfg_middleware {St}.

(* ===================================================================== *)
(** ** [NotificationCenter] *)
(* ===================================================================== *)

Module NotificationCenter.
Section WithRuntime.
Context {St : Type} `{Runtime St}.

(** The fields of the class.  A [Set] of callbacks is the list of its
    members in insertion order. *)
Record t := {
    storage : StorageAdapter.t St;
    transports : gmap ChannelType (TransportAdapter.t St);
    queue : option (QueueAdapter.t St);
    templates : gmap string NotificationTemplate;
    middleware : list (NotificationMiddleware.t St);
    subscribers : gmap string (list (Notification -> Eff St unit));
    eventSubscribers : gmap string (list (NotificationEvent -> Eff St unit));
    unreadSubscribers : gmap string (list (Z -> string -> Eff St unit))
  }.

Definition constructor (config : NotificationConfig St) : t :=
  {| storage := cfg_storage config;
     queue := cfg_queue config;
     middleware := default [] (cfg_middleware config);
     transports :=
       fold_left (fun m transport => <[TransportAdapter.name transport := transport]> m)
                 (cfg_transports config) ∅;
     templates := ∅;
     subscribers := ∅;
     eventSubscribers := ∅;
     unreadSubscribers := ∅ |}.

Definition registerTemplate (c : t) (template : NotificationTemplate) : t :=
  {| storage := storage c; transports := transports c; queue := queue c;
     templates := <[tpl_id template := template]> (templates c);
     middleware := middleware c; subscribers := subscribers c;
     eventSubscribers := eventSubscribers c;
     unreadSubscribers := unreadSubscribers c |}.

Definition use (c : t) (m : NotificationMiddleware.t St) : t :=
  {| storage := storage c; transports := transports c; queue := queue c;
     templates := templates c;
     middleware := middleware c ++ [m]; subscribers := subscribers c;
     eventSubscribers := eventSubscribers c;
     unreadSubscribers := unreadSubscribers c |}.

Definition onUnreadCountChange (c : t) (uid : string)
    (callback : Z -> string -> Eff St unit) : t :=
  {| storage := storage c; transports := transports c; queue := queue c;
     templates := templates c;
     middleware := middleware c; subscribers := subscribers c;
     eventSubscribers := eventSubscribers c;
     unreadSubscribers :=
       <[uid := default [] (unreadSubscribers c !! uid) ++ [callback]]>
         (unreadSubscribers c) |}.

(* ---------- private methods ---------- *)

Definition generateId : M St string :=
  fun st =>
    let now := Date_now st in
    match Math_random_base36 st with
    | (r, st1) => (Ok ("notif_" +:+ pretty now +:+ "_" +:+ r), st1, [])
    end.

(** [typeof text === 'function' ? text(input.data) : text] *)
Definition template_text (text : TemplateText) (d : option Data)
    : Result string :=
  match text with
  | Literal s => Ok s
  | Computed f => f d
  end.

Definition resolve_text (text : TemplateText) (d : option Data)
    : M St string :=
  of_result (template_text text d).

Definition buildNotification (c : t) (input : NotificationInput)
    : M St Notification :=
  if truthy_string (in_template input) then
    let tname := default EmptyString (in_template input) in
    match templates c !! tname with
    | None => throw (mkError ("Template " +:+ tname +:+ " not found"))
    | Some template =>
        let* title := resolve_text (d_title (defaults template))
                                   (in_data input) in
        let* body := resolve_text (d_body (defaults template))
                                  (in_data input) in
        let* nid := generateId in
        let* created := gets Date_now in
        let* expires :=
          match in_expiresAt input with
          | Some d => ret (Some d)
          | None =>
              if truthy_number (d_expiresIn (defaults template))
              then let* now := gets Date_now in
                   ret (Some (now + default 0 (d_expiresIn (defaults template))))
              else ret None
          end in
        ret {| id := nid;
               type := or_string (in_type input) (Some (tpl_type template));
               title := or_string (in_title input) (Some title);
               body := or_string (in_body input) (Some body);
               data := in_data input;
               userId := in_userId input;
               groupId := in_groupId input;
               priority := default (d_priority (defaults template))
                                   (in_priority input);
               category := or_string (in_category input)
                                     (d_category (defaults template));
               status := st_pending;
               readAt := None;
               createdAt := created;
               scheduledFor := in_scheduledFor input;
               expiresAt := expires;
               channels := match in_channels input with
                           | [] => d_channels (defaults template)
                           | _ :: _ => in_channels input
                           end;
               actions := in_actions input |}
    end
  else
    let* nid := generateId in
    let* created := gets Date_now in
    ret {| id := nid;
           type := in_type input;
           title := in_title input;
           body := in_body input;
           data := in_data input;
           userId := in_userId input;
           groupId := in_groupId input;
           priority := default normal (in_priority input);
           category := in_category input;
           status := st_pending;
           readAt := None;
           createdAt := created;
           scheduledFor := in_scheduledFor input;
           expiresAt := in_expiresAt input;
           channels := in_channels input;
           actions := in_actions input |}.

Fixpoint beforeSend_loop (ms : list (NotificationMiddleware.t St))
    (current : Notification) : M St (option Notification) :=
  match ms with
  | [] => ret (Some current)
  | m :: rest =>
      match NotificationMiddleware.beforeSend m with
      | Some hook =>
          let* next := call (CallBeforeSend (NotificationMiddleware.name m) current)
                            (hook current) in
          match next with
          | None => ret None
          | Some n => beforeSend_loop rest n
          end
      | None => beforeSend_loop rest current
      end
  end.

Definition applyBeforeSendMiddleware (c : t) (notification : Notification)
    : M St (option Notification) :=
  beforeSend_loop (middleware c) notification.

Definition applyAfterSendMiddleware (c : t) (notification : Notification)
    : M St unit :=
  for_each (fun m =>
              match NotificationMiddleware.afterSend m with
              | Some hook => call (CallAfterSend (NotificationMiddleware.name m) notification)
                                  (hook notification)
              | None => ret tt
              end)
           (middleware c).

Definition applyErrorMiddleware (c : t) (error : JsError)
    (notification : Notification) : M St unit :=
  for_each (fun m =>
              match NotificationMiddleware.onError m with
              | Some hook =>
                  call (CallOnError (NotificationMiddleware.name m) error notification)
                       (hook error notification)
              | None => ret tt
              end)
           (middleware c).

Definition notifySubscribers (c : t) (notification : Notification)
    : M St unit :=
  match subscribers c !! userId notification with
  | Some subs =>
      for_each_from 0%nat
        (fun k callback =>
           call (PublishNotification (userId notification) k notification)
                (callback notification))
        subs
  | None => ret tt
  end.

Definition notifyEventSubscribers (c : t) (event : NotificationEvent)
    : M St unit :=
  match eventSubscribers c !! userId (ev_notification event) with
  | Some subs =>
      for_each_from 0%nat
        (fun k callback =>
           call (PublishEvent (userId (ev_notification event)) k event)
                (callback event))
        subs
  | None => ret tt
  end.

Definition notifyUnreadSubscribers (c : t) (uid : string) (count : Z)
    : M St unit :=
  match unreadSubscribers c !! uid with
  | Some subs =>
      for_each_from 0%nat
        (fun k callback =>
           call (PublishUnread uid k count) (callback count uid))
        subs
  | None => ret tt
  end.

Definition getPreferences (c : t) (uid : string)
    : M St NotificationPreferences :=
  call (StorageGetPreferences uid) (StorageAdapter.getPreferences (storage c) uid).

(** [if (this.storage.saveReceipt) await this.storage.saveReceipt(receipt)] *)
Definition saveReceipt_if_supported (c : t) (receipt : DeliveryReceipt)
    : M St unit :=
  match StorageAdapter.saveReceipt (storage c) with
  | Some op => call (StorageSaveReceipt receipt) (op receipt)
  | None => ret tt
  end.

Definition set_status (s : NotificationStatus) (n : Notification)
    : Notification :=
  {| id := id n; type := type n; title := title n; body := body n;
     data := data n; userId := userId n; groupId := groupId n;
     priority := priority n; category := category n;
     status := s;
     readAt := readAt n; createdAt := createdAt n;
     scheduledFor := scheduledFor n; expiresAt := expiresAt n;
     channels := channels n; actions := actions n |}.

(** The callback [sendNow] maps over the channels. *)
Definition deliver (c : t) (notification : Notification)
    (prefs : NotificationPreferences) (channel : ChannelType)
    : M St (option DeliveryReceipt) :=
  match transports c !! channel with
  | None => ret None
  | Some transport =>
      let* allowed := call (TransportCanSend channel notification)
                           (TransportAdapter.canSend transport notification prefs) in
      if negb allowed then ret None
      else
        try_catch
          (let* receipt := call (TransportSend channel notification prefs)
                                (TransportAdapter.send transport notification prefs) in
           saveReceipt_if_supported c receipt >>
           ret (Some receipt))
          (fun error =>
             let* now := gets Date_now in
             let receipt :=
               {| notificationId := id notification;
                  channel := channel;
                  r_status := ds_failed;
                  attempts := 1;
                  lastAttempt := now;
                  nextRetry := None;
                  error := Some (message error);
                  metadata := None |} in
             saveReceipt_if_supported c receipt >>
             ret (Some receipt))
  end.

Definition allFailed (receipts : list (option DeliveryReceipt)) : bool :=
  forallb (fun r => match r with
                    | None => true
                    | Some r => bool_decide (r_status r = ds_failed)
                    end) receipts.

Definition anyDelivered (receipts : list (option DeliveryReceipt)) : bool :=
  existsb (fun r => match r with
                    | None => false
                    | Some r => bool_decide (r_status r = ds_delivered)
                    end) receipts.

Definition aggregate (receipts : list (option DeliveryReceipt))
    : NotificationStatus :=
  if allFailed receipts then st_failed
  else if anyDelivered receipts then st_delivered else st_sent.

Definition sendNow (c : t) : M (Notification * St) unit :=
  let* notification := get_object in
  let* prefs := lift (getPreferences c (userId notification)) in
  let* receipts :=
    lift (promise_all (map (deliver c notification prefs)
                           (channels notification))) in
  update_object (set_status (aggregate receipts)) >>
  let* updated := get_object in
  lift (call (StorageSave updated) (StorageAdapter.save (storage c) updated)).

(** [sendNow] as the bundled build has it: the status is assigned only
    when there is at least one channel outcome. *)
Definition sendNow_bundled (c : t) : M (Notification * St) unit :=
  let* notification := get_object in
  let* prefs := lift (getPreferences c (userId notification)) in
  let* receipts :=
    lift (promise_all (map (deliver c notification prefs)
                           (channels notification))) in
  match receipts with
  | [] => ret tt
  | _ :: _ => update_object (set_status (aggregate receipts))
  end >>
  let* updated := get_object in
  lift (call (StorageSave updated) (StorageAdapter.save (storage c) updated)).

(* ---------- dispatch ---------- *)

Definition filtered_error : JsError :=
  mkError "Notification was filtered out by middleware".

(** The body of the [try] block of [send]. *)
Definition dispatch (c : t) (notification : Notification)
    : M (Notification * St) Notification :=
  (match queue c with
   | Some q =>
       match scheduledFor notification with
       | Some when =>
           let* now := lift (gets Date_now) in
           lift (call (QueueEnqueueDelayed notification (when - now))
                      (QueueAdapter.enqueueDelayed q notification (when - now)))
       | None =>
           lift (call (QueueEnqueue notification)
                      (QueueAdapter.enqueue q notification))
       end
   | None => sendNow c
   end) >>
  let* current := get_object in
  lift (applyAfterSendMiddleware c current) >>
  lift (notifySubscribers c current) >>
  let* now := lift (gets Date_now) in
  lift (notifyEventSubscribers c
          {| ev_type := ev_sent;
             ev_notification := current;
             timestamp := now |}) >>
  ret current.

(** The [catch] block of [send]. *)
Definition on_dispatch_error (c : t) (error : JsError)
    : M (Notification * St) Notification :=
  let* current := get_object in
  lift (applyErrorMiddleware c error current) >>
  throw error.

Definition send (c : t) (input : NotificationInput) : M St Notification :=
  let* built := buildNotification c input in
  let* kept := applyBeforeSendMiddleware c built in
  match kept with
  | None => throw filtered_error
  | Some notification =>
      call (StorageSave notification)
           (StorageAdapter.save (storage c) notification) >>
      with_object notification
        (try_catch (dispatch c notification) (on_dispatch_error c))
  end.

(* ---------- delivery status ---------- *)

Definition getDeliveryStatus (c : t) (notificationId : string)
    : M St (list DeliveryReceipt) :=
  match StorageAdapter.getReceipts (storage c) with
  | None => ret []
  | Some op => call (StorageGetReceipts notificationId) (op notificationId)
  end.

Definition not_found_error (notificationId : string) : JsError :=
  mkError ("Notification " +:+ notificationId +:+ " not found").

(** The filter of [retryFailed]: [channel] is [None] when omitted. *)
Definition retry_wanted (only : option ChannelType) (r : DeliveryReceipt)
    : bool :=
  bool_decide (r_status r = ds_failed)
  && match only with
     | None => true
     | Some ch => bool_decide (channel r = ch)
     end.

(** The body of the loop of [retryFailed]. *)
Definition retry_one (c : t) (notification : Notification)
    (receipt : DeliveryReceipt) : M St unit :=
  match transports c !! channel receipt with
  | Some transport =>
      let* prefs := getPreferences c (userId notification) in
      let* _ := call (TransportSend (channel receipt) notification prefs)
                     (TransportAdapter.send transport notification prefs) in
      ret tt
  | None => ret tt
  end.

Definition retryFailed (c : t) (notificationId : string)
    (only : option ChannelType) : M St unit :=
  let* found := call (StorageFindById notificationId)
                     (StorageAdapter.findById (storage c) notificationId) in
  match found with
  | None => throw (not_found_error notificationId)
  | Some notification =>
      let* receipts := getDeliveryStatus c notificationId in
      let failedReceipts := List.filter (retry_wanted only) receipts in
      for_each (retry_one c notification) failedReceipts
  end.

(* ---------- state management ---------- *)

Definition delete (c : t) (notificationId : string) : M St unit :=
  let* found := call (StorageFindById notificationId)
                     (StorageAdapter.findById (storage c) notificationId) in
  call (StorageDelete notificationId)
       (StorageAdapter.delete (storage c) notificationId) >>
  match found with
  | Some notification =>
      if bool_decide (status notification <> st_read) then
        let* count := call (StorageCountUnread (userId notification))
                           (StorageAdapter.countUnread (storage c) (userId notification)) in
        notifyUnreadSubscribers c (userId notification) count
      else ret tt
  | None => ret tt
  end.
End WithRuntime.
Arguments t St : clear implicits.
End NotificationCenter.

(* ===================================================================== *)
(** ** [MemoryStorageAdapter] *)
(* ===================================================================== *)

Module MemoryStorageAdapter.
(** The three maps of the adapter.  The source keeps references to the
    caller's objects; here a map holds the value the object had when it
    was stored. *)
Record t := {
    notifications : gmap string Notification;
    preferences : gmap string NotificationPreferences;
    receipts : gmap string (list DeliveryReceipt)
  }.

Definition empty : t :=
  {| notifications := ∅; preferences := ∅; receipts := ∅ |}.

Definition save (notification : Notification) (m : t) : t :=
  {| notifications := <[id notification := notification]> (notifications m);
     preferences := preferences m;
     receipts := receipts m |}.

Definition findById (nid : string) (m : t) : option Notification :=
  notifications m !! nid.

Definition countUnread (uid : string) (m : t) : Z :=
  Z.of_nat
    (length
       (List.filter
          (fun n => bool_decide (userId n = uid)
                    && bool_decide (status n <> st_read))
          (map snd (map_to_list (notifications m))))).

Definition delete (nid : string) (m : t) : t :=
  {| notifications := base.delete nid (notifications m);
     preferences := preferences m;
     receipts := base.delete nid (receipts m) |}.

Definition getPreferences (uid : string) (m : t) : NotificationPreferences :=
  default {| pref_userId := uid; pref_channels := ∅;
             globalMute := Some false; updatedAt := None;
             pref_data := None |}
          (preferences m !! uid).

Definition saveReceipt (receipt : DeliveryReceipt) (m : t) : t :=
  let existing := default [] (receipts m !! notificationId receipt) in
  {| notifications := notifications m;
     preferences := preferences m;
     receipts := <[notificationId receipt := existing ++ [receipt]]>
                   (receipts m) |}.

Definition getReceipts (nid : string) (m : t) : list DeliveryReceipt :=
  default [] (receipts m !! nid).
End MemoryStorageAdapter.

(* ===================================================================== *)
(** ** A host to run the core on: memory storage, a clock, a random source *)
(* ===================================================================== *)

Record Host := {
  mem : MemoryStorageAdapter.t;
  clock : Z;
  hour : Z;
  draws : list string;
  sends : nat
}.

Definition with_mem (f : MemoryStorageAdapter.t -> MemoryStorageAdapter.t)
    (h : Host) : Host :=
  {| mem := f (mem h); clock := clock h; hour := hour h;
     draws := draws h; sends := sends h |}.

Definition digit_value (c : ascii) : option Z :=
  let k := Z.of_nat (nat_of_ascii c) in
  if Z.leb 48 k && Z.leb k 57 then Some (k - 48) else None.

Fixpoint digits_value (acc : Z) (s : string) : option Z :=
  match s with
  | EmptyString => Some acc
  | String c rest =>
      match digit_value c with
      | Some d => digits_value (10 * acc + d) rest
      | None => None
      end
  end.

(** [Number] on a string of decimal digits (and on the empty string, which
    converts to 0); the host gives [NaN] to every other string. *)
Definition Number_digits (s : string) : JsNumber :=
  match digits_value 0 s with
  | Some z => js_of_Z z
  | None => NaN
  end.

Global Instance Host_runtime : Runtime Host := {|
  Date_now := clock;
  Date_getHours := hour;
  Math_random_base36 := fun h =>
    match draws h with
    | [] => (EmptyString, h)
    | r :: rest =>
        (r, {| mem := mem h; clock := clock h; hour := hour h;
               draws := rest; sends := sends h |})
    end;
  Number := Number_digits
|}.

Definition memory_storage : StorageAdapter.t Host :=
  {| StorageAdapter.save := fun n h =>
       (Ok tt, with_mem (MemoryStorageAdapter.save n) h);
     StorageAdapter.findById := fun nid h =>
       (Ok (MemoryStorageAdapter.findById nid (mem h)), h);
     StorageAdapter.countUnread := fun uid h =>
       (Ok (MemoryStorageAdapter.countUnread uid (mem h)), h);
     StorageAdapter.delete := fun nid h =>
       (Ok tt, with_mem (MemoryStorageAdapter.delete nid) h);
     StorageAdapter.getPreferences := fun uid h =>
       (Ok (MemoryStorageAdapter.getPreferences uid (mem h)), h);
     StorageAdapter.saveReceipt := Some (fun r h =>
       (Ok tt, with_mem (MemoryStorageAdapter.saveReceipt r) h));
     StorageAdapter.getReceipts := Some (fun nid h =>
       (Ok (MemoryStorageAdapter.getReceipts nid (mem h)), h)) |}.

Definition console_transport (ch : ChannelType) : TransportAdapter.t Host :=
  {| TransportAdapter.name := ch;
     TransportAdapter.send := fun n _ h =>
       (Ok (ConsoleTransportAdapter.send ch n h), h);
     TransportAdapter.canSend := fun n prefs h =>
       (Ok (ConsoleTransportAdapter.canSend ch n prefs h), h) |}.

Definition host0 : Host :=
  {| mem := MemoryStorageAdapter.empty; clock := 1700000000000; hour := 10;
     draws := ["k3x9q2m1z"; "a0b1c2d3e"]; sends := 0 |}.


(* ===================================================================== *)
(** ** Sample data *)
(* ===================================================================== *)

Definition at_hour (h : Z) : Host :=
  {| mem := mem host0; clock := clock host0; hour := h;
     draws := draws host0; sends := sends host0 |}.

Definition sample_notification (cat : option string) : Notification :=
  {| id := "n1"; type := Some "comment"; title := Some "New comment";
     body := Some "Someone replied"; data := None; userId := "u1";
     groupId := None; priority := normal; category := cat;
     status := st_pending; readAt := None; createdAt := 0;
     scheduledFor := None; expiresAt := None; channels := [inapp];
     actions := None |}.

Definition prefs_for (ch : ChannelType) (cp : ChannelPreferences)
    : NotificationPreferences :=
  {| pref_userId := "u1"; pref_channels := {[ ch := cp ]};
     globalMute := None; updatedAt := None; pref_data := None |}.

Definition billing_only : ChannelPreferences :=
  {| enabled := true; categories := Some ["billing"];
     quietHours := None; frequency := None |}.

Definition quiet_window (from to : string) : ChannelPreferences :=
  {| enabled := true; categories := None;
     quietHours := Some {| start := from; end_ := to; timezone := None |};
     frequency := None |}.

(* ===================================================================== *)
(** ** Vocabulary for statements about the log of calls *)
(* ===================================================================== *)

(** Every call a computation makes, from every state, satisfies [P]. *)
Definition logs {W A : Type} (P : Event -> Prop) (m : M W A) : Prop :=
  forall s, Forall P (snd (m s)).

(** The calls that hand a notification over for delivery. *)
Definition is_delivery_call (ev : Event) : bool :=
  match ev with
  | QueueEnqueue _ | QueueEnqueueDelayed _ _ | TransportSend _ _ _ => true
  | _ => false
  end.

Definition delivered_notification (ev : Event) : option Notification :=
  match ev with
  | QueueEnqueue n | QueueEnqueueDelayed n _ | TransportSend _ n _ => Some n
  | _ => None
  end.

(** A delivery call, if it is one, is for [n]. *)
Definition about (n : Notification) (ev : Event) : Prop :=
  is_delivery_call ev = true -> delivered_notification ev = Some n.

Definition is_CallBeforeSend (ev : Event) : bool :=
  match ev with CallBeforeSend _ _ => true | _ => false end.

Definition is_CallOnError (ev : Event) : bool :=
  match ev with CallOnError _ _ _ => true | _ => false end.

Definition is_StorageSave (ev : Event) : bool :=
  match ev with StorageSave _ => true | _ => false end.

Definition is_publish (ev : Event) : bool :=
  match ev with
  | PublishNotification _ _ _ | PublishEvent _ _ _ | PublishUnread _ _ _ => true
  | _ => false
  end.

Definition has_beforeSend {St : Type} (m : NotificationMiddleware.t St)
    : bool :=
  match NotificationMiddleware.beforeSend m with
  | Some _ => true
  | None => false
  end.

Definition has_onError {St : Type} (m : NotificationMiddleware.t St) : bool :=
  match NotificationMiddleware.onError m with
  | Some _ => true
  | None => false
  end.

Definition has_transport {St : Type} (c : NotificationCenter.t St)
    (r : DeliveryReceipt) : bool :=
  match NotificationCenter.transports c !! channel r with
  | Some _ => true
  | None => false
  end.

(** The channels of the transport sends of a log, in call order. *)
Definition sent_channels (log : list Event) : list ChannelType :=
  flat_map (fun ev => match ev with
                      | TransportSend ch _ _ => [ch]
                      | _ => []
                      end) log.

(** A receipt as the aggregation rule of [sendNow] sees it. *)
Definition skipped_or_failed (r : option DeliveryReceipt) : Prop :=
  r = None \/ exists receipt, r = Some receipt /\ r_status receipt = ds_failed.

Definition is_delivered (r : option DeliveryReceipt) : Prop :=
  exists receipt, r = Some receipt /\ r_status receipt = ds_delivered.

(** The expiry a template gives when the input has none. *)
Definition template_expiry (tpl : NotificationTemplate) (now : Z) : option Z :=
  if truthy_number (d_expiresIn (defaults tpl))
  then Some (now + default 0 (d_expiresIn (defaults tpl)))
  else None.

(* ===================================================================== *)
(** ** Sample collaborators and centers on the host *)
(* ===================================================================== *)

(** A transport whose [send] reports the given status. *)
Definition reporting_transport (ch : ChannelType) (s : DeliveryStatus)
    : TransportAdapter.t Host :=
  {| TransportAdapter.name := ch;
     TransportAdapter.send := fun n _ h =>
       (Ok {| notificationId := id n; channel := ch; r_status := s;
              attempts := 1; lastAttempt := clock h; nextRetry := None;
              error := None; metadata := None |}, h);
     TransportAdapter.canSend := fun _ _ h => (Ok true, h) |}.

(** A transport whose [send] throws. *)
Definition throwing_transport (ch : ChannelType) : TransportAdapter.t Host :=
  {| TransportAdapter.name := ch;
     TransportAdapter.send := fun _ _ h => (Throw (mkError "provider down"), h);
     TransportAdapter.canSend := fun _ _ h => (Ok true, h) |}.

(** A transport whose first [send] throws and whose later ones deliver. *)
Definition flaky_transport (ch : ChannelType) : TransportAdapter.t Host :=
  {| TransportAdapter.name := ch;
     TransportAdapter.send := fun n _ h =>
       let h' := {| mem := mem h; clock := clock h; hour := hour h;
                    draws := draws h; sends := S (sends h) |} in
       match sends h with
       | O => (Throw (mkError "provider down"), h')
       | S _ =>
           (Ok {| notificationId := id n; channel := ch;
                  r_status := ds_delivered; attempts := 1;
                  lastAttempt := clock h; nextRetry := None;
                  error := None; metadata := None |}, h')
       end;
     TransportAdapter.canSend := fun _ _ h => (Ok true, h) |}.

(** A storage whose [save] throws. *)
Definition full_storage : StorageAdapter.t Host :=
  {| StorageAdapter.save := fun _ h => (Throw (mkError "disk full"), h);
     StorageAdapter.findById := StorageAdapter.findById memory_storage;
     StorageAdapter.countUnread := StorageAdapter.countUnread memory_storage;
     StorageAdapter.delete := StorageAdapter.delete memory_storage;
     StorageAdapter.getPreferences :=
       StorageAdapter.getPreferences memory_storage;
     StorageAdapter.saveReceipt := StorageAdapter.saveReceipt memory_storage;
     StorageAdapter.getReceipts := StorageAdapter.getReceipts memory_storage |}.

(** A queue that is down. *)
Definition down_queue : QueueAdapter.t Host :=
  {| QueueAdapter.enqueue := fun _ h => (Throw (mkError "queue down"), h);
     QueueAdapter.enqueueDelayed := fun _ _ h =>
       (Throw (mkError "queue down"), h) |}.

Definition audit_middleware : NotificationMiddleware.t Host :=
  {| NotificationMiddleware.name := "audit";
     NotificationMiddleware.beforeSend := Some (fun n h => (Ok (Some n), h));
     NotificationMiddleware.afterSend := None;
     NotificationMiddleware.onError := Some (fun _ _ h => (Ok tt, h)) |}.

(** The rate limiter of [middleware.ts] once the limit is reached. *)
Definition rate_limit_middleware : NotificationMiddleware.t Host :=
  {| NotificationMiddleware.name := "rate-limit";
     NotificationMiddleware.beforeSend := Some (fun _ h => (Ok None, h));
     NotificationMiddleware.afterSend := None;
     NotificationMiddleware.onError := None |}.

Definition stamp_middleware : NotificationMiddleware.t Host :=
  {| NotificationMiddleware.name := "stamp";
     NotificationMiddleware.beforeSend := Some (fun n h => (Ok (Some n), h));
     NotificationMiddleware.afterSend := Some (fun _ h => (Ok tt, h));
     NotificationMiddleware.onError := Some (fun _ _ h => (Ok tt, h)) |}.

Definition center_with (storage : StorageAdapter.t Host)
    (transports : list (TransportAdapter.t Host))
    (queue : option (QueueAdapter.t Host))
    (middleware : list (NotificationMiddleware.t Host))
    : NotificationCenter.t Host :=
  NotificationCenter.constructor
    {| cfg_storage := storage; cfg_transports := transports;
       cfg_queue := queue; cfg_middleware := Some middleware |}.

(** The quick start of the README: console transports for in-app and push. *)
Definition center0 : NotificationCenter.t Host :=
  center_with memory_storage [console_transport inapp; console_transport push]
              None [].

Definition input0 : NotificationInput :=
  {| in_type := Some "comment"; in_title := Some "New Comment";
     in_body := Some "Someone replied to your post"; in_userId := "u1";
     in_groupId := None; in_data := None; in_priority := Some normal;
     in_category := None; in_channels := [inapp; push];
     in_scheduledFor := None; in_expiresAt := None; in_actions := None;
     in_template := None |}.

Definition input_without_channels : NotificationInput :=
  {| in_type := Some "comment"; in_title := Some "New Comment";
     in_body := Some "Someone replied to your post"; in_userId := "u1";
     in_groupId := None; in_data := None; in_priority := Some normal;
     in_category := None; in_channels := [];
     in_scheduledFor := None; in_expiresAt := None; in_actions := None;
     in_template := None |}.

(** Three channels whose transports report delivered, failed, delivered. *)
Definition center_mixed : NotificationCenter.t Host :=
  center_with memory_storage
    [reporting_transport inapp ds_delivered;
     reporting_transport email ds_failed;
     reporting_transport push ds_delivered] None [].

(** Two channels whose transports both throw. *)
Definition center_throwing : NotificationCenter.t Host :=
  center_with memory_storage
    [throwing_transport inapp; throwing_transport email] None [].

Definition notification_on (chs : list ChannelType) : Notification :=
  {| id := "n1"; type := Some "comment"; title := Some "New comment";
     body := Some "Someone replied"; data := None; userId := "u1";
     groupId := None; priority := normal; category := None;
     status := st_pending; readAt := None; createdAt := 0;
     scheduledFor := None; expiresAt := None; channels := chs;
     actions := None |}.

Definition center_filtering : NotificationCenter.t Host :=
  center_with memory_storage [console_transport inapp; console_transport push]
              None [audit_middleware; rate_limit_middleware; stamp_middleware].

Definition center_full_storage : NotificationCenter.t Host :=
  center_with full_storage [console_transport inapp; console_transport push]
              None [audit_middleware].

Definition center_down_queue : NotificationCenter.t Host :=
  center_with memory_storage [console_transport inapp; console_transport push]
              (Some down_queue) [audit_middleware; stamp_middleware].

(** [title: (d) => "Welcome " + d.name] *)
Definition welcome_title (d : option Data) : Result string :=
  match d with
  | Some fields => Ok ("Welcome " +:+ default "undefined" (fields !! "name"))
  | None => Throw (mkError "Cannot read properties of undefined (reading 'name')")
  end.

Definition welcome : NotificationTemplate :=
  {| tpl_id := "welcome"; tpl_type := "system";
     defaults := {| d_title := Computed welcome_title;
                    d_body := Literal "Thanks for signing up";
                    d_channels := [inapp; email];
                    d_priority := normal;
                    d_category := Some "onboarding";
                    d_expiresIn := Some 86400000 |} |}.

Definition center_welcome : NotificationCenter.t Host :=
  NotificationCenter.registerTemplate center0 welcome.

(** [{template:"welcome", userId:"u1", data:{name:"Ann"}, channels:[]}],
    with the title the caller may add. *)
Definition input_welcome (given_title : option string) : NotificationInput :=
  {| in_type := None; in_title := given_title; in_body := None;
     in_userId := "u1"; in_groupId := None;
     in_data := Some {[ "name" := "Ann" ]}; in_priority := None;
     in_category := None; in_channels := [];
     in_scheduledFor := None; in_expiresAt := None; in_actions := None;
     in_template := Some "welcome" |}.

Definition receipt_of (nid : string) (ch : ChannelType) (s : DeliveryStatus)
    : DeliveryReceipt :=
  {| notificationId := nid; channel := ch; r_status := s; attempts := 1;
     lastAttempt := 0; nextRetry := None; error := None; metadata := None |}.

(** A host that stores [n1], with a failed and then a delivered receipt for
    its e-mail channel. *)
Definition host_retried : Host :=
  with_mem (fun m =>
              MemoryStorageAdapter.saveReceipt (receipt_of "n1" email ds_delivered)
                (MemoryStorageAdapter.saveReceipt (receipt_of "n1" email ds_failed)
                   (MemoryStorageAdapter.save (notification_on [email]) m)))
           host0.

Definition center_email : NotificationCenter.t Host :=
  center_with memory_storage [console_transport email] None [].

Definition center_flaky : NotificationCenter.t Host :=
  center_with memory_storage [flaky_transport email] None [].

(** The host after two delivery passes over [n1] on [center_flaky]. *)
Definition host_after_two_passes : Host :=
  let pass (h : Host) : Host :=
    snd (snd (fst (NotificationCenter.sendNow center_flaky
                     (notification_on [email], h)))) in
  pass (pass host0).

(** A host that stores the unread [n1]; a center where its owner listens to
    the unread count. *)
Definition host_unread : Host :=
  with_mem (MemoryStorageAdapter.save (notification_on [inapp])) host0.

Definition center_listening : NotificationCenter.t Host :=
  NotificationCenter.onUnreadCountChange center0 "u1" (fun _ _ h => (Ok tt, h)).

(** The host once the first random suffix is drawn, and what [input0]
    builds on [host0]. *)
Definition host1 : Host :=
  {| mem := mem host0; clock := clock host0; hour := hour host0;
     draws := ["a0b1c2d3e"]; sends := sends host0 |}.

Definition built0 : Notification :=
  {| id := "notif_1700000000000_k3x9q2m1z"; type := Some "comment";
     title := Some "New Comment";
     body := Some "Someone replied to your post"; data := None;
     userId := "u1"; groupId := None; priority := normal; category := None;
     status := st_pending; readAt := None; createdAt := 1700000000000;
     scheduledFor := None; expiresAt := None; channels := [inapp; push];
     actions := None |}.

(* ===================================================================== *)
(** ** Intervals *)
(* ===================================================================== *)

(** What a running interval does on each tick. *)
Inductive TimerJob :=
| WorkerJob (concurrency : Z)
| CleanupJob
| DelayedJob.

(** The intervals an object has set and that are running, oldest first, each
    with its handle, its job and its period, and the next handle to give
    out. *)
Record Timers := {
  running : list (nat * (TimerJob * Z));
  fresh : nat
}.

(** [setInterval(job, ms)] *)
Definition setInterval (job : TimerJob) (ms : Z) (t : Timers)
    : nat * Timers :=
  (fresh t,
   {| running := running t ++ [(fresh t, (job, ms))];
      fresh := Datatypes.S (fresh t) |}).

(** [clearInterval(handle)] *)
Definition clearInterval (handle : nat) (t : Timers) : Timers :=
  {| running := List.filter (fun entry => negb (Nat.eqb (fst entry) handle))
                            (running t);
     fresh := fresh t |}.

(* ===================================================================== *)
(** ** [MemoryQueueAdapter] *)
(* ===================================================================== *)

Module MemoryQueueAdapter.
(** The fields of the adapter; an entry of [delayedQueue] carries the time
    of its [executeAt], and [intervals] are the intervals the adapter has
    set. *)
Record t := {
  queue : list Notification;
  delayedQueue : list (Notification * Z);
  isRunning : bool;
  checkInterval : option nat;
  intervals : Timers
}.

Definition empty : t :=
  {| queue := []; delayedQueue := []; isRunning := false;
     checkInterval := None; intervals := {| running := []; fresh := 0 |} |}.

Definition enqueue (notification : Notification) (q : t) : t :=
  {| queue := queue q ++ [notification];
     delayedQueue := delayedQueue q; isRunning := isRunning q;
     checkInterval := checkInterval q; intervals := intervals q |}.

Definition enqueueBatch (notifications : list Notification) (q : t) : t :=
  {| queue := queue q ++ notifications;
     delayedQueue := delayedQueue q; isRunning := isRunning q;
     checkInterval := checkInterval q; intervals := intervals q |}.

(** [now] is [Date.now()] at the call. *)
Definition enqueueDelayed (notification : Notification) (delay : Z) (now : Z)
    (q : t) : t :=
  {| queue := queue q;
     delayedQueue := delayedQueue q ++ [(notification, now + delay)];
     isRunning := isRunning q;
     checkInterval := checkInterval q; intervals := intervals q |}.

(** [this.queue.shift() || null] *)
Definition dequeue (q : t) : option Notification * t :=
  match queue q with
  | [] => (None, q)
  | first :: rest =>
      (Some first,
       {| queue := rest; delayedQueue := delayedQueue q;
          isRunning := isRunning q;
          checkInterval := checkInterval q; intervals := intervals q |})
  end.

(** [this.queue.splice(0, count)]: a negative count removes nothing. *)
Definition dequeueBatch (count : Z) (q : t) : list Notification * t :=
  (firstn (Z.to_nat count) (queue q),
   {| queue := skipn (Z.to_nat count) (queue q);
      delayedQueue := delayedQueue q; isRunning := isRunning q;
      checkInterval := checkInterval q; intervals := intervals q |}).


Definition clear (q : t) : t :=
  {| queue := []; delayedQueue := []; isRunning := isRunning q;
     checkInterval := checkInterval q; intervals := intervals q |}.


(** [start]: the check for delayed entries runs every second. *)
Definition start (q : t) : t :=
  match setInterval DelayedJob 1000 (intervals q) with
  | (handle, intervals') =>
      {| queue := queue q; delayedQueue := delayedQueue q;
         isRunning := true;
         checkInterval := Some handle; intervals := intervals' |}
  end.

Definition stop (q : t) : t :=
  {| queue := queue q; delayedQueue := delayedQueue q;
     isRunning := false;
     checkInterval := checkInterval q;
     intervals := match checkInterval q with
                  | Some handle => clearInterval handle (intervals q)
                  | None => intervals q
                  end |}.

(** The queue after [k] calls of [dequeue], with what they returned. *)
Fixpoint dequeue_times (k : nat) (q : t)
    : list (option Notification) * t :=
  match k with
  | O => ([], q)
  | S k' =>
      let '(first, q1) := dequeue q in
      let '(others, q2) := dequeue_times k' q1 in
      (first :: others, q2)
  end.

End MemoryQueueAdapter.

(* ===================================================================== *)
(** ** [MemoryStorageAdapter]: queries, read marks, expiry *)
(* ===================================================================== *)

(** [T | T[]] *)
Inductive OneOrMany (A : Type) := One (a : A) | Many (l : list A).
Arguments One {A} a.
Arguments Many {A} l.

(** [Array.isArray(x) ? x : [x]] *)
Definition as_array {A : Type} (x : OneOrMany A) : list A :=
  match x with
  | One a => [a]
  | Many l => l
  end.

Inductive SortBy := by_createdAt | by_priority | by_readAt.
Inductive SortOrder := asc | desc.

Record NotificationFilters := {
  f_status : option (OneOrMany NotificationStatus);
  f_type : option (OneOrMany string);
  f_category : option (OneOrMany string);
  f_channels : option (OneOrMany ChannelType);
  f_priority : option (OneOrMany NotificationPriority);
  f_startDate : option Z;
  f_endDate : option Z;
  f_limit : option Z;
  f_offset : option Z;
  f_sortBy : option SortBy;
  f_sortOrder : option SortOrder
}.

(** [{}] *)
Definition no_filters : NotificationFilters :=
  {| f_status := None; f_type := None; f_category := None;
     f_channels := None; f_priority := None; f_startDate := None;
     f_endDate := None; f_limit := None; f_offset := None;
     f_sortBy := None; f_sortOrder := None |}.

(** [!!x] for a string or an array of strings: only the empty string is
    falsy. *)
Definition truthy_strings (x : option (OneOrMany string)) : bool :=
  match x with
  | Some (One s) => negb (String.eqb s EmptyString)
  | Some (Many _) => true
  | None => false
  end.

(** The name of a priority, which is what the code compares. *)
Definition priority_name (p : NotificationPriority) : string :=
  match p with
  | low => "low" | normal => "normal" | high => "high" | urgent => "urgent"
  end.

(** The value of [a[sortBy]]: a date or a string, or [None] for
    [undefined]. *)
Inductive SortValue := DateValue (t : Z) | TextValue (s : string).

Definition sort_value (key : SortBy) (n : Notification) : option SortValue :=
  match key with
  | by_createdAt => Some (DateValue (createdAt n))
  | by_priority => Some (TextValue (priority_name (priority n)))
  | by_readAt => DateValue <$> readAt n
  end.

(** [aVal < bVal] on two dates or on two strings. *)
Definition sort_value_lt (a b : SortValue) : bool :=
  match a, b with
  | DateValue x, DateValue y => Z.ltb x y
  | TextValue x, TextValue y =>
      match String.compare x y with Lt => true | _ => false end
  | _, _ => false
  end.

(** The comparator handed to [results.sort]. *)
Definition compare_notifications (key : SortBy) (order : SortOrder)
    (a b : Notification) : Z :=
  match sort_value key a, sort_value key b with
  | Some aVal, Some bVal =>
      let comparison :=
        if sort_value_lt aVal bVal then -1
        else if sort_value_lt bVal aVal then 1 else 0 in
      match order with
      | asc => comparison
      | desc => - comparison
      end
  | _, _ => 0
  end.

(** [Array.prototype.sort] with a comparator: the stable arrangement, which
    is what every engine returns when the comparator is consistent (with
    [readAt] and notifications never read it is not, and the standard then
    leaves the order to the engine). *)
Fixpoint sort_insert {A : Type} (cmp : A -> A -> Z) (x : A) (l : list A)
    : list A :=
  match l with
  | [] => [x]
  | y :: rest =>
      if Z.leb (cmp x y) 0 then x :: y :: rest
      else y :: sort_insert cmp x rest
  end.

Definition Array_sort {A : Type} (cmp : A -> A -> Z) (l : list A) : list A :=
  fold_right (sort_insert cmp) [] l.

(** A relative index of [slice], clamped to the array. *)
Definition slice_index (k : Z) (len : nat) : nat :=
  if Z.ltb k 0 then Z.to_nat (Z.max (Z.of_nat len + k) 0)
  else Nat.min (Z.to_nat k) len.

(** [l.slice(from)] and [l.slice(0, to)]. *)
Definition slice_from {A : Type} (from : Z) (l : list A) : list A :=
  skipn (slice_index from (length l)) l.

Definition slice_to {A : Type} (to : Z) (l : list A) : list A :=
  firstn (slice_index to (length l)) l.

Module MemoryStorageQueries.
(** The remaining methods of [MemoryStorageAdapter], over the same maps. *)

Definition saveBatch (notifications : list Notification)
    (m : MemoryStorageAdapter.t) : MemoryStorageAdapter.t :=
  fold_left (fun acc n => MemoryStorageAdapter.save n acc) notifications m.

(** [Array.from(this.notifications.values())]; the map of the model does not
    keep the insertion order of the source's [Map]. *)
Definition values (m : MemoryStorageAdapter.t) : list Notification :=
  map snd (map_to_list (MemoryStorageAdapter.notifications m)).

Definition matches_status (f : NotificationFilters) (n : Notification) : bool :=
  match f_status f with
  | Some statuses => bool_decide (status n ∈ as_array statuses)
  | None => true
  end.

Definition matches_type (f : NotificationFilters) (n : Notification) : bool :=
  if truthy_strings (f_type f) then
    match type n with
    | Some ty => includes (default [] (as_array <$> f_type f)) ty
    | None => false
    end
  else true.

Definition matches_category (f : NotificationFilters) (n : Notification)
    : bool :=
  if truthy_strings (f_category f) then
    truthy_string (category n)
    && includes (default [] (as_array <$> f_category f))
                (default EmptyString (category n))
  else true.

Definition matches_startDate (f : NotificationFilters) (n : Notification)
    : bool :=
  match f_startDate f with
  | Some d => Z.leb d (createdAt n)
  | None => true
  end.

Definition matches_endDate (f : NotificationFilters) (n : Notification)
    : bool :=
  match f_endDate f with
  | Some d => Z.leb (createdAt n) d
  | None => true
  end.

(** The body of [findByUser] on the array of the stored values. *)
Definition findByUser_in (stored : list Notification) (uid : string)
    (filters : option NotificationFilters) : list Notification :=
  let results := List.filter (fun n => bool_decide (userId n = uid)) stored in
  match filters with
  | None => results
  | Some f =>
      let results := List.filter (matches_status f) results in
      let results := List.filter (matches_type f) results in
      let results := List.filter (matches_category f) results in
      let results := List.filter (matches_startDate f) results in
      let results := List.filter (matches_endDate f) results in
      let sortBy := default by_createdAt (f_sortBy f) in
      let sortOrder := default desc (f_sortOrder f) in
      let results :=
        Array_sort (compare_notifications sortBy sortOrder) results in
      let results :=
        if truthy_number (f_offset f)
        then slice_from (default 0 (f_offset f)) results
        else results in
      if truthy_number (f_limit f)
      then slice_to (default 0 (f_limit f)) results
      else results
  end.

Definition findByUser (uid : string) (filters : option NotificationFilters)
    (m : MemoryStorageAdapter.t) : list Notification :=
  findByUser_in (values m) uid filters.

Definition mark_read (now : Z) (n : Notification) : Notification :=
  {| id := id n; type := type n; title := title n; body := body n;
     data := data n; userId := userId n; groupId := groupId n;
     priority := priority n; category := category n;
     status := st_read;
     readAt := Some now; createdAt := createdAt n;
     scheduledFor := scheduledFor n; expiresAt := expiresAt n;
     channels := channels n; actions := actions n |}.

Definition with_notifications (f : gmap string Notification ->
                                   gmap string Notification)
    (m : MemoryStorageAdapter.t) : MemoryStorageAdapter.t :=
  {| MemoryStorageAdapter.notifications :=
       f (MemoryStorageAdapter.notifications m);
     MemoryStorageAdapter.preferences := MemoryStorageAdapter.preferences m;
     MemoryStorageAdapter.receipts := MemoryStorageAdapter.receipts m |}.

(** [now] is the [new Date()] of the call. *)
Definition markAsRead (nid : string) (now : Z) (m : MemoryStorageAdapter.t)
    : MemoryStorageAdapter.t :=
  match MemoryStorageAdapter.notifications m !! nid with
  | Some notification =>
      with_notifications (fun ns => <[nid := mark_read now notification]> ns) m
  | None => m
  end.

Definition is_unread_of (uid : string) (n : Notification) : bool :=
  bool_decide (userId n = uid) && bool_decide (status n <> st_read).

Definition markAllAsRead (uid : string) (now : Z) (m : MemoryStorageAdapter.t)
    : MemoryStorageAdapter.t :=
  fold_left
    (fun acc n =>
       with_notifications (fun ns => <[id n := mark_read now n]> ns) acc)
    (List.filter (is_unread_of uid) (values m)) m.

Definition savePreferences (uid : string) (prefs : NotificationPreferences)
    (m : MemoryStorageAdapter.t) : MemoryStorageAdapter.t :=
  {| MemoryStorageAdapter.notifications := MemoryStorageAdapter.notifications m;
     MemoryStorageAdapter.preferences :=
       <[uid := prefs]> (MemoryStorageAdapter.preferences m);
     MemoryStorageAdapter.receipts := MemoryStorageAdapter.receipts m |}.

Definition is_expired (now : Z) (n : Notification) : bool :=
  match expiresAt n with
  | Some t => Z.ltb t now
  | None => false
  end.

(** The count returned and the maps left. *)
Definition deleteExpired (now : Z) (m : MemoryStorageAdapter.t)
    : Z * MemoryStorageAdapter.t :=
  let expired := List.filter (is_expired now) (values m) in
  (Z.of_nat (length expired),
   fold_left
     (fun acc n => with_notifications (fun ns => base.delete (id n) ns) acc)
     expired m).
End MemoryStorageQueries.

(** Every key of the notifications map is the id of what it holds. *)
Definition well_keyed (m : MemoryStorageAdapter.t) : Prop :=
  forall k n, MemoryStorageAdapter.notifications m !! k = Some n -> id n = k.

(** How many stored notifications satisfy [p]. *)
Definition count_stored (p : Notification -> bool)
    (ns : gmap string Notification) : nat :=
  length (List.filter p (map snd (map_to_list ns))).

(** [filters] with the given [offset] and [limit]. *)
Definition paged (offset limit : option Z) (f : NotificationFilters)
    : NotificationFilters :=
  {| f_status := f_status f; f_type := f_type f; f_category := f_category f;
     f_channels := f_channels f; f_priority := f_priority f;
     f_startDate := f_startDate f; f_endDate := f_endDate f;
     f_limit := limit; f_offset := offset;
     f_sortBy := f_sortBy f; f_sortOrder := f_sortOrder f |}.

(** The place of a priority when the names are put in alphabetical order:
    high, low, normal, urgent. *)
Definition priority_rank (p : NotificationPriority) : Z :=
  match p with
  | high => 0 | low => 1 | normal => 2 | urgent => 3
  end.

(** The number a sort key orders by. *)
Definition sort_rank (key : SortBy) (n : Notification) : Z :=
  match key with
  | by_priority => priority_rank (priority n)
  | _ => createdAt n
  end.

(** A store with three notifications of one user and one of another. *)
Definition stored_note (nid uid : string) (p : NotificationPriority)
    (s : NotificationStatus) (created : Z) (expires : option Z)
    : Notification :=
  {| id := nid; type := Some "comment"; title := Some "New comment";
     body := Some "Someone replied"; data := None; userId := uid;
     groupId := None; priority := p; category := Some "social";
     status := s; readAt := None; createdAt := created;
     scheduledFor := None; expiresAt := expires; channels := [inapp; email];
     actions := None |}.

Definition sample_notes : list Notification :=
  [ stored_note "n1" "u1" normal st_delivered 100 None;
    stored_note "n2" "u1" urgent st_read 300 (Some 400);
    stored_note "n3" "u2" low st_sent 200 None;
    stored_note "n4" "u1" high st_failed 200 (Some 250) ].

Definition sample_store : MemoryStorageAdapter.t :=
  MemoryStorageQueries.saveBatch sample_notes MemoryStorageAdapter.empty.

Definition recent_first : NotificationFilters :=
  {| f_status := Some (Many [st_delivered; st_failed; st_read]);
     f_type := Some (One "comment"); f_category := Some (One "social");
     f_channels := None; f_priority := None; f_startDate := Some 100;
     f_endDate := None; f_limit := None; f_offset := Some 0;
     f_sortBy := None; f_sortOrder := None |}.

(* ===================================================================== *)
(** ** [NotificationCenter]: the other methods *)
(* ===================================================================== *)

(** The methods of the storage and queue contracts that [send], [sendNow],
    [retryFailed] and [delete] do not call. *)
Module StorageQueries.
Record t (St : Type) := {
    findByUser : string -> option NotificationFilters ->
                 Eff St (list Notification);
    markAsRead : string -> Eff St unit;
    markAllAsRead : string -> Eff St unit;
    savePreferences : string -> NotificationPreferences -> Eff St unit;
    deleteExpired : Eff St Z
  }.
Arguments findByUser {St}. Arguments markAsRead {St}.
Arguments markAllAsRead {St}. Arguments savePreferences {St}.
Arguments deleteExpired {St}.
End StorageQueries.

Module QueueWorker.
Record t (St : Type) := {
    dequeueBatch : Z -> Eff St (list Notification);
    start : Eff St unit;
    stop : Eff St unit
  }.
Arguments dequeueBatch {St}. Arguments start {St}. Arguments stop {St}.
End QueueWorker.

(** A call to a collaborator that has no entry in the log of calls. *)
Definition await {St A} (op : Eff St A) : M St A :=
  fun st => match op st with (r, st1) => (r, st1, []) end.

(** A computation over the collaborators' state, run beside a local
    state. *)
Definition beside {X St A} (m : M St A) : M (X * St) A :=
  fun s =>
    match m (snd s) with
    | (r, st1, log) => (r, (fst s, st1), log)
    end.

Definition get_local {X St} : M (X * St) X := gets fst.

Definition set_local {X St} (f : X -> X) : M (X * St) unit :=
  fun s => (Ok tt, (f (fst s), snd s), []).

(** [Partial<NotificationPreferences>]: a field is [None] when the key is
    absent. *)
Record PartialPreferences := {
  pp_userId : option string;
  pp_channels : option (gmap ChannelType ChannelPreferences);
  pp_globalMute : option (option bool);
  pp_updatedAt : option (option Z);
  pp_data : option (option Data)
}.

Definition NotificationStatus_code (s : NotificationStatus) : nat :=
  match s with
  | st_pending => 0 | st_sent => 1 | st_delivered => 2
  | st_failed => 3 | st_read => 4
  end%nat.

Definition NotificationStatus_of_code (k : nat) : option NotificationStatus :=
  match k with
  | 0 => Some st_pending | 1 => Some st_sent | 2 => Some st_delivered
  | 3 => Some st_failed | 4 => Some st_read | _ => None
  end%nat.

Global Instance NotificationStatus_countable : Countable NotificationStatus.
Proof.
  refine (inj_countable NotificationStatus_code NotificationStatus_of_code _).
  intros []; reflexivity.
Defined.

Global Instance NotificationPriority_eq_dec : EqDecision NotificationPriority.
Proof. solve_decision. Defined.

Definition NotificationPriority_code (p : NotificationPriority) : nat :=
  match p with
  | low => 0 | normal => 1 | high => 2 | urgent => 3
  end%nat.

Definition NotificationPriority_of_code (k : nat)
    : option NotificationPriority :=
  match k with
  | 0 => Some low | 1 => Some normal | 2 => Some high | 3 => Some urgent
  | _ => None
  end%nat.

Global Instance NotificationPriority_countable
  : Countable NotificationPriority.
Proof.
  refine (inj_countable NotificationPriority_code
                        NotificationPriority_of_code _).
  intros []; reflexivity.
Defined.

(** [NotificationStats]; a key of a record is present once it was counted. *)
Record NotificationStats := {
  total : Z;
  unread : Z;
  byStatus : gmap NotificationStatus Z;
  byChannel : gmap ChannelType Z;
  byPriority : gmap NotificationPriority Z
}.

(** [counts[key] = (counts[key] || 0) + 1] *)
Definition count_one {K : Type} `{Countable K} (key : K) (counts : gmap K Z)
    : gmap K Z :=
  <[key := default 0 (counts !! key) + 1]> counts.

(** The settings of [NotificationConfig] for the worker and the cleanup. *)
Record WorkerSettings := {
  w_enabled : option bool;
  w_concurrency : option Z;
  w_pollInterval : option Z
}.

Record CleanupSettings := {
  c_enabled : option bool;
  c_interval : option Z;
  c_retentionDays : option Z
}.

Record Settings := {
  workers : option WorkerSettings;
  cleanup : option CleanupSettings
}.

(** The fields [isRunning] and [workerInterval] of the center, and the
    intervals it has set. *)
Record Lifecycle := {
  isRunning : bool;
  workerInterval : option nat;
  timers : Timers
}.

Module CenterMethods.
Section WithRuntime.
Context {St : Type} `{Runtime St}.

Definition with_scheduledFor (when : Z) (input : NotificationInput)
    : NotificationInput :=
  {| in_type := in_type input; in_title := in_title input;
     in_body := in_body input; in_userId := in_userId input;
     in_groupId := in_groupId input; in_data := in_data input;
     in_priority := in_priority input; in_category := in_category input;
     in_channels := in_channels input;
     in_scheduledFor := Some when;
     in_expiresAt := in_expiresAt input; in_actions := in_actions input;
     in_template := in_template input |}.

Definition schedule (c : NotificationCenter.t St)
    (input : NotificationInput) (when : Z) : M St string :=
  let* notification :=
    NotificationCenter.send c (with_scheduledFor when input) in
  ret (id notification).

(* ---------- querying ---------- *)

Definition getForUser (s : StorageQueries.t St) (uid : string)
    (filters : option NotificationFilters) : M St (list Notification) :=
  await (StorageQueries.findByUser s uid filters).

Definition getUnreadCount (c : NotificationCenter.t St) (uid : string)
    : M St Z :=
  call (StorageCountUnread uid)
       (StorageAdapter.countUnread (NotificationCenter.storage c) uid).

Definition getById (c : NotificationCenter.t St) (nid : string)
    : M St (option Notification) :=
  call (StorageFindById nid)
       (StorageAdapter.findById (NotificationCenter.storage c) nid).

(** The body of [all.forEach] in [getStats]. *)
Definition count_notification (stats : NotificationStats)
    (notif : Notification) : NotificationStats :=
  {| total := total stats;
     unread := unread stats;
     byStatus := count_one (status notif) (byStatus stats);
     byChannel := fold_left (fun counts channel => count_one channel counts)
                            (channels notif) (byChannel stats);
     byPriority := count_one (priority notif) (byPriority stats) |}.

Definition getStats (c : NotificationCenter.t St) (s : StorageQueries.t St)
    (uid : string) : M St NotificationStats :=
  let* all := await (StorageQueries.findByUser s uid (Some no_filters)) in
  let* unread :=
    call (StorageCountUnread uid)
         (StorageAdapter.countUnread (NotificationCenter.storage c) uid) in
  ret (fold_left count_notification all
         {| total := Z.of_nat (length all);
            unread := unread;
            byStatus := ∅; byChannel := ∅; byPriority := ∅ |}).

(* ---------- state management ---------- *)

Definition markAsRead (c : NotificationCenter.t St) (s : StorageQueries.t St)
    (notificationId : string) : M St unit :=
  await (StorageQueries.markAsRead s notificationId) >>
  let* found := call (StorageFindById notificationId)
                     (StorageAdapter.findById (NotificationCenter.storage c)
                                              notificationId) in
  match found with
  | Some notification =>
      let* now := gets Date_now in
      NotificationCenter.notifyEventSubscribers c
        {| ev_type := ev_read;
           ev_notification := notification;
           timestamp := now |} >>
      let* count :=
        call (StorageCountUnread (userId notification))
             (StorageAdapter.countUnread (NotificationCenter.storage c)
                                         (userId notification)) in
      NotificationCenter.notifyUnreadSubscribers c (userId notification) count
  | None => ret tt
  end.

Definition markAllAsRead (c : NotificationCenter.t St) (s : StorageQueries.t St)
    (uid : string) : M St unit :=
  await (StorageQueries.markAllAsRead s uid) >>
  NotificationCenter.notifyUnreadSubscribers c uid 0.

Definition deleteAll (c : NotificationCenter.t St) (s : StorageQueries.t St)
    (uid : string) : M St unit :=
  let* notifications :=
    await (StorageQueries.findByUser s uid (Some no_filters)) in
  let* _ :=
    promise_all
      (map (fun notif =>
              call (StorageDelete (id notif))
                   (StorageAdapter.delete (NotificationCenter.storage c)
                                          (id notif)))
           notifications) in
  NotificationCenter.notifyUnreadSubscribers c uid 0.

(* ---------- preferences ---------- *)

(** [{ ...current, ...prefs, userId, updatedAt: new Date() }] *)
Definition merge_preferences (current : NotificationPreferences)
    (prefs : PartialPreferences) (uid : string) (now : Z)
    : NotificationPreferences :=
  {| pref_userId := uid;
     pref_channels := default (pref_channels current) (pp_channels prefs);
     globalMute := default (globalMute current) (pp_globalMute prefs);
     updatedAt := Some now;
     pref_data := default (pref_data current) (pp_data prefs) |}.

Definition updatePreferences (c : NotificationCenter.t St)
    (s : StorageQueries.t St)
    (uid : string) (prefs : PartialPreferences) : M St unit :=
  let* current := NotificationCenter.getPreferences c uid in
  let* now := gets Date_now in
  await (StorageQueries.savePreferences s uid
           (merge_preferences current prefs uid now)).

(* ---------- templates and middleware ---------- *)

Definition getTemplate (c : NotificationCenter.t St) (tid : string)
    : option NotificationTemplate :=
  NotificationCenter.templates c !! tid.

Definition unregisterTemplate (c : NotificationCenter.t St) (tid : string)
    : NotificationCenter.t St :=
  {| NotificationCenter.storage := NotificationCenter.storage c;
     NotificationCenter.transports := NotificationCenter.transports c;
     NotificationCenter.queue := NotificationCenter.queue c;
     NotificationCenter.templates :=
       base.delete tid (NotificationCenter.templates c);
     NotificationCenter.middleware := NotificationCenter.middleware c;
     NotificationCenter.subscribers := NotificationCenter.subscribers c;
     NotificationCenter.eventSubscribers :=
       NotificationCenter.eventSubscribers c;
     NotificationCenter.unreadSubscribers :=
       NotificationCenter.unreadSubscribers c |}.

Definition removeMiddleware (c : NotificationCenter.t St) (name : string)
    : NotificationCenter.t St :=
  {| NotificationCenter.storage := NotificationCenter.storage c;
     NotificationCenter.transports := NotificationCenter.transports c;
     NotificationCenter.queue := NotificationCenter.queue c;
     NotificationCenter.templates := NotificationCenter.templates c;
     NotificationCenter.middleware :=
       List.filter
         (fun m => negb (String.eqb (NotificationMiddleware.name m) name))
         (NotificationCenter.middleware c);
     NotificationCenter.subscribers := NotificationCenter.subscribers c;
     NotificationCenter.eventSubscribers :=
       NotificationCenter.eventSubscribers c;
     NotificationCenter.unreadSubscribers :=
       NotificationCenter.unreadSubscribers c |}.

(* ---------- lifecycle ---------- *)

Definition set_isRunning (b : bool) (life : Lifecycle) : Lifecycle :=
  {| isRunning := b; workerInterval := workerInterval life;
     timers := timers life |}.

(** [this.workerInterval = setInterval(..., pollInterval)] *)
Definition startWorker (cfg : Settings) (life : Lifecycle) : Lifecycle :=
  let pollInterval :=
    if truthy_number (workers cfg ≫= w_pollInterval)
    then default 0 (workers cfg ≫= w_pollInterval) else 1000 in
  let concurrency :=
    if truthy_number (workers cfg ≫= w_concurrency)
    then default 0 (workers cfg ≫= w_concurrency) else 1 in
  match setInterval (WorkerJob concurrency) pollInterval (timers life) with
  | (handle, timers') =>
      {| isRunning := isRunning life; workerInterval := Some handle;
         timers := timers' |}
  end.

(** [setInterval(..., interval)]: the handle is not kept. *)
Definition startCleanup (cfg : Settings) (life : Lifecycle) : Lifecycle :=
  let interval :=
    if truthy_number (cleanup cfg ≫= c_interval)
    then default 0 (cleanup cfg ≫= c_interval) else 3600000 in
  {| isRunning := isRunning life; workerInterval := workerInterval life;
     timers := snd (setInterval CleanupJob interval (timers life)) |}.

Definition start (c : NotificationCenter.t St) (q : QueueWorker.t St)
    (cfg : Settings) : M (Lifecycle * St) unit :=
  let* life := get_local in
  if isRunning life then ret tt
  else
    set_local (set_isRunning true) >>
    match NotificationCenter.queue c with
    | Some _ =>
        beside (await (QueueWorker.start q)) >>
        if negb (bool_decide (workers cfg ≫= w_enabled = Some false))
        then set_local (startWorker cfg)
        else ret tt
    | None => ret tt
    end >>
    if truthy_bool (cleanup cfg ≫= c_enabled)
    then set_local (startCleanup cfg)
    else ret tt.

Definition stop (c : NotificationCenter.t St) (q : QueueWorker.t St)
    : M (Lifecycle * St) unit :=
  let* life := get_local in
  if negb (isRunning life) then ret tt
  else
    set_local (set_isRunning false) >>
    match workerInterval life with
    | Some handle =>
        set_local (fun l =>
                     {| isRunning := isRunning l; workerInterval := None;
                        timers := clearInterval handle (timers l) |})
    | None => ret tt
    end >>
    match NotificationCenter.queue c with
    | Some _ => beside (await (QueueWorker.stop q))
    | None => ret tt
    end.

(** The callback of the worker's interval. *)
Definition worker_tick (c : NotificationCenter.t St) (q : QueueWorker.t St)
    (concurrency : Z) : M St unit :=
  match NotificationCenter.queue c with
  | None => ret tt
  | Some _ =>
      let* notifications := await (QueueWorker.dequeueBatch q concurrency) in
      let* _ :=
        promise_all
          (map (fun notif => with_object notif (NotificationCenter.sendNow c))
               notifications) in
      ret tt
  end.

(** The callback of the cleanup's interval. *)
Definition cleanup_tick (s : StorageQueries.t St) : M St unit :=
  let* _ := await (StorageQueries.deleteExpired s) in
  ret tt.

(** The body of the loop of [healthCheck] for one transport: its name and
    its [healthCheck] method when it has one. *)
Definition check_one (results : gmap ChannelType bool)
    (entry : ChannelType * option (Eff St bool))
    : M St (gmap ChannelType bool) :=
  match snd entry with
  | Some healthCheck =>
      try_catch
        (let* healthy := await healthCheck in
         ret (<[fst entry := healthy]> results))
        (fun _ => ret (<[fst entry := false]> results))
  | None => ret (<[fst entry := true]> results)
  end.

Fixpoint check_all (results : gmap ChannelType bool)
    (entries : list (ChannelType * option (Eff St bool)))
    : M St (gmap ChannelType bool) :=
  match entries with
  | [] => ret results
  | entry :: rest =>
      let* results' := check_one results entry in
      check_all results' rest
  end.

(** [healthCheck] over the transports of the center in the order the map
    gives them. *)
Definition healthCheck
    (entries : list (ChannelType * option (Eff St bool)))
    : M St (gmap ChannelType bool) :=
  check_all ∅ entries.
End WithRuntime.
End CenterMethods.

(** The first statement of the [try] block of [send]. *)
Definition enqueue_or_sendNow {St : Type} `{Runtime St}
    (c : NotificationCenter.t St) (notification : Notification)
    : M (Notification * St) unit :=
  match NotificationCenter.queue c with
  | Some q =>
      match scheduledFor notification with
      | Some when =>
          let* now := lift (gets Date_now) in
          lift (call (QueueEnqueueDelayed notification (when - now))
                     (QueueAdapter.enqueueDelayed q notification (when - now)))
      | None =>
          lift (call (QueueEnqueue notification)
                     (QueueAdapter.enqueue q notification))
      end
  | None => NotificationCenter.sendNow c
  end.

Definition has_afterSend {St : Type} (m : NotificationMiddleware.t St)
    : bool :=
  match NotificationMiddleware.afterSend m with
  | Some _ => true
  | None => false
  end.

Definition is_enqueue (ev : Event) : bool :=
  match ev with
  | QueueEnqueue _ | QueueEnqueueDelayed _ _ => true
  | _ => false
  end.

Definition is_hook_call (ev : Event) : bool :=
  match ev with
  | CallBeforeSend _ _ | CallAfterSend _ _ | CallOnError _ _ _ => true
  | _ => false
  end.

Definition is_transport_call (ev : Event) : bool :=
  match ev with
  | TransportCanSend _ _ | TransportSend _ _ _ => true
  | _ => false
  end.

(** The name of the middleware a hook call goes to. *)
Definition hook_name (ev : Event) : option string :=
  match ev with
  | CallBeforeSend mw _ | CallAfterSend mw _ | CallOnError mw _ _ => Some mw
  | _ => None
  end.

(** The middleware a hook call goes to is one of the list. *)
Definition hooks_among (names : list string) (ev : Event) : Prop :=
  forall mw, hook_name ev = Some mw -> In mw names.

Definition is_worker_job (entry : nat * (TimerJob * Z)) : bool :=
  match fst (snd entry) with
  | WorkerJob _ => true
  | _ => false
  end.

Definition is_cleanup_job (entry : nat * (TimerJob * Z)) : bool :=
  match fst (snd entry) with
  | CleanupJob => true
  | _ => false
  end.

(** How many running intervals satisfy [p]. *)
Definition count_jobs (p : nat * (TimerJob * Z) -> bool) (t : Timers) : nat :=
  length (List.filter p (running t)).

(** A center that was never started. *)
Definition never_started : Lifecycle :=
  {| isRunning := false; workerInterval := None;
     timers := {| running := []; fresh := 0 |} |}.

(** The handles are distinct and older than the next one, the worker's
    interval is the one the center remembers, and a stopped center remembers
    none. *)
Definition tidy (life : Lifecycle) : Prop :=
  NoDup (map fst (running (timers life)))
  /\ Forall (fun entry => (fst entry < fresh (timers life))%nat)
            (running (timers life))
  /\ Forall (fun entry => is_worker_job entry = true <->
                          workerInterval life = Some (fst entry))
            (running (timers life))
  /\ (isRunning life = false -> workerInterval life = None)
  /\ (forall handle, workerInterval life = Some handle ->
                     (handle < fresh (timers life))%nat).

(** A series of calls of [start] and [stop], each awaited, a rejection being
    caught by the caller. *)
Inductive LifecycleCall := CallStart | CallStop.

Definition lifecycle_call {St : Type} `{Runtime St}
    (c : NotificationCenter.t St) (q : QueueWorker.t St) (cfg : Settings)
    (call : LifecycleCall) : M (Lifecycle * St) unit :=
  match call with
  | CallStart => CenterMethods.start c q cfg
  | CallStop => CenterMethods.stop c q
  end.

Fixpoint lifecycle_calls {St : Type} `{Runtime St}
    (c : NotificationCenter.t St) (q : QueueWorker.t St) (cfg : Settings)
    (calls : list LifecycleCall) (s : Lifecycle * St) : Lifecycle * St :=
  match calls with
  | [] => s
  | call :: rest =>
      lifecycle_calls c q cfg rest (snd (fst (lifecycle_call c q cfg call s)))
  end.

(** The remaining storage methods of the memory adapter on a host. *)
Definition memory_queries : StorageQueries.t Host :=
  {| StorageQueries.findByUser := fun uid filters h =>
       (Ok (MemoryStorageQueries.findByUser uid filters (mem h)), h);
     StorageQueries.markAsRead := fun nid h =>
       (Ok tt, with_mem (MemoryStorageQueries.markAsRead nid (clock h)) h);
     StorageQueries.markAllAsRead := fun uid h =>
       (Ok tt, with_mem (MemoryStorageQueries.markAllAsRead uid (clock h)) h);
     StorageQueries.savePreferences := fun uid prefs h =>
       (Ok tt, with_mem (MemoryStorageQueries.savePreferences uid prefs) h);
     StorageQueries.deleteExpired := fun h =>
       (Ok (fst (MemoryStorageQueries.deleteExpired (clock h) (mem h))),
        with_mem (fun m => snd (MemoryStorageQueries.deleteExpired (clock h) m))
                 h) |}.

(* ===================================================================== *)
(** ** A host with the memory queue *)
(* ===================================================================== *)

Record Node := {
  host : Host;
  jobs : MemoryQueueAdapter.t
}.

(** An operation of the host, on a node. *)
Definition on_host {A : Type} (op : Eff Host A) : Eff Node A :=
  fun node =>
    match op (host node) with
    | (r, h) => (r, {| host := h; jobs := jobs node |})
    end.

Definition with_jobs (f : MemoryQueueAdapter.t -> MemoryQueueAdapter.t)
    (node : Node) : Node :=
  {| host := host node; jobs := f (jobs node) |}.

Global Instance Node_runtime : Runtime Node := {|
  Date_now := fun node => clock (host node);
  Date_getHours := fun node => hour (host node);
  Math_random_base36 := fun node =>
    match Math_random_base36 (host node) with
    | (r, h) => (r, {| host := h; jobs := jobs node |})
    end;
  Number := Number_digits
|}.

Definition node_storage : StorageAdapter.t Node :=
  {| StorageAdapter.save := fun n =>
       on_host (StorageAdapter.save memory_storage n);
     StorageAdapter.findById := fun nid =>
       on_host (StorageAdapter.findById memory_storage nid);
     StorageAdapter.countUnread := fun uid =>
       on_host (StorageAdapter.countUnread memory_storage uid);
     StorageAdapter.delete := fun nid =>
       on_host (StorageAdapter.delete memory_storage nid);
     StorageAdapter.getPreferences := fun uid =>
       on_host (StorageAdapter.getPreferences memory_storage uid);
     StorageAdapter.saveReceipt := Some (fun r node =>
       (Ok tt,
        {| host := with_mem (MemoryStorageAdapter.saveReceipt r) (host node);
           jobs := jobs node |}));
     StorageAdapter.getReceipts := Some (fun nid node =>
       (Ok (MemoryStorageAdapter.getReceipts nid (mem (host node))), node)) |}.

Definition node_transport (transport : TransportAdapter.t Host)
    : TransportAdapter.t Node :=
  {| TransportAdapter.name := TransportAdapter.name transport;
     TransportAdapter.send := fun n prefs =>
       on_host (TransportAdapter.send transport n prefs);
     TransportAdapter.canSend := fun n prefs =>
       on_host (TransportAdapter.canSend transport n prefs) |}.

Definition memory_queue : QueueAdapter.t Node :=
  {| QueueAdapter.enqueue := fun n node =>
       (Ok tt, with_jobs (MemoryQueueAdapter.enqueue n) node);
     QueueAdapter.enqueueDelayed := fun n delay node =>
       (Ok tt,
        with_jobs (MemoryQueueAdapter.enqueueDelayed n delay
                     (clock (host node))) node) |}.

Definition memory_queue_worker : QueueWorker.t Node :=
  {| QueueWorker.dequeueBatch := fun count node =>
       (Ok (fst (MemoryQueueAdapter.dequeueBatch count (jobs node))),
        with_jobs (fun q => snd (MemoryQueueAdapter.dequeueBatch count q))
                  node);
     QueueWorker.start := fun node =>
       (Ok tt, with_jobs MemoryQueueAdapter.start node);
     QueueWorker.stop := fun node =>
       (Ok tt, with_jobs MemoryQueueAdapter.stop node) |}.

Definition node0 : Node :=
  {| host := host0; jobs := MemoryQueueAdapter.empty |}.

(** The center of the README with the memory queue. *)
Definition center_queued : NotificationCenter.t Node :=
  NotificationCenter.constructor
    {| cfg_storage := node_storage;
       cfg_transports := [node_transport (console_transport inapp);
                          node_transport (console_transport push)];
       cfg_queue := Some memory_queue;
       cfg_middleware := Some [] |}.

(* ===================================================================== *)
(** ** More sample data *)
(* ===================================================================== *)

(** A middleware whose [afterSend] throws. *)
Definition metrics_middleware : NotificationMiddleware.t Host :=
  {| NotificationMiddleware.name := "metrics";
     NotificationMiddleware.beforeSend := None;
     NotificationMiddleware.afterSend :=
       Some (fun _ h => (Throw (mkError "metrics down"), h));
     NotificationMiddleware.onError := Some (fun _ _ h => (Ok tt, h)) |}.

Definition center_metrics : NotificationCenter.t Host :=
  center_with memory_storage [console_transport inapp; console_transport push]
              None [metrics_middleware].

(** The rest of a queue that is down. *)
Definition down_queue_worker : QueueWorker.t Host :=
  {| QueueWorker.dequeueBatch := fun _ h => (Throw (mkError "queue down"), h);
     QueueWorker.start := fun h => (Throw (mkError "queue down"), h);
     QueueWorker.stop := fun h => (Throw (mkError "queue down"), h) |}.

(** No [workers] and no [cleanup] settings. *)
Definition default_settings : Settings :=
  {| workers := None; cleanup := None |}.

(** [{ globalMute: true }] *)
Definition mute_only : PartialPreferences :=
  {| pp_userId := None; pp_channels := None;
     pp_globalMute := Some (Some true); pp_updatedAt := None;
     pp_data := None |}.

(* ===================================================================== *)
(** * Proofs *)
(* ===================================================================== *)

(* --------------------------------------------------------------------- *)
(** ** The preference gate *)
(* --------------------------------------------------------------------- *)

Lemma Q_ltb_lt (x y : Q) : Q_ltb x y = true <-> (x < y)%Q.
Proof. unfold Q_ltb, Qlt. apply Z.ltb_lt. Qed.

Lemma js_ge_Fin (x y : Q) : js_ge (Fin x) (Fin y) = true <-> (y <= x)%Q.
Proof. simpl. apply Qle_bool_iff. Qed.

Lemma js_lt_Fin (x y : Q) : js_lt (Fin x) (Fin y) = true <-> (x < y)%Q.
Proof. simpl. apply Q_ltb_lt. Qed.

Section Gate.
Context {St : Type} `{Runtime St}.
Import ConsoleTransportAdapter.

(** What [canSend] answers once the mute, the channel switch and the category
    list let the notification through: the quiet-hours test alone. *)
Lemma canSend_reaches_quietHours (name : ChannelType) (n : Notification)
    (prefs : NotificationPreferences) (cp : ChannelPreferences)
    (qh : QuietHours) (st : St) :
  truthy_bool (globalMute prefs) = false ->
  pref_channels prefs !! name = Some cp ->
  enabled cp = true ->
  (categories cp = None
   \/ truthy_string (category n) = false
   \/ exists cats, categories cp = Some cats
        /\ includes cats (default EmptyString (category n)) = true) ->
  quietHours cp = Some qh ->
  canSend name n prefs st = negb (inQuietHours qh st).
Proof.
  intros Hmute Hcp Hen Hcat Hqh. unfold canSend.
  rewrite Hmute, Hcp. simpl. rewrite Hen. simpl. rewrite Hqh.
  destruct Hcat as [-> | [Hc | (cats & -> & Hin)]]; [reflexivity | | ].
  - rewrite Hc. destruct (categories cp); reflexivity.
  - rewrite Hin. rewrite andb_false_r. reflexivity.
Qed.

Lemma inQuietHours_overnight (qh : QuietHours) (st : St) (s e : Q) :
  Number (first_segment (start qh)) = Fin s ->
  Number (first_segment (end_ qh)) = Fin e ->
  (e < s)%Q ->
  inQuietHours qh st = true
  <-> (s <= inject_Z (Date_getHours st) \/ inject_Z (Date_getHours st) < e)%Q.
Proof.
  intros Hs He Hlt. unfold inQuietHours, js_gt, js_of_Z. rewrite Hs, He.
  apply js_lt_Fin in Hlt. rewrite Hlt.
  rewrite orb_true_iff, js_ge_Fin, js_lt_Fin. reflexivity.
Qed.

Lemma inQuietHours_same_day (qh : QuietHours) (st : St) (s e : Q) :
  Number (first_segment (start qh)) = Fin s ->
  Number (first_segment (end_ qh)) = Fin e ->
  (s <= e)%Q ->
  inQuietHours qh st = true
  <-> (s <= inject_Z (Date_getHours st) /\ inject_Z (Date_getHours st) < e)%Q.
Proof.
  intros Hs He Hle. unfold inQuietHours, js_gt, js_of_Z. rewrite Hs, He.
  assert (js_lt (Fin e) (Fin s) = false) as ->.
  { apply not_true_is_false. rewrite js_lt_Fin. intros Hc.
    exact (Qlt_not_le _ _ Hc Hle). }
  rewrite andb_true_iff, js_ge_Fin, js_lt_Fin. reflexivity.
Qed.

Lemma negb_false_true (b : bool) : negb b = false <-> b = true.
Proof. destruct b; simpl; split; congruence. Qed.

(** C6. Past the mute, the channel switch and the category list, [canSend]
    with a quiet-hours window whose bounds convert to numbers denies exactly
    when the current hour is at or after the start or before the end
    (start after end, overnight), or both at or after the start and before
    the end (otherwise).  Only what precedes the first colon of [start] and
    [end] counts: minutes and time zone change nothing.  The window 22:00 to
    06:00 denies at 23 and at 2 and permits at 10. *)
Theorem C6_quiet_hours_compare_the_hour
    (name : ChannelType) (n : Notification)
    (prefs : NotificationPreferences) (cp : ChannelPreferences)
    (qh : QuietHours) (st : St) :
  truthy_bool (globalMute prefs) = false ->
  pref_channels prefs !! name = Some cp ->
  enabled cp = true ->
  (categories cp = None
   \/ truthy_string (category n) = false
   \/ exists cats, categories cp = Some cats
        /\ includes cats (default EmptyString (category n)) = true) ->
  quietHours cp = Some qh ->
  (forall s e : Q,
     Number (first_segment (start qh)) = Fin s ->
     Number (first_segment (end_ qh)) = Fin e ->
     ((e < s)%Q ->
      canSend name n prefs st = false
      <-> (s <= inject_Z (Date_getHours st)
           \/ inject_Z (Date_getHours st) < e)%Q)
     /\ ((s <= e)%Q ->
         canSend name n prefs st = false
         <-> (s <= inject_Z (Date_getHours st)
              /\ inject_Z (Date_getHours st) < e)%Q))
  /\ (start qh = "22:00" -> end_ qh = "06:00" ->
      Number "22" = js_of_Z 22 -> Number "06" = js_of_Z 6 ->
      (Date_getHours st = 23 -> canSend name n prefs st = false)
      /\ (Date_getHours st = 2 -> canSend name n prefs st = false)
      /\ (Date_getHours st = 10 -> canSend name n prefs st = true))
  /\ (forall prefs' cp' qh',
        truthy_bool (globalMute prefs') = false ->
        pref_channels prefs' !! name = Some cp' ->
        enabled cp' = true ->
        categories cp' = categories cp ->
        quietHours cp' = Some qh' ->
        first_segment (start qh') = first_segment (start qh) ->
        first_segment (end_ qh') = first_segment (end_ qh) ->
        canSend name n prefs' st = canSend name n prefs st).
Proof.
  intros Hmute Hcp Hen Hcat Hqh.
  pose proof (canSend_reaches_quietHours name n prefs cp qh st
                Hmute Hcp Hen Hcat Hqh) as Hcan.
  split; [| split].
  - intros s e Hs He. rewrite Hcan, negb_false_true. split; intros Hord.
    + apply inQuietHours_overnight; assumption.
    + apply inQuietHours_same_day; assumption.
  - intros Hstart Hend H22 H06. rewrite Hcan.
    unfold inQuietHours. rewrite Hstart, Hend. simpl first_segment.
    rewrite H22, H06.
    repeat split; intros ->; reflexivity.
  - intros prefs' cp' qh' Hmute' Hcp' Hen' Hcats' Hqh' Hs He.
    rewrite Hcan.
    rewrite (canSend_reaches_quietHours name n prefs' cp' qh' st
               Hmute' Hcp' Hen') by (rewrite ?Hcats'; assumption).
    unfold inQuietHours. rewrite Hs, He. reflexivity.
Qed.
End Gate.

Lemma includes_false (l : list string) (x : string) :
  ~ In x l -> includes l x = false.
Proof.
  intros Hnot. unfold includes. apply not_true_is_false. intros Hex.
  apply existsb_exists in Hex. destruct Hex as (y & Hin & Heq).
  apply String.eqb_eq in Heq. subst y. contradiction.
Qed.

Section Categories.
Context {St : Type} `{Runtime St}.
Import ConsoleTransportAdapter.

(** C5 (as the code has it). With a [categories] list on the channel,
    [canSend] is false for a notification whose category is a non-empty
    string outside the list.  A notification without category (or with the
    empty one) is not held against the list: the answer is what the mute,
    the channel switch and the quiet hours give, whatever the list is. *)
Theorem C5_categories_gate_needs_a_category (name : ChannelType)
    (n : Notification) (prefs : NotificationPreferences)
    (cp : ChannelPreferences) (cats : list string) (st : St) :
  pref_channels prefs !! name = Some cp ->
  categories cp = Some cats ->
  (forall cat, category n = Some cat -> cat <> EmptyString -> ~ In cat cats ->
               canSend name n prefs st = false)
  /\ (category n = None \/ category n = Some EmptyString ->
      forall prefs' cp',
        pref_channels prefs' !! name = Some cp' ->
        globalMute prefs' = globalMute prefs ->
        enabled cp' = enabled cp ->
        quietHours cp' = quietHours cp ->
        canSend name n prefs' st = canSend name n prefs st)
  /\ (category n = None \/ category n = Some EmptyString ->
      truthy_bool (globalMute prefs) = false ->
      enabled cp = true ->
      quietHours cp = None ->
      canSend name n prefs st = true).
Proof.
  intros Hcp Hcats. split; [| split].
  - intros cat Hcat Hne Hnot. unfold canSend. rewrite Hcp. simpl.
    rewrite Hcats, Hcat. simpl.
    rewrite (includes_false _ _ Hnot).
    assert (negb (String.eqb cat EmptyString) = true) as ->
      by (apply negb_true_iff, String.eqb_neq, Hne).
    simpl. destruct (truthy_bool (globalMute prefs)); [reflexivity |].
    destruct (negb (enabled cp)); reflexivity.
  - intros Hnone prefs' cp' Hcp' Hmute Hen Hqh. unfold canSend.
    rewrite Hcp, Hcp', Hmute. simpl. rewrite Hen, Hqh.
    assert (truthy_string (category n) = false) as Hfalsy
      by (destruct Hnone as [-> | ->]; reflexivity).
    rewrite Hfalsy.
    destruct (categories cp'), (categories cp); reflexivity.
  - intros Hnone Hmute Hen Hqh. unfold canSend.
    rewrite Hcp, Hmute. simpl. rewrite Hen, Hqh, Hcats. simpl.
    destruct Hnone as [-> | ->]; reflexivity.
Qed.
End Categories.

(* --------------------------------------------------------------------- *)
(** ** Running computations and reading their logs *)
(* --------------------------------------------------------------------- *)

Section Monad.
Context {W : Type}.

Lemma bind_Ok {A B} (m : M W A) (k : A -> M W B) s a s1 log1 :
  m s = (Ok a, s1, log1) ->
  bind m k s = (let '(r, s2, log2) := k a s1 in (r, s2, log1 ++ log2)).
Proof. intros Hm. unfold bind. rewrite Hm. reflexivity. Qed.

Lemma bind_Throw {A B} (m : M W A) (k : A -> M W B) s e s1 log1 :
  m s = (Throw e, s1, log1) -> bind m k s = (Throw e, s1, log1).
Proof. intros Hm. unfold bind. rewrite Hm. reflexivity. Qed.

Lemma bind_inv {A B} (m : M W A) (k : A -> M W B) s r s2 log :
  bind m k s = (r, s2, log) ->
  (exists e, m s = (Throw e, s2, log) /\ r = Throw e)
  \/ (exists a s1 log1 log2,
        m s = (Ok a, s1, log1) /\ k a s1 = (r, s2, log2)
        /\ log = log1 ++ log2).
Proof.
  unfold bind. destruct (m s) as [[[a | e] s1] log1].
  - destruct (k a s1) as [[r2 s3] log2] eqn:Hk. intros [= <- <- <-].
    right. exists a, s1, log1, log2. auto.
  - intros [= <- <- <-]. left. exists e. auto.
Qed.

Lemma logs_ret {A} P (a : A) : logs P (ret (W := W) a).
Proof. intros s. constructor. Qed.

Lemma logs_throw {A} P e : logs P (throw (W := W) (A := A) e).
Proof. intros s. constructor. Qed.

Lemma logs_gets {A} P (f : W -> A) : logs P (gets f).
Proof. intros s. constructor. Qed.

Lemma logs_bind {A B} P (m : M W A) (k : A -> M W B) :
  logs P m -> (forall a, logs P (k a)) -> logs P (bind m k).
Proof.
  intros Hm Hk s. unfold bind. specialize (Hm s).
  destruct (m s) as [[[a | e] s1] log1]; simpl in *; [| exact Hm].
  specialize (Hk a s1). destruct (k a s1) as [[r s2] log2]. simpl in *.
  apply Forall_app; auto.
Qed.

Lemma logs_try_catch {A} P (m : M W A) (h : JsError -> M W A) :
  logs P m -> (forall e, logs P (h e)) -> logs P (try_catch m h).
Proof.
  intros Hm Hh s. unfold try_catch. specialize (Hm s).
  destruct (m s) as [[[a | e] s1] log1]; simpl in *; [exact Hm |].
  specialize (Hh e s1). destruct (h e s1) as [[r s2] log2]. simpl in *.
  apply Forall_app; auto.
Qed.

Lemma logs_for_each {A} P (f : A -> M W unit) (l : list A) :
  (forall x, logs P (f x)) -> logs P (for_each f l).
Proof.
  intros Hf. induction l as [| x l IH]; simpl.
  - apply logs_ret.
  - apply logs_bind; auto.
Qed.

Lemma logs_for_each_from {A} P (f : nat -> A -> M W unit) (l : list A) k :
  (forall i x, logs P (f i x)) -> logs P (for_each_from k f l).
Proof.
  intros Hf. revert k. induction l as [| x l IH]; intros k; simpl.
  - apply logs_ret.
  - apply logs_bind; auto.
Qed.

Lemma logs_promise_all {A} P (l : list (M W A)) :
  Forall (logs P) l -> logs P (promise_all l).
Proof.
  induction 1 as [| p l Hp _ IH]; simpl.
  - apply logs_ret.
  - intros s. specialize (Hp s). destruct (p s) as [[r s1] log1].
    specialize (IH s1). destruct (promise_all l s1) as [[rs s2] log2].
    simpl in *. apply Forall_app; auto.
Qed.
End Monad.

Section Lifted.
Context {St : Type}.

Lemma logs_call {A} (P : Event -> Prop) ev (op : Eff St A) :
  P ev -> logs P (call ev op).
Proof.
  intros Hev s. unfold call. destruct (op s). simpl. repeat constructor.
  exact Hev.
Qed.

Lemma logs_lift {A} P (m : M St A) : logs P m -> logs P (lift m).
Proof.
  intros Hm s. unfold lift. specialize (Hm (snd s)).
  destruct (m (snd s)) as [[r s1] log1]. exact Hm.
Qed.

Lemma logs_get_object P : logs P (get_object (St := St)).
Proof. apply logs_gets. Qed.

Lemma logs_update_object P f : logs P (update_object (St := St) f).
Proof. intros s. constructor. Qed.

Lemma bind_get_object {A} (k : Notification -> M (Notification * St) A)
    n (st : St) :
  bind get_object k (n, st) = k n (n, st).
Proof.
  unfold bind, get_object, gets. simpl.
  destruct (k n (n, st)) as [[r s2] log2]. reflexivity.
Qed.

Lemma logs_with_object {A} P n (m : M (Notification * St) A) :
  logs P m -> logs P (with_object n m).
Proof.
  intros Hm s. unfold with_object. specialize (Hm (n, s)).
  destruct (m (n, s)) as [[r s1] log1]. exact Hm.
Qed.
End Lifted.

(** Follows the shape of a computation, leaving the facts about single
    calls as goals. *)
Ltac logs_step :=
  first
    [ apply logs_ret | apply logs_throw | apply logs_gets
    | apply logs_get_object | apply logs_update_object
    | apply logs_lift | apply logs_with_object
    | apply logs_call
    | apply logs_bind; [| intros ?]
    | apply logs_try_catch; [| intros ?]
    | apply logs_for_each; intros ?
    | apply logs_for_each_from; intros ? ? ].

Ltac logs_shape :=
  repeat first
    [ logs_step
    | match goal with
      | |- logs _ (match ?x with _ => _ end) => destruct x
      | |- logs _ (if ?b then _ else _) => destruct b
      end ].

Section CenterLogs.
Context {St : Type} `{Runtime St}.
Import NotificationCenter.

Lemma logs_generateId P : logs P generateId.
Proof.
  intros s. unfold generateId. destruct (Math_random_base36 s). constructor.
Qed.

Lemma logs_resolve_text P text d :
  logs P (resolve_text (St := St) text d).
Proof. intros s. constructor. Qed.

(** Building a notification calls no collaborator. *)
Lemma logs_buildNotification P (c : NotificationCenter.t St) input :
  logs P (buildNotification c input).
Proof.
  unfold buildNotification.
  logs_shape; try apply logs_resolve_text; try apply logs_generateId.
Qed.

Lemma buildNotification_silent (c : NotificationCenter.t St) input
    st r st' log :
  buildNotification c input st = (r, st', log) -> log = [].
Proof.
  intros Hrun.
  pose proof (logs_buildNotification (fun _ => False) c input st) as Hall.
  rewrite Hrun in Hall. simpl in Hall. destruct Hall; [reflexivity | tauto].
Qed.

Lemma logs_beforeSend_loop (ms : list (NotificationMiddleware.t St)) n :
  logs (fun ev => is_CallBeforeSend ev = true) (beforeSend_loop ms n).
Proof.
  revert n. induction ms as [| m ms IH]; intros n; simpl.
  - apply logs_ret.
  - destruct (NotificationMiddleware.beforeSend m); [| apply IH].
    apply logs_bind; [apply logs_call; reflexivity |].
    intros [n' |]; [apply IH | apply logs_ret].
Qed.

Lemma logs_applyAfterSendMiddleware (P : Event -> Prop)
    (c : NotificationCenter.t St) n :
  (forall mw, P (CallAfterSend mw n)) ->
  logs P (applyAfterSendMiddleware c n).
Proof. intros HP. unfold applyAfterSendMiddleware. logs_shape. apply HP. Qed.

Lemma logs_applyErrorMiddleware (P : Event -> Prop)
    (c : NotificationCenter.t St) e n :
  (forall mw, P (CallOnError mw e n)) ->
  logs P (applyErrorMiddleware c e n).
Proof. intros HP. unfold applyErrorMiddleware. logs_shape. apply HP. Qed.

Lemma logs_notifySubscribers (P : Event -> Prop)
    (c : NotificationCenter.t St) n :
  (forall k, P (PublishNotification (userId n) k n)) ->
  logs P (notifySubscribers c n).
Proof. intros HP. unfold notifySubscribers. logs_shape. apply HP. Qed.

Lemma logs_notifyEventSubscribers (P : Event -> Prop)
    (c : NotificationCenter.t St) ev :
  (forall k, P (PublishEvent (userId (ev_notification ev)) k ev)) ->
  logs P (notifyEventSubscribers c ev).
Proof. intros HP. unfold notifyEventSubscribers. logs_shape. apply HP. Qed.

Lemma logs_deliver (P : Event -> Prop) (c : NotificationCenter.t St)
    n prefs ch :
  P (TransportCanSend ch n) -> P (TransportSend ch n prefs) ->
  (forall r, P (StorageSaveReceipt r)) ->
  logs P (deliver c n prefs ch).
Proof.
  intros H1 H2 H3. unfold deliver, saveReceipt_if_supported.
  logs_shape; auto.
Qed.

(** The calls of one delivery pass over the object [n]. *)
Lemma sendNow_log (P : Event -> Prop) (c : NotificationCenter.t St)
    n (st : St) :
  P (StorageGetPreferences (userId n)) ->
  (forall ch, P (TransportCanSend ch n)) ->
  (forall ch prefs, P (TransportSend ch n prefs)) ->
  (forall r, P (StorageSaveReceipt r)) ->
  (forall n', P (StorageSave n')) ->
  Forall P (snd (sendNow c (n, st))).
Proof.
  intros H1 H2 H3 H4 H5. unfold sendNow. rewrite bind_get_object.
  match goal with
  | |- Forall P (snd (?m (n, st))) =>
      assert (logs P m) as Hlogs; [| exact (Hlogs (n, st))]
  end.
  apply logs_bind; [apply logs_lift, logs_call, H1 | intros prefs].
  apply logs_bind.
  - apply logs_lift, logs_promise_all. apply Forall_map.
    apply Forall_forall. intros ch _. apply logs_deliver; auto.
  - intros receipts. logs_shape. apply H5.
Qed.
End CenterLogs.

(* --------------------------------------------------------------------- *)
(** ** Deleting a notification *)
(* --------------------------------------------------------------------- *)

Section ForEach.
Context {St : Type}.

Lemma for_each_from_calls {A} (ev : nat -> Event) (op : A -> Eff St unit)
    (l : list A) (k : nat) (st : St) r st' log :
  for_each_from k (fun i x => call (ev i) (op x)) l st = (r, st', log) ->
  Forall (fun e => exists i, e = ev i) log
  /\ (r = Ok tt -> log = imap (fun i _ => ev (k + i)%nat) l).
Proof.
  revert k st r st' log. induction l as [| x l IH]; intros k st r st' log.
  - simpl. intros [= <- <- <-]. split; [constructor | reflexivity].
  - simpl. intros Hrun. apply bind_inv in Hrun.
    destruct Hrun as [(e & Hc & ->) | (a & s1 & log1 & log2 & Hc & Hr & ->)].
    + unfold call in Hc. destruct (op x st) as [rx sx]. injection Hc as -> -> <-.
      split; [| discriminate]. repeat constructor. eauto.
    + unfold call in Hc. destruct (op x st) as [rx sx]. injection Hc as -> -> <-.
      apply IH in Hr. destruct Hr as [Hall Hok]. split.
      * constructor; [eauto | exact Hall].
      * intros Hr. rewrite (Hok Hr). simpl. rewrite Nat.add_0_r. f_equal.
        apply imap_ext. intros i y _. simpl. f_equal. lia.
Qed.
End ForEach.

Section Delete.
Context {St : Type} `{Runtime St}.
Import NotificationCenter.

(** C10. [delete] always goes on to [storage.delete]; the owner's
    unread-count callbacks run, each with the count read after the deletion,
    only when the notification was found and its status was not [read]:
    for an unknown id or a read notification no callback is called. *)
Theorem C10_delete_unread_callbacks (c : NotificationCenter.t St)
    (nid : string) (st st1 : St) (found : option Notification)
    (r : Result unit) (st' : St) (log : list Event) :
  StorageAdapter.findById (storage c) nid st = (Ok found, st1) ->
  delete c nid st = (r, st', log) ->
  In (StorageDelete nid) log
  /\ ((exists uid k count, In (PublishUnread uid k count) log) ->
      exists n, found = Some n /\ status n <> st_read)
  /\ (forall n st2 count st3,
        found = Some n -> status n <> st_read ->
        StorageAdapter.delete (storage c) nid st1 = (Ok tt, st2) ->
        StorageAdapter.countUnread (storage c) (userId n) st2
          = (Ok count, st3) ->
        exists published,
          log = [StorageFindById nid; StorageDelete nid;
                 StorageCountUnread (userId n)] ++ published
          /\ Forall (fun e => exists k, e = PublishUnread (userId n) k count)
                    published
          /\ (r = Ok tt ->
              published
              = imap (fun k _ => PublishUnread (userId n) k count)
                     (default [] (unreadSubscribers c !! userId n)))).
Proof.
  intros Hfind Hrun. unfold delete in Hrun.
  rewrite (bind_Ok _ _ st found st1 [StorageFindById nid]) in Hrun
    by (unfold call; rewrite Hfind; reflexivity).
  destruct (StorageAdapter.delete (storage c) nid st1) as [rd st2] eqn:Hdel.
  destruct rd as [[] | e].
  2:{ rewrite (bind_Throw _ _ st1 e st2 [StorageDelete nid]) in Hrun
        by (unfold call; rewrite Hdel; reflexivity).
      injection Hrun as <- <- <-. split; [simpl; auto |]. split.
      - intros (uid & k & count & [Hin | [Hin | []]]); discriminate.
      - intros n st2' count st3 _ _ [=]. }
  rewrite (bind_Ok _ _ st1 tt st2 [StorageDelete nid]) in Hrun
    by (unfold call; rewrite Hdel; reflexivity).
  destruct found as [n |].
  2:{ unfold ret in Hrun. injection Hrun as <- <- <-.
      split; [simpl; auto |]. split.
      - intros (uid & k & count & [Hin | [Hin | []]]); discriminate.
      - intros n st2' count st3 [=]. }
  destruct (bool_decide (status n <> st_read)) eqn:Hunread.
  2:{ unfold ret in Hrun. injection Hrun as <- <- <-.
      apply bool_decide_eq_false in Hunread.
      split; [simpl; auto |]. split.
      - intros (uid & k & count & [Hin | [Hin | []]]); discriminate.
      - intros n' st2' count st3 [= <-] Hne. contradiction. }
  apply bool_decide_eq_true in Hunread.
  split; [| split].
  - destruct (bind _ _ st2) as [[r2 s2] log2]. injection Hrun as <- <- <-.
    simpl. auto.
  - intros _. exists n. auto.
  - intros n' st2' count st3 [= <-] _ [= <-] Hcount.
    rewrite (bind_Ok _ _ st2 count st3 [StorageCountUnread (userId n)]) in Hrun
      by (unfold call; rewrite Hcount; reflexivity).
    destruct (notifyUnreadSubscribers c (userId n) count st3)
      as [[r3 s3] log3] eqn:Hnotify.
    injection Hrun as <- <- <-.
    exists log3. split; [reflexivity |].
    unfold notifyUnreadSubscribers in Hnotify.
    destruct (unreadSubscribers c !! userId n) as [subs |].
    + apply (for_each_from_calls (fun k => PublishUnread (userId n) k count)
               (fun cb => cb count (userId n))) in Hnotify.
      exact Hnotify.
    + unfold ret in Hnotify. injection Hnotify as <- <- <-.
      split; [constructor | reflexivity].
Qed.
End Delete.

(* --------------------------------------------------------------------- *)
(** ** The paths through [send] *)
(* --------------------------------------------------------------------- *)

Section SendCases.
Context {St : Type} `{Runtime St}.
Import NotificationCenter.
Implicit Types (c : NotificationCenter.t St) (st : St).

Lemma bind_log_at {W A B} (P : Event -> Prop) (m : M W A) (k : A -> M W B) s :
  Forall P (snd (m s)) -> (forall a, logs P (k a)) ->
  Forall P (snd (bind m k s)).
Proof.
  intros Hm Hk. unfold bind.
  destruct (m s) as [[[a | e] s1] log1]; simpl in *; [| exact Hm].
  specialize (Hk a s1). destruct (k a s1) as [[r s2] log2]. simpl in *.
  apply Forall_app; auto.
Qed.

Lemma send_build_Throw c input st e st0 log0 :
  buildNotification c input st = (Throw e, st0, log0) ->
  send c input st = (Throw e, st0, log0).
Proof. intros Hb. unfold send. apply bind_Throw. exact Hb. Qed.

Lemma send_before_Throw c input st built st0 log0 e st1 log1 :
  buildNotification c input st = (Ok built, st0, log0) ->
  applyBeforeSendMiddleware c built st0 = (Throw e, st1, log1) ->
  send c input st = (Throw e, st1, log0 ++ log1).
Proof.
  intros Hb Hm. unfold send. rewrite (bind_Ok _ _ _ _ _ _ Hb).
  rewrite (bind_Throw _ _ _ _ _ _ Hm). reflexivity.
Qed.

Lemma send_filtered c input st built st0 log0 st1 log1 :
  buildNotification c input st = (Ok built, st0, log0) ->
  applyBeforeSendMiddleware c built st0 = (Ok None, st1, log1) ->
  send c input st = (Throw filtered_error, st1, log0 ++ log1).
Proof.
  intros Hb Hm. unfold send. rewrite (bind_Ok _ _ _ _ _ _ Hb).
  rewrite (bind_Ok _ _ _ _ _ _ Hm). unfold throw. rewrite app_nil_r.
  reflexivity.
Qed.

Lemma send_save_Throw c input st built st0 log0 kept st1 log1 e st2 :
  buildNotification c input st = (Ok built, st0, log0) ->
  applyBeforeSendMiddleware c built st0 = (Ok (Some kept), st1, log1) ->
  StorageAdapter.save (storage c) kept st1 = (Throw e, st2) ->
  send c input st = (Throw e, st2, log0 ++ log1 ++ [StorageSave kept]).
Proof.
  intros Hb Hm Hs. unfold send. rewrite (bind_Ok _ _ _ _ _ _ Hb).
  rewrite (bind_Ok _ _ _ _ _ _ Hm).
  rewrite (bind_Throw _ _ st1 e st2 [StorageSave kept])
    by (unfold call; rewrite Hs; reflexivity).
  reflexivity.
Qed.

Lemma send_try c input st built st0 log0 kept st1 log1 st2 r o st3 log3 :
  buildNotification c input st = (Ok built, st0, log0) ->
  applyBeforeSendMiddleware c built st0 = (Ok (Some kept), st1, log1) ->
  StorageAdapter.save (storage c) kept st1 = (Ok tt, st2) ->
  try_catch (dispatch c kept) (on_dispatch_error c) (kept, st2)
    = (r, (o, st3), log3) ->
  send c input st = (r, st3, log0 ++ log1 ++ StorageSave kept :: log3).
Proof.
  intros Hb Hm Hs Ht. unfold send. rewrite (bind_Ok _ _ _ _ _ _ Hb).
  rewrite (bind_Ok _ _ _ _ _ _ Hm).
  rewrite (bind_Ok _ _ st1 tt st2 [StorageSave kept])
    by (unfold call; rewrite Hs; reflexivity).
  unfold with_object. rewrite Ht. reflexivity.
Qed.

(** Every delivery call of the [try] block is for the notification that
    was saved. *)
Lemma dispatch_about c n st : Forall (about n) (snd (dispatch c n (n, st))).
Proof.
  assert (forall ev, is_delivery_call ev = false -> about n ev) as Hother.
  { intros ev Hev Hc. congruence. }
  unfold dispatch. apply bind_log_at.
  - destruct (queue c) as [q |].
    + destruct (scheduledFor n).
      * apply logs_bind; [apply logs_lift, logs_gets | intros now].
        apply logs_lift, logs_call. intros _. reflexivity.
      * apply logs_lift, logs_call. intros _. reflexivity.
    + apply sendNow_log; intros; first [by apply Hother | by intros _].
  - intros _. apply logs_bind; [apply logs_get_object | intros current].
    logs_shape;
      [ by apply Hother
      | apply logs_notifySubscribers; intros; by apply Hother
      | apply logs_notifyEventSubscribers; intros; by apply Hother ].
Qed.

Lemma try_block_about c n st :
  Forall (about n)
         (snd (try_catch (dispatch c n) (on_dispatch_error c) (n, st))).
Proof.
  unfold try_catch. pose proof (dispatch_about c n st) as Hd.
  destruct (dispatch c n (n, st)) as [[[a | e] s1] log1]; [exact Hd |].
  simpl in Hd.
  assert (logs (about n) (on_dispatch_error c e)) as Hh.
  { unfold on_dispatch_error. logs_shape. intros Hc. discriminate. }
  specialize (Hh s1). destruct (on_dispatch_error c e s1) as [[r s2] log2].
  simpl in *. apply Forall_app; auto.
Qed.

(** In a log made of undelivering calls, one marker call, and calls that
    satisfy [Q], a delivery call comes after the marker and satisfies [Q]. *)
Lemma delivery_after_marker (Q : Event -> Prop) (before after : list Event)
    (marker : Event) (pre post : list Event) (ev : Event) :
  Forall (fun e => is_delivery_call e = false) before ->
  is_delivery_call marker = false ->
  Forall Q after ->
  before ++ marker :: after = pre ++ ev :: post ->
  is_delivery_call ev = true ->
  Q ev /\ In marker pre.
Proof.
  intros Hbefore Hmarker Hafter Heq Hev.
  apply app_eq_app in Heq.
  destruct Heq as (l & [[-> Hl] | [-> Hl]]).
  - destruct l as [| x l]; simpl in Hl.
    + injection Hl as <- _. congruence.
    + injection Hl as <- ->. apply Forall_app in Hbefore.
      destruct Hbefore as [_ Hx]. inversion Hx; subst. congruence.
  - destruct l as [| x l]; simpl in Hl.
    + injection Hl as -> _. congruence.
    + injection Hl as <- ->. split.
      * apply Forall_app in Hafter. destruct Hafter as [_ Hx].
        inversion Hx; subst. assumption.
      * apply in_or_app. right. left. reflexivity.
Qed.

Lemma not_delivery_of_beforeSend (l : list Event) :
  Forall (fun ev => is_CallBeforeSend ev = true) l ->
  Forall (fun ev => is_delivery_call ev = false) l.
Proof.
  induction 1 as [| ev l Hev _ IH]; constructor; [| exact IH].
  destruct ev; simpl in *; congruence.
Qed.

(** C9. In every [send], a call that hands the notification over for
    delivery ([queue.enqueue], [queue.enqueueDelayed], a transport's [send])
    comes after a [storage.save] of that same notification; and whenever the
    [beforeSend] chain keeps a notification, [storage.save] is called with it
    right after the hooks, whatever the delivery does next. *)
Theorem C9_save_precedes_delivery c (input : NotificationInput) st
    (r : Result Notification) (st' : St) (log : list Event) :
  send c input st = (r, st', log) ->
  (forall pre ev post,
     log = pre ++ ev :: post -> is_delivery_call ev = true ->
     exists n, delivered_notification ev = Some n /\ In (StorageSave n) pre)
  /\ (forall built st0 log0 kept st1 log1,
        buildNotification c input st = (Ok built, st0, log0) ->
        applyBeforeSendMiddleware c built st0 = (Ok (Some kept), st1, log1) ->
        exists rest,
          log = log0 ++ log1 ++ StorageSave kept :: rest
          /\ Forall (fun ev => is_delivery_call ev = false) (log0 ++ log1)).
Proof.
  intros Hsend.
  destruct (buildNotification c input st) as [[[built | e] st0] log0] eqn:Hb.
  2:{ rewrite (send_build_Throw _ _ _ _ _ _ Hb) in Hsend.
      injection Hsend as <- <- <-.
      rewrite (buildNotification_silent _ _ _ _ _ _ Hb). split.
      - intros pre ev post Heq. by destruct pre.
      - intros. discriminate. }
  pose proof (buildNotification_silent _ _ _ _ _ _ Hb) as ->.
  pose proof (logs_beforeSend_loop (middleware c) built st0) as Hhooks.
  apply not_delivery_of_beforeSend in Hhooks.
  fold (applyBeforeSendMiddleware c built) in Hhooks.
  destruct (applyBeforeSendMiddleware c built st0)
    as [[[[kept |] | e] st1] log1] eqn:Hm; simpl in Hhooks.
  - destruct (StorageAdapter.save (storage c) kept st1) as [[[] | e] st2] eqn:Hs.
    + pose proof (try_block_about c kept st2) as Habout.
      destruct (try_catch (dispatch c kept) (on_dispatch_error c) (kept, st2))
        as [[r3 [o st3]] log3] eqn:Ht.
      rewrite (send_try _ _ _ _ _ _ _ _ _ _ _ _ _ _ Hb Hm Hs Ht) in Hsend.
      injection Hsend as <- <- <-. simpl in *. split.
      * intros pre ev post Heq Hev.
        destruct (delivery_after_marker (about kept) log1 log3
                    (StorageSave kept) pre post ev Hhooks eq_refl Habout
                    Heq Hev) as [Hab Hin].
        exists kept. split; [exact (Hab Hev) | exact Hin].
      * intros ? ? ? ? ? ? [= <- <- <-] Hm'. rewrite Hm in Hm'.
        injection Hm' as <- <- <-. eauto.
    + rewrite (send_save_Throw _ _ _ _ _ _ _ _ _ _ _ Hb Hm Hs) in Hsend.
      injection Hsend as <- <- <-. simpl in *. split.
      * intros pre ev post Heq Hev.
        destruct (delivery_after_marker (fun _ => False) log1 []
                    (StorageSave kept) pre post ev Hhooks eq_refl
                    (List.Forall_nil _) Heq Hev) as [[] _].
      * intros ? ? ? ? ? ? [= <- <- <-] Hm'. rewrite Hm in Hm'.
        injection Hm' as <- <- <-. eauto.
  - rewrite (send_filtered _ _ _ _ _ _ _ _ Hb Hm) in Hsend.
    injection Hsend as <- <- <-. simpl. split.
    + intros pre ev post Heq Hev. rewrite Heq in Hhooks.
      apply Forall_app in Hhooks. destruct Hhooks as [_ Hx].
      inversion Hx; subst. congruence.
    + intros ? ? ? ? ? ? [= <- <- <-] Hm'. rewrite Hm in Hm'. discriminate.
  - rewrite (send_before_Throw _ _ _ _ _ _ _ _ _ Hb Hm) in Hsend.
    injection Hsend as <- <- <-. simpl. split.
    + intros pre ev post Heq Hev. rewrite Heq in Hhooks.
      apply Forall_app in Hhooks. destruct Hhooks as [_ Hx].
      inversion Hx; subst. congruence.
    + intros ? ? ? ? ? ? [= <- <- <-] Hm'. rewrite Hm in Hm'. discriminate.
Qed.
End SendCases.

(* --------------------------------------------------------------------- *)
(** ** The middleware pipeline *)
(* --------------------------------------------------------------------- *)

Section Pipeline.
Context {St : Type} `{Runtime St}.
Import NotificationCenter.
Implicit Types (c : NotificationCenter.t St) (st : St).

(** A hook that returns nothing ends the chain: what follows it in the list
    is not consulted. *)
Lemma beforeSend_loop_filtered (pre post : list (NotificationMiddleware.t St))
    (m : NotificationMiddleware.t St) hook n st n1 st1 log1 st2 :
  beforeSend_loop pre n st = (Ok (Some n1), st1, log1) ->
  NotificationMiddleware.beforeSend m = Some hook ->
  hook n1 st1 = (Ok None, st2) ->
  beforeSend_loop (pre ++ m :: post) n st
  = (Ok None, st2, log1 ++ [CallBeforeSend (NotificationMiddleware.name m) n1]).
Proof.
  intros Hpre Hhook Hnone. revert n st log1 Hpre.
  induction pre as [| p pre IH]; intros n st log1 Hpre; simpl in *.
  - injection Hpre as <- <- <-. rewrite Hhook.
    rewrite (bind_Ok _ _ st None st2
               [CallBeforeSend (NotificationMiddleware.name m) n])
      by (unfold call; rewrite Hnone; reflexivity).
    reflexivity.
  - destruct (NotificationMiddleware.beforeSend p) as [hp |]; [| by apply IH].
    apply bind_inv in Hpre.
    destruct Hpre as [(e & _ & [=]) | (a & s1 & l1 & l2 & Hc & Hk & ->)].
    destruct a as [n' |]; [| discriminate].
    rewrite (bind_Ok _ _ _ _ _ _ Hc). rewrite (IH _ _ _ Hk).
    rewrite <- app_assoc. reflexivity.
Qed.

(** One call per hook when the chain runs to its end. *)
Lemma beforeSend_loop_calls (ms : list (NotificationMiddleware.t St))
    n st n1 st1 log1 :
  beforeSend_loop ms n st = (Ok (Some n1), st1, log1) ->
  length log1 = length (List.filter has_beforeSend ms).
Proof.
  revert n st log1. induction ms as [| p ms IH]; intros n st log1 Hrun.
  - simpl in *. by injection Hrun as <- <- <-.
  - simpl in *. unfold has_beforeSend at 1.
    destruct (NotificationMiddleware.beforeSend p) as [hp |].
    + apply bind_inv in Hrun.
      destruct Hrun as [(e & _ & [=]) | (a & s1 & l1 & l2 & Hc & Hk & ->)].
      destruct a as [n' |]; [| discriminate].
      unfold call in Hc. destruct (hp n st). injection Hc as _ _ <-.
      simpl. f_equal. eauto.
    + eauto.
Qed.

Lemma for_each_ext {A} (f g : A -> M St unit) (l : list A) st :
  (forall x, f x = g x) -> for_each f l st = for_each g l st.
Proof.
  intros Hfg. revert st. induction l as [| x l IH]; intros st; simpl.
  - reflexivity.
  - unfold bind. rewrite Hfg. destruct (g x st) as [[[[] | e] s1] log1].
    + by rewrite IH.
    + reflexivity.
Qed.

Lemma for_each_hooks {A} (hook_of : A -> option (Eff St unit))
    (ev_of : A -> Event) (l : list A) st r st' log :
  for_each (fun x => match hook_of x with
                     | Some op => call (ev_of x) op
                     | None => ret tt
                     end) l st = (r, st', log) ->
  (exists done, log = map ev_of done)
  /\ (r = Ok tt ->
      log = map ev_of
                (List.filter (fun x => match hook_of x with
                                       | Some _ => true
                                       | None => false
                                       end) l)).
Proof.
  revert st log. induction l as [| x l IH]; intros st log Hrun; simpl in *.
  - injection Hrun as <- <- <-. split; [by exists [] | done].
  - apply bind_inv in Hrun.
    destruct Hrun as [(e & Hc & ->) | (a & s1 & l1 & l2 & Hc & Hk & ->)].
    + destruct (hook_of x) as [op |]; [| discriminate].
      unfold call in Hc. destruct (op st). injection Hc as _ _ <-.
      split; [by exists [x] | discriminate].
    + apply IH in Hk. destruct Hk as [[done ->] Hok].
      destruct (hook_of x) as [op |].
      * unfold call in Hc. destruct (op st). injection Hc as _ _ <-.
        split; [by exists (x :: done) |].
        intros Hr. simpl. f_equal. auto.
      * injection Hc as _ _ <-.
        split; [by exists done | auto].
Qed.

Lemma applyErrorMiddleware_calls c e n st r st' log :
  applyErrorMiddleware c e n st = (r, st', log) ->
  Forall (fun ev => exists mw, ev = CallOnError mw e n) log
  /\ (r = Ok tt ->
      log = map (fun m => CallOnError (NotificationMiddleware.name m) e n)
                (List.filter has_onError (middleware c))).
Proof.
  intros Hrun. unfold applyErrorMiddleware in Hrun.
  set (hook_of := fun m : NotificationMiddleware.t St =>
         match NotificationMiddleware.onError m with
         | Some h => Some (h e n)
         | None => None
         end).
  set (ev_of := fun m : NotificationMiddleware.t St =>
         CallOnError (NotificationMiddleware.name m) e n).
  assert (for_each (fun x => match hook_of x with
                             | Some op => call (ev_of x) op
                             | None => ret tt
                             end) (middleware c) st = (r, st', log)) as Hrun'.
  { rewrite <- Hrun. apply for_each_ext. intros m. unfold hook_of.
    destruct (NotificationMiddleware.onError m); reflexivity. }
  apply for_each_hooks in Hrun'. destruct Hrun' as [[done ->] Hok]. split.
  - apply List.Forall_forall. intros ev Hin. apply in_map_iff in Hin.
    destruct Hin as (m & <- & _). eexists. reflexivity.
  - intros Hr. rewrite (Hok Hr). f_equal. clear.
    induction (middleware c) as [| m ms IH]; simpl; [reflexivity |].
    unfold hook_of at 1, has_onError at 1.
    destruct (NotificationMiddleware.onError m); by rewrite IH.
Qed.

(** The [catch] block: the hooks, then the error again unless a hook threw. *)
Lemma try_block_Throw c kept st2 e current st3 log3 r4 st4 log4 :
  dispatch c kept (kept, st2) = (Throw e, (current, st3), log3) ->
  applyErrorMiddleware c e current st3 = (r4, st4, log4) ->
  try_catch (dispatch c kept) (on_dispatch_error c) (kept, st2)
  = (match r4 with Ok _ => Throw e | Throw e' => Throw e' end,
     (current, st4), log3 ++ log4).
Proof.
  intros Hd Herr. unfold try_catch. rewrite Hd.
  unfold on_dispatch_error. rewrite bind_get_object.
  unfold bind, lift. simpl. rewrite Herr.
  destruct r4 as [[] | e']; simpl; [rewrite app_nil_r |]; reflexivity.
Qed.
End Pipeline.

Section Dispatch.
Context {St : Type} `{Runtime St}.
Import NotificationCenter.
Implicit Types (c : NotificationCenter.t St) (st : St).

(** A transport that throws yields a [failed] receipt, not an exception. *)
Lemma deliver_failure_is_a_receipt c n prefs ch transport e st st1 st2 :
  transports c !! ch = Some transport ->
  TransportAdapter.canSend transport n prefs st = (Ok true, st1) ->
  TransportAdapter.send transport n prefs st1 = (Throw e, st2) ->
  (forall op receipt s, StorageAdapter.saveReceipt (storage c) = Some op ->
                        exists s', op receipt s = (Ok tt, s')) ->
  exists receipt st3 log,
    deliver c n prefs ch st = (Ok (Some receipt), st3, log)
    /\ r_status receipt = ds_failed
    /\ attempts receipt = 1
    /\ error receipt = Some (message e).
Proof.
  intros Ht Hcan Hsend Hsave. unfold deliver. rewrite Ht.
  rewrite (bind_Ok _ _ st true st1 [TransportCanSend ch n])
    by (unfold call; rewrite Hcan; reflexivity).
  change (negb true) with false. cbv beta iota. unfold try_catch.
  rewrite (bind_Throw _ _ st1 e st2 [TransportSend ch n prefs])
    by (unfold call; rewrite Hsend; reflexivity).
  unfold saveReceipt_if_supported.
  destruct (StorageAdapter.saveReceipt (storage c)) as [op |] eqn:Hop.
  - unfold bind, gets, call, ret.
    match goal with
    | |- context [op ?r ?s] => destruct (Hsave op r s eq_refl) as [s' ->]
    end.
    simpl. eauto 10.
  - unfold bind, gets, ret. simpl. eauto 10.
Qed.

(** C2. If a [beforeSend] hook of the chain returns nothing, [send] stores
    nothing, enqueues nothing, delivers nothing and publishes nothing: its
    only calls are the hooks up to the filtering one, the hooks after it do
    not run, and the caller gets the "filtered" error as an exception, where a
    failed delivery is a receipt and never an exception. *)
Theorem C2_filtered_send_is_a_no_op c (input : NotificationInput) st
    built st0 log0 (pre post : list (NotificationMiddleware.t St))
    (m : NotificationMiddleware.t St) hook n1 st1 log1 st2 :
  buildNotification c input st = (Ok built, st0, log0) ->
  middleware c = pre ++ m :: post ->
  beforeSend_loop pre built st0 = (Ok (Some n1), st1, log1) ->
  NotificationMiddleware.beforeSend m = Some hook ->
  hook n1 st1 = (Ok None, st2) ->
  exists log,
    send c input st = (Throw filtered_error, st2, log)
    /\ log = log1 ++ [CallBeforeSend (NotificationMiddleware.name m) n1]
    /\ Forall (fun ev => is_CallBeforeSend ev = true) log
    /\ Forall (fun ev => is_StorageSave ev = false
                         /\ is_delivery_call ev = false
                         /\ is_publish ev = false) log
    /\ length log = S (length (List.filter has_beforeSend pre))
    /\ (forall n prefs ch transport e sa sb sc,
          transports c !! ch = Some transport ->
          TransportAdapter.canSend transport n prefs sa = (Ok true, sb) ->
          TransportAdapter.send transport n prefs sb = (Throw e, sc) ->
          (forall op receipt s,
             StorageAdapter.saveReceipt (storage c) = Some op ->
             exists s', op receipt s = (Ok tt, s')) ->
          exists receipt sd dlog,
            deliver c n prefs ch sa = (Ok (Some receipt), sd, dlog)
            /\ r_status receipt = ds_failed).
Proof.
  intros Hb Hmw Hpre Hhook Hnone.
  pose proof (buildNotification_silent _ _ _ _ _ _ Hb) as ->.
  pose proof (beforeSend_loop_filtered pre post m hook built st0 n1 st1 log1
                st2 Hpre Hhook Hnone) as Hloop.
  assert (applyBeforeSendMiddleware c built st0
          = (Ok None, st2,
             log1 ++ [CallBeforeSend (NotificationMiddleware.name m) n1]))
    as Hchain by (unfold applyBeforeSendMiddleware; rewrite Hmw; exact Hloop).
  pose proof (logs_beforeSend_loop (pre ++ m :: post) built st0) as Hall.
  rewrite Hloop in Hall. simpl in Hall.
  eexists. split; [exact (send_filtered _ _ _ _ _ _ _ _ Hb Hchain) |].
  simpl. split; [reflexivity |]. split; [exact Hall |]. split; [| split].
  - clear -Hall. induction Hall as [| ev l Hev _ IH]; constructor; [| exact IH].
    destruct ev; simpl in *; try discriminate; auto.
  - rewrite length_app. simpl.
    rewrite (beforeSend_loop_calls _ _ _ _ _ _ Hpre). lia.
  - intros n prefs ch transport e sa sb sc Ht Hcan Hsend Hsave.
    destruct (deliver_failure_is_a_receipt c n prefs ch transport e sa sb sc
                Ht Hcan Hsend Hsave) as (receipt & sd & dlog & Hd & Hst & _).
    eauto.
Qed.

(** C3 (as the code has it). Only the [try] block of [send] is guarded: when
    enqueueing, delivering, the [afterSend] chain or the publication throws,
    the [onError] hooks run in registration order with the error and the
    notification, and the same error is thrown again once they have all
    returned (a hook that throws stops the chain and its own error goes to
    the caller).  An exception from building, from the [beforeSend] chain or
    from the first [storage.save] goes to the caller and no [onError] hook
    runs. *)
Theorem C3_onError_guards_the_try_block c (input : NotificationInput) st :
  (forall e st0 log0,
     buildNotification c input st = (Throw e, st0, log0) ->
     send c input st = (Throw e, st0, []))
  /\ (forall built st0 log0,
        buildNotification c input st = (Ok built, st0, log0) ->
        (forall e st1 log1,
           applyBeforeSendMiddleware c built st0 = (Throw e, st1, log1) ->
           send c input st = (Throw e, st1, log1)
           /\ Forall (fun ev => is_CallOnError ev = false) log1)
        /\ (forall kept st1 log1,
              applyBeforeSendMiddleware c built st0
                = (Ok (Some kept), st1, log1) ->
              (forall e st2,
                 StorageAdapter.save (storage c) kept st1 = (Throw e, st2) ->
                 send c input st
                   = (Throw e, st2, log1 ++ [StorageSave kept])
                 /\ Forall (fun ev => is_CallOnError ev = false)
                           (log1 ++ [StorageSave kept]))
              /\ (forall st2 e current st3 log3 r4 st4 log4,
                    StorageAdapter.save (storage c) kept st1 = (Ok tt, st2) ->
                    dispatch c kept (kept, st2)
                      = (Throw e, (current, st3), log3) ->
                    applyErrorMiddleware c e current st3 = (r4, st4, log4) ->
                    send c input st
                      = (match r4 with
                         | Ok _ => Throw e
                         | Throw e' => Throw e'
                         end, st4,
                         log1 ++ StorageSave kept :: log3 ++ log4)
                    /\ Forall (fun ev => exists mw,
                                 ev = CallOnError mw e current) log4
                    /\ (r4 = Ok tt ->
                        log4
                        = map (fun m => CallOnError
                                          (NotificationMiddleware.name m)
                                          e current)
                              (List.filter has_onError (middleware c)))))).
Proof.
  assert (forall l, Forall (fun ev => is_CallBeforeSend ev = true) l ->
                    Forall (fun ev => is_CallOnError ev = false) l) as Hno.
  { induction 1 as [| ev l Hev _ IH]; constructor; [| exact IH].
    destruct ev; simpl in *; congruence. }
  split.
  - intros e st0 log0 Hb.
    pose proof (buildNotification_silent _ _ _ _ _ _ Hb) as ->.
    exact (send_build_Throw _ _ _ _ _ _ Hb).
  - intros built st0 log0 Hb.
    pose proof (buildNotification_silent _ _ _ _ _ _ Hb) as ->. split.
    + intros e st1 log1 Hm. split.
      * exact (send_before_Throw _ _ _ _ _ _ _ _ _ Hb Hm).
      * apply Hno. pose proof (logs_beforeSend_loop (middleware c) built st0)
          as Hall. fold (applyBeforeSendMiddleware c built) in Hall.
        rewrite Hm in Hall. exact Hall.
    + intros kept st1 log1 Hm.
      assert (Forall (fun ev => is_CallOnError ev = false) log1) as Hlog1.
      { apply Hno. pose proof (logs_beforeSend_loop (middleware c) built st0)
          as Hall. fold (applyBeforeSendMiddleware c built) in Hall.
        rewrite Hm in Hall. exact Hall. }
      split.
      * intros e st2 Hs. split.
        -- exact (send_save_Throw _ _ _ _ _ _ _ _ _ _ _ Hb Hm Hs).
        -- apply Forall_app. split; [exact Hlog1 | by repeat constructor].
      * intros st2 e current st3 log3 r4 st4 log4 Hs Hd Herr.
        pose proof (try_block_Throw _ _ _ _ _ _ _ _ _ _ Hd Herr) as Ht.
        split; [exact (send_try _ _ _ _ _ _ _ _ _ _ _ _ _ _ Hb Hm Hs Ht) |].
        exact (applyErrorMiddleware_calls _ _ _ _ _ _ _ Herr).
Qed.
End Dispatch.

(* --------------------------------------------------------------------- *)
(** ** The delivery coordinator *)
(* --------------------------------------------------------------------- *)

Section Coordinator.
Context {St : Type} `{Runtime St}.
Import NotificationCenter.
Implicit Types (c : NotificationCenter.t St) (st : St).

Lemma lift_inv {A} (m : M St A) (s s' : Notification * St) r log :
  lift m s = (r, s', log) ->
  m (snd s) = (r, snd s', log) /\ fst s' = fst s.
Proof.
  unfold lift. destruct (m (snd s)) as [[r1 s1] log1].
  intros [= <- <- <-]. auto.
Qed.

Lemma allFailed_spec (receipts : list (option DeliveryReceipt)) :
  allFailed receipts = true <-> Forall skipped_or_failed receipts.
Proof.
  unfold allFailed. rewrite forallb_forall, List.Forall_forall.
  split; intros Hall r Hin; specialize (Hall r Hin).
  - destruct r as [receipt |]; [| by left].
    right. exists receipt. split; [reflexivity |].
    by apply bool_decide_eq_true in Hall.
  - destruct Hall as [-> | (receipt & -> & Hst)]; [reflexivity |].
    by apply bool_decide_eq_true.
Qed.

Lemma anyDelivered_spec (receipts : list (option DeliveryReceipt)) :
  anyDelivered receipts = true <-> Exists is_delivered receipts.
Proof.
  unfold anyDelivered. rewrite existsb_exists, List.Exists_exists.
  split; intros (r & Hin & Hr); exists r; (split; [exact Hin |]).
  - destruct r as [receipt |]; [| discriminate].
    exists receipt. split; [reflexivity |].
    by apply bool_decide_eq_true in Hr.
  - destruct Hr as (receipt & -> & Hst). by apply bool_decide_eq_true.
Qed.

(** The status the coordinator computes, read as the rule states it. *)
Lemma aggregate_spec (receipts : list (option DeliveryReceipt)) :
  (aggregate receipts = st_failed <-> Forall skipped_or_failed receipts)
  /\ (aggregate receipts = st_delivered
      <-> ~ Forall skipped_or_failed receipts /\ Exists is_delivered receipts)
  /\ (aggregate receipts = st_sent
      <-> ~ Forall skipped_or_failed receipts
          /\ ~ Exists is_delivered receipts).
Proof.
  unfold aggregate.
  rewrite <- allFailed_spec, <- anyDelivered_spec.
  destruct (allFailed receipts), (anyDelivered receipts);
    intuition congruence.
Qed.

(** A channel contributes no receipt exactly when it has no transport or
    its transport declines. *)
Lemma deliver_None c n prefs ch st r st' log :
  deliver c n prefs ch st = (Ok r, st', log) ->
  r = None
  <-> (transports c !! ch = None
       \/ exists transport,
            transports c !! ch = Some transport
            /\ fst (TransportAdapter.canSend transport n prefs st) = Ok false).
Proof.
  unfold deliver. destruct (transports c !! ch) as [transport |].
  2:{ intros [= <- _ _]. split; auto. }
  intros Hrun. apply bind_inv in Hrun.
  destruct Hrun as [(e & _ & [=]) | (ok & s1 & l1 & l2 & Hc & Hk & ->)].
  unfold call in Hc.
  destruct (TransportAdapter.canSend transport n prefs st) as [rc sc] eqn:Hcs.
  injection Hc as -> -> <-. destruct ok; simpl in Hk.
  - assert (r <> None) as Hsome.
    { unfold try_catch in Hk.
      match type of Hk with
      | context [bind ?m ?k s1] => destruct (bind m k s1) as [[[a | e] s2] lg] eqn:Hb
      end.
      - injection Hk as <- _ _. apply bind_inv in Hb.
        destruct Hb as [(e & _ & [=]) | (x & s3 & l3 & l4 & _ & Hk2 & _)].
        apply bind_inv in Hk2.
        destruct Hk2 as [(e & _ & [=]) | (y & s5 & l5 & l6 & _ & Hk3 & _)].
        injection Hk3 as <- _ _. discriminate.
      - match type of Hk with
        | context [bind ?m ?k s2] =>
            destruct (bind m k s2) as [[r' s4] lg'] eqn:Hb2
        end.
        injection Hk as -> _ _. apply bind_inv in Hb2.
        destruct Hb2 as [(e' & _ & [=]) | (x & s3 & l3 & l4 & _ & Hk2 & _)].
        apply bind_inv in Hk2.
        destruct Hk2 as [(e' & _ & [=]) | (y & s5 & l5 & l6 & _ & Hk3 & _)].
        injection Hk3 as <- _ _. discriminate. }
    split; [intros Hr; contradiction |].
    intros [Hc | (t' & [= <-] & Hc)]; [discriminate |].
    rewrite Hcs in Hc. discriminate.
  - injection Hk as <- _ _. split; [| reflexivity].
    intros _. right. exists transport. rewrite Hcs. auto.
Qed.

Lemma promise_all_map_Ok {A B} (f : A -> M St B) (l : list A) st rs st' log :
  promise_all (map f l) st = (Ok rs, st', log) ->
  Forall2 (fun x r => exists sa sb lg, f x sa = (Ok r, sb, lg)) l rs.
Proof.
  revert st rs st' log. induction l as [| x l IH]; intros st rs st' log; simpl.
  - intros [= <- _ _]. constructor.
  - destruct (f x st) as [[r s1] log1] eqn:Hf.
    destruct (promise_all (map f l) s1) as [[rs' s2] log2] eqn:Hrest.
    destruct r as [a | e]; [| discriminate].
    destruct rs' as [others | e]; [| discriminate].
    intros [= <- _ _].
    constructor; [exists st, s1, log1; exact Hf | exact (IH _ _ _ _ Hrest)].
Qed.

(** What a completed delivery pass did, step by step. *)
Lemma sendNow_Ok_inv c (n n' : Notification) st st' (log : list Event) :
  sendNow c (n, st) = (Ok tt, (n', st'), log) ->
  exists prefs st1 receipts st2 calls,
    StorageAdapter.getPreferences (storage c) (userId n) st = (Ok prefs, st1)
    /\ promise_all (map (deliver c n prefs) (channels n)) st1
       = (Ok receipts, st2, calls)
    /\ Forall2 (fun ch r =>
                  exists sa sb lg,
                    deliver c n prefs ch sa = (Ok r, sb, lg)
                    /\ (r = None
                        <-> (transports c !! ch = None
                             \/ exists transport,
                                  transports c !! ch = Some transport
                                  /\ fst (TransportAdapter.canSend
                                            transport n prefs sa) = Ok false)))
               (channels n) receipts
    /\ n' = set_status (status n') n
    /\ log = StorageGetPreferences (userId n) :: calls ++ [StorageSave n']
    /\ (status n' = st_failed <-> Forall skipped_or_failed receipts)
    /\ (status n' = st_delivered
        <-> ~ Forall skipped_or_failed receipts
            /\ Exists is_delivered receipts)
    /\ (status n' = st_sent
        <-> ~ Forall skipped_or_failed receipts
            /\ ~ Exists is_delivered receipts)
    /\ (Forall (fun r => r = None) receipts -> status n' = st_failed).
Proof.
  intros Hrun. unfold sendNow in Hrun. rewrite bind_get_object in Hrun.
  apply bind_inv in Hrun.
  destruct Hrun as [(e & _ & [=]) | (prefs & s1 & l1 & l2 & Hp & Hk & ->)].
  apply lift_inv in Hp. destruct Hp as [Hp Ho1]. destruct s1 as [o1 st1].
  simpl in Hp, Ho1. subst o1.
  unfold getPreferences, call in Hp.
  destruct (StorageAdapter.getPreferences (storage c) (userId n) st)
    as [rp sp] eqn:Hprefs.
  injection Hp as -> -> <-.
  apply bind_inv in Hk.
  destruct Hk as [(e & _ & [=]) | (receipts & s2 & l3 & l4 & Hall & Hk & ->)].
  apply lift_inv in Hall. destruct Hall as [Hall Ho2]. destruct s2 as [o2 st2].
  simpl in Hall, Ho2. subst o2.
  apply bind_inv in Hk.
  destruct Hk as [(e & _ & [=]) | ([] & s3 & l5 & l6 & Hu & Hk & ->)].
  unfold update_object in Hu. simpl in Hu. injection Hu as <- <-.
  rewrite bind_get_object in Hk.
  apply lift_inv in Hk. destruct Hk as [Hsave Ho3]. simpl in Hsave, Ho3.
  unfold call in Hsave.
  destruct (StorageAdapter.save (storage c)
              (set_status (aggregate receipts) n) st2) as [rs ss].
  injection Hsave as -> -> <-. subst n'.
  exists prefs, st1, receipts, st2, l3.
  pose proof (aggregate_spec receipts) as (Hf & Hd & Hs).
  split; [reflexivity |]. split; [exact Hall |]. split.
  { apply promise_all_map_Ok in Hall.
    eapply Forall2_impl; [exact Hall |]. simpl.
    intros ch r (sa & sb & lg & Hdel). exists sa, sb, lg.
    split; [exact Hdel | exact (deliver_None _ _ _ _ _ _ _ _ Hdel)]. }
  split; [reflexivity |]. split; [reflexivity |].
  simpl. split; [exact Hf |]. split; [exact Hd |]. split; [exact Hs |].
  intros Hnone. apply Hf. eapply List.Forall_impl; [| exact Hnone].
  intros r ->. by left.
Qed.

(** With at least one channel the bundled build does what the source does. *)
Lemma sendNow_bundled_agrees c (n : Notification) st :
  channels n <> [] -> sendNow_bundled c (n, st) = sendNow c (n, st).
Proof.
  intros Hne. unfold sendNow_bundled, sendNow. rewrite !bind_get_object.
  unfold bind at 1 5.
  destruct (lift (getPreferences c (userId n)) (n, st))
    as [[[prefs | e] s1] l1]; [| reflexivity].
  unfold bind at 1 4.
  destruct (lift (promise_all (map (deliver c n prefs) (channels n))) s1)
    as [[[receipts | e] s2] l2] eqn:Hall; [| reflexivity].
  apply lift_inv in Hall. destruct Hall as [Hall _].
  apply promise_all_map_Ok, Forall2_length in Hall.
  destruct receipts as [| r receipts]; [| reflexivity].
  destruct (channels n); [contradiction | discriminate].
Qed.

(** C1. One delivery pass over a notification with channels: the status
    stored by the closing [storage.save] is [failed] exactly when every
    channel was skipped (no transport, or [canSend] false) or got a [failed]
    receipt, else [delivered] when some receipt is [delivered], else [sent];
    with every channel skipped it is [failed]. *)
Theorem C1_sendNow_aggregates_receipts c (n n' : Notification) st st'
    (log : list Event) :
  channels n <> [] ->
  sendNow c (n, st) = (Ok tt, (n', st'), log) ->
  exists prefs st1 receipts st2 calls,
    StorageAdapter.getPreferences (storage c) (userId n) st = (Ok prefs, st1)
    /\ promise_all (map (deliver c n prefs) (channels n)) st1
       = (Ok receipts, st2, calls)
    /\ Forall2 (fun ch r =>
                  exists sa sb lg,
                    deliver c n prefs ch sa = (Ok r, sb, lg)
                    /\ (r = None
                        <-> (transports c !! ch = None
                             \/ exists transport,
                                  transports c !! ch = Some transport
                                  /\ fst (TransportAdapter.canSend
                                            transport n prefs sa) = Ok false)))
               (channels n) receipts
    /\ n' = set_status (status n') n
    /\ log = StorageGetPreferences (userId n) :: calls ++ [StorageSave n']
    /\ (status n' = st_failed <-> Forall skipped_or_failed receipts)
    /\ (status n' = st_delivered
        <-> ~ Forall skipped_or_failed receipts
            /\ Exists is_delivered receipts)
    /\ (status n' = st_sent
        <-> ~ Forall skipped_or_failed receipts
            /\ ~ Exists is_delivered receipts)
    /\ (Forall (fun r => r = None) receipts -> status n' = st_failed).
Proof. intros _. apply sendNow_Ok_inv. Qed.
End Coordinator.

(* --------------------------------------------------------------------- *)
(** ** Retrying failed deliveries *)
(* --------------------------------------------------------------------- *)

Section Retry.
Context {St : Type} `{Runtime St}.
Import NotificationCenter.
Implicit Types (c : NotificationCenter.t St) (st : St).

Lemma sent_channels_app (l1 l2 : list Event) :
  sent_channels (l1 ++ l2) = sent_channels l1 ++ sent_channels l2.
Proof. unfold sent_channels. apply flat_map_app. Qed.

Lemma retry_one_log c n rc st r st' log :
  retry_one c n rc st = (r, st', log) ->
  (forall ch n' p, In (TransportSend ch n' p) log ->
                   n' = n /\ ch = channel rc)
  /\ (r = Ok tt ->
      sent_channels log
      = if has_transport c rc then [channel rc] else []).
Proof.
  unfold retry_one, has_transport.
  destruct (transports c !! channel rc) as [transport |].
  2:{ intros [= <- <- <-]. split; [intros ? ? ? [] | reflexivity]. }
  intros Hrun. apply bind_inv in Hrun.
  destruct Hrun as [(e & Hp & ->) | (prefs & s1 & l1 & l2 & Hp & Hk & ->)];
    unfold getPreferences, call in Hp;
    destruct (StorageAdapter.getPreferences (storage c) (userId n) st);
    injection Hp as -> -> <-.
  { split; [| discriminate]. intros ch n' p [[=] | []]. }
  apply bind_inv in Hk.
  destruct Hk as [(e & Hs & ->) | ([] & s2 & l3 & l4 & Hs & Hk & ->)];
    unfold call in Hs;
    destruct (TransportAdapter.send transport n prefs s1);
    injection Hs as -> -> <-.
  { split; [| discriminate].
    intros ch n' p [[=] | [[= -> -> ->] | []]]. auto. }
  injection Hk as <- <- <-. split; [| reflexivity].
  intros ch n' p [[=] | [[= -> -> ->] | []]]. auto.
Qed.

Lemma retry_loop_log c n (l : list DeliveryReceipt) st r st' log :
  for_each (retry_one c n) l st = (r, st', log) ->
  (forall ch n' p, In (TransportSend ch n' p) log ->
                   n' = n /\ exists rc, In rc l /\ channel rc = ch)
  /\ (r = Ok tt ->
      sent_channels log = map channel (List.filter (has_transport c) l)).
Proof.
  revert st log. induction l as [| rc l IH]; intros st log Hrun; simpl in *.
  - injection Hrun as <- <- <-. split; [intros ? ? ? [] | reflexivity].
  - apply bind_inv in Hrun.
    destruct Hrun as [(e & Hone & ->) | ([] & s1 & l1 & l2 & Hone & Hk & ->)].
    + apply retry_one_log in Hone. destruct Hone as [Hin _].
      split; [| discriminate]. intros ch n' p Hev.
      destruct (Hin ch n' p Hev) as [-> ->]. eauto.
    + apply retry_one_log in Hone. destruct Hone as [Hin Hok].
      apply IH in Hk. destruct Hk as [Hin' Hok']. split.
      * intros ch n' p Hev. apply in_app_or in Hev. destruct Hev as [Hev | Hev].
        -- destruct (Hin ch n' p Hev) as [-> ->]. eauto.
        -- destruct (Hin' ch n' p Hev) as (-> & rc' & Hrc & <-). eauto.
      * intros Hr. rewrite sent_channels_app, (Hok eq_refl), (Hok' Hr).
        destruct (has_transport c rc); reflexivity.
Qed.

(** C7 (as the code has it). [retryFailed] calls a transport's [send] once
    for every stored receipt that is [failed] and on the requested channel
    (any channel when none is given) and whose channel has a transport, in
    the order of the receipts; it does not look at what later receipts of
    that channel say.  An unknown id fails with "not found". *)
Theorem C7_retryFailed_resends_each_failed_receipt c (nid : string)
    (only : option ChannelType) st :
  (forall st1,
     StorageAdapter.findById (storage c) nid st = (Ok None, st1) ->
     retryFailed c nid only st
     = (Throw (not_found_error nid), st1, [StorageFindById nid]))
  /\ (forall n st1 receipts st2 glog r st' log,
        StorageAdapter.findById (storage c) nid st = (Ok (Some n), st1) ->
        getDeliveryStatus c nid st1 = (Ok receipts, st2, glog) ->
        retryFailed c nid only st = (r, st', log) ->
        (forall ch n' p,
           In (TransportSend ch n' p) log ->
           n' = n
           /\ (only = None \/ only = Some ch)
           /\ exists rc, In rc receipts /\ channel rc = ch
                         /\ r_status rc = ds_failed)
        /\ (r = Ok tt ->
            sent_channels log
            = map channel
                  (List.filter (has_transport c)
                     (List.filter (retry_wanted only) receipts)))).
Proof.
  split.
  - intros st1 Hfind. unfold retryFailed.
    rewrite (bind_Ok _ _ st None st1 [StorageFindById nid])
      by (unfold call; rewrite Hfind; reflexivity).
    reflexivity.
  - intros n st1 receipts st2 glog r st' log Hfind Hget Hrun.
    unfold retryFailed in Hrun.
    rewrite (bind_Ok _ _ st (Some n) st1 [StorageFindById nid]) in Hrun
      by (unfold call; rewrite Hfind; reflexivity).
    rewrite (bind_Ok _ _ _ _ _ _ Hget) in Hrun.
    destruct (for_each (retry_one c n)
                (List.filter (retry_wanted only) receipts) st2)
      as [[r2 s2] log2] eqn:Hloop.
    injection Hrun as <- <- <-.
    assert (sent_channels glog = [] /\
            forall ch n' p, ~ In (TransportSend ch n' p) glog) as [Hg1 Hg2].
    { unfold getDeliveryStatus in Hget.
      destruct (StorageAdapter.getReceipts (storage c)) as [op |].
      - unfold call in Hget. destruct (op nid st1).
        injection Hget as _ _ <-. split; [reflexivity |].
        intros ch n' p [[=] | []].
      - injection Hget as _ _ <-. split; [reflexivity |].
        intros ch n' p []. }
    apply retry_loop_log in Hloop. destruct Hloop as [Hin Hok]. split.
    + intros ch n' p [[=] | Hev].
      apply in_app_or in Hev. destruct Hev as [Hev | Hev];
        [destruct (Hg2 _ _ _ Hev) |].
      destruct (Hin ch n' p Hev) as (-> & rc & Hrc & <-).
      apply filter_In in Hrc. destruct Hrc as [Hrc Hwanted].
      unfold retry_wanted in Hwanted. apply andb_true_iff in Hwanted.
      destruct Hwanted as [Hfailed Hch].
      apply bool_decide_eq_true in Hfailed.
      split; [reflexivity |]. split.
      * destruct only as [ch |]; [| by left]. right.
        apply bool_decide_eq_true in Hch. by rewrite Hch.
      * eauto.
    + intros Hr. simpl. rewrite sent_channels_app, Hg1. simpl. auto.
Qed.
End Retry.

(* --------------------------------------------------------------------- *)
(** ** Building a notification *)
(* --------------------------------------------------------------------- *)

Lemma truthy_string_true (o : option string) :
  truthy_string o = true <-> exists s, o = Some s /\ s <> EmptyString.
Proof.
  destruct o as [s |]; simpl.
  - rewrite negb_true_iff, String.eqb_neq. split; [eauto |].
    by intros (s' & [= <-] & Hs).
  - split; [discriminate | by intros (s & [=] & _)].
Qed.

Lemma truthy_string_false (o : option string) :
  truthy_string o = false <-> o = None \/ o = Some EmptyString.
Proof.
  destruct o as [s |]; simpl.
  - rewrite negb_false_iff, String.eqb_eq. split.
    + intros ->. by right.
    + by intros [[=] | [= ->]].
  - split; auto.
Qed.

Lemma or_string_supplied (a b : option string) (s : string) :
  a = Some s -> s <> EmptyString -> or_string a b = Some s.
Proof.
  intros -> Hs. unfold or_string.
  assert (truthy_string (Some s) = true) as ->
    by (apply truthy_string_true; eauto).
  reflexivity.
Qed.

Lemma or_string_fallback (a b : option string) :
  a = None \/ a = Some EmptyString -> or_string a b = b.
Proof.
  intros Ha. unfold or_string. apply truthy_string_false in Ha.
  by rewrite Ha.
Qed.

Section Build.
Context {St : Type} `{Runtime St}.
Import NotificationCenter.
Implicit Types (c : NotificationCenter.t St) (st : St).

Lemma bind_silent {W A B} (m : M W A) (k : A -> M W B) s a s1 :
  m s = (Ok a, s1, []) -> bind m k s = k a s1.
Proof.
  intros Hm. unfold bind. rewrite Hm.
  destruct (k a s1) as [[r s2] log2]. reflexivity.
Qed.

Lemma generateId_run st :
  generateId st
  = (Ok ("notif_" +:+ pretty (Date_now st) +:+ "_"
         +:+ fst (Math_random_base36 st)),
     snd (Math_random_base36 st), []).
Proof. unfold generateId. by destruct (Math_random_base36 st). Qed.

Lemma buildNotification_template c input st tname tpl t b :
  in_template input = Some tname -> tname <> EmptyString ->
  templates c !! tname = Some tpl ->
  template_text (d_title (defaults tpl)) (in_data input) = Ok t ->
  template_text (d_body (defaults tpl)) (in_data input) = Ok b ->
  let st' := snd (Math_random_base36 st) in
  buildNotification c input st
  = (Ok {| id := "notif_" +:+ pretty (Date_now st) +:+ "_"
                 +:+ fst (Math_random_base36 st);
           type := or_string (in_type input) (Some (tpl_type tpl));
           title := or_string (in_title input) (Some t);
           body := or_string (in_body input) (Some b);
           data := in_data input;
           userId := in_userId input;
           groupId := in_groupId input;
           priority := default (d_priority (defaults tpl)) (in_priority input);
           category := or_string (in_category input)
                                 (d_category (defaults tpl));
           status := st_pending;
           readAt := None;
           createdAt := Date_now st';
           scheduledFor := in_scheduledFor input;
           expiresAt := match in_expiresAt input with
                        | Some d => Some d
                        | None => template_expiry tpl (Date_now st')
                        end;
           channels := match in_channels input with
                       | [] => d_channels (defaults tpl)
                       | _ :: _ => in_channels input
                       end;
           actions := in_actions input |}, st', []).
Proof.
  intros Hname Hne Htpl Ht Hb st'. unfold buildNotification.
  assert (truthy_string (in_template input) = true) as ->
    by (apply truthy_string_true; eauto).
  rewrite Hname. change (default EmptyString (Some tname)) with tname. rewrite Htpl.
  unfold resolve_text. rewrite Ht, Hb.
  rewrite (bind_silent _ _ st t st) by reflexivity.
  rewrite (bind_silent _ _ st b st) by reflexivity.
  rewrite (bind_silent _ _ _ _ _ (generateId_run st)).
  fold st'.
  rewrite (bind_silent _ _ st' (Date_now st') st') by reflexivity.
  unfold template_expiry.
  destruct (in_expiresAt input) as [d |].
  - rewrite (bind_silent _ _ st' (Some d) st') by reflexivity. reflexivity.
  - destruct (truthy_number (d_expiresIn (defaults tpl))).
    + rewrite (bind_silent _ _ st'
                 (Some (Date_now st' + default 0 (d_expiresIn (defaults tpl))))
                 st') by reflexivity.
      reflexivity.
    + rewrite (bind_silent _ _ st' None st') by reflexivity. reflexivity.
Qed.

Lemma buildNotification_unknown_template c input st tname :
  in_template input = Some tname -> tname <> EmptyString ->
  templates c !! tname = None ->
  buildNotification c input st
  = (Throw (mkError ("Template " +:+ tname +:+ " not found")), st, []).
Proof.
  intros Hname Hne Htpl. unfold buildNotification.
  assert (truthy_string (in_template input) = true) as ->
    by (apply truthy_string_true; eauto).
  rewrite Hname. change (default EmptyString (Some tname)) with tname. rewrite Htpl. reflexivity.
Qed.

(** C4 (as the code has it). With a registered template named by a
    non-empty id, [title], [body] and [category] come from the input when it
    gives a non-empty string, [priority] and [expiresAt] when it gives one,
    [channels] when its list is not empty, and from the template otherwise;
    a template text that is a function is applied to [input.data]; with no
    [expiresAt] in the input the expiry is the clock plus the template's
    [expiresIn] when that is a non-zero number and absent otherwise.  A
    non-empty id that is not registered makes [send] fail with "Template ...
    not found". *)
Theorem C4_template_fills_what_the_input_leaves c (input : NotificationInput)
    st (tname : string) :
  in_template input = Some tname -> tname <> EmptyString ->
  (templates c !! tname = None ->
   send c input st
   = (Throw (mkError ("Template " +:+ tname +:+ " not found")), st, []))
  /\ (forall tpl t b,
        templates c !! tname = Some tpl ->
        template_text (d_title (defaults tpl)) (in_data input) = Ok t ->
        template_text (d_body (defaults tpl)) (in_data input) = Ok b ->
        exists n st',
          buildNotification c input st = (Ok n, st', [])
          /\ (forall s, in_title input = Some s -> s <> EmptyString ->
                        title n = Some s)
          /\ (in_title input = None \/ in_title input = Some EmptyString ->
              title n = Some t)
          /\ (forall s, in_body input = Some s -> s <> EmptyString -> body n = Some s)
          /\ (in_body input = None \/ in_body input = Some EmptyString ->
              body n = Some b)
          /\ (forall s, in_category input = Some s -> s <> EmptyString ->
                        category n = Some s)
          /\ (in_category input = None \/ in_category input = Some EmptyString ->
              category n = d_category (defaults tpl))
          /\ (forall p, in_priority input = Some p -> priority n = p)
          /\ (in_priority input = None ->
              priority n = d_priority (defaults tpl))
          /\ (in_channels input <> [] -> channels n = in_channels input)
          /\ (in_channels input = [] ->
              channels n = d_channels (defaults tpl))
          /\ (forall d, in_expiresAt input = Some d -> expiresAt n = Some d)
          /\ (in_expiresAt input = None ->
              forall ms, d_expiresIn (defaults tpl) = Some ms -> ms <> 0 ->
                         expiresAt n = Some (Date_now st' + ms))
          /\ (in_expiresAt input = None ->
              d_expiresIn (defaults tpl) = None
              \/ d_expiresIn (defaults tpl) = Some 0 ->
              expiresAt n = None)).
Proof.
  intros Hname Hne. split.
  - intros Htpl. apply send_build_Throw.
    by apply buildNotification_unknown_template.
  - intros tpl t b Htpl Ht Hb.
    eexists. eexists. split.
    { exact (buildNotification_template c input st tname tpl t b
               Hname Hne Htpl Ht Hb). }
    cbn [title body category priority channels expiresAt].
    repeat split.
    + intros s Hs Hnes. by apply or_string_supplied.
    + apply or_string_fallback.
    + intros s Hs Hnes. by apply or_string_supplied.
    + apply or_string_fallback.
    + intros s Hs Hnes. by apply or_string_supplied.
    + apply or_string_fallback.
    + by intros p ->.
    + by intros ->.
    + by destruct (in_channels input).
    + by intros ->.
    + by intros d ->.
    + intros -> ms Hms Hnz. unfold template_expiry. rewrite Hms. simpl.
      apply Z.eqb_neq in Hnz. by rewrite Hnz.
    + intros -> [Hms | Hms]; unfold template_expiry; by rewrite Hms.
Qed.
End Build.

Section Sent.
Context {St : Type} `{Runtime St}.
Import NotificationCenter.
Implicit Types (c : NotificationCenter.t St) (st : St).

Lemma set_status_same (n : Notification) : set_status (status n) n = n.
Proof. by destruct n. Qed.

(** What a built notification is made of, whichever way it was built. *)
Lemma buildNotification_Ok_inv c input st built st0 log0 :
  buildNotification c input st = (Ok built, st0, log0) ->
  id built = "notif_" +:+ pretty (Date_now st) +:+ "_"
             +:+ fst (Math_random_base36 st)
  /\ (channels built = in_channels input
      \/ (in_channels input = []
          /\ exists tname tpl,
               in_template input = Some tname
               /\ templates c !! tname = Some tpl
               /\ channels built = d_channels (defaults tpl))).
Proof.
  unfold buildNotification.
  destruct (truthy_string (in_template input)) eqn:Htruthy.
  - apply truthy_string_true in Htruthy. destruct Htruthy as (tname & Hn & _).
    rewrite Hn. change (default EmptyString (Some tname)) with tname.
    destruct (templates c !! tname) as [tpl |] eqn:Htpl; [| discriminate].
    unfold resolve_text, of_result, bind, gets, ret, generateId.
    destruct (template_text (d_title (defaults tpl)) (in_data input));
      [| discriminate].
    destruct (template_text (d_body (defaults tpl)) (in_data input));
      [| discriminate].
    destruct (Math_random_base36 st) as [suffix st1].
    destruct (in_expiresAt input);
      [| destruct (truthy_number (d_expiresIn (defaults tpl)))];
      intros [= <- <- <-]; (split; [reflexivity |]); simpl;
      (destruct (in_channels input); [right; eauto 6 | by left]).
  - unfold bind, gets, ret, generateId.
    destruct (Math_random_base36 st) as [suffix st1].
    intros [= <- <- <-]. auto.
Qed.

Lemma beforeSend_loop_no_hooks (ms : list (NotificationMiddleware.t St))
    n st :
  List.filter has_beforeSend ms = [] ->
  beforeSend_loop ms n st = (Ok (Some n), st, []).
Proof.
  induction ms as [| m ms IH]; simpl; [reflexivity |].
  unfold has_beforeSend at 1.
  destruct (NotificationMiddleware.beforeSend m); [discriminate | exact IH].
Qed.

(** The [try] block returns the saved object with, at most, a new status. *)
Lemma try_block_Ok c kept st2 n o st3 log3 :
  try_catch (dispatch c kept) (on_dispatch_error c) (kept, st2)
  = (Ok n, (o, st3), log3) ->
  exists s, n = set_status s kept.
Proof.
  unfold try_catch.
  destruct (dispatch c kept (kept, st2)) as [[[a | e] s1] l1] eqn:Hd.
  2:{ unfold on_dispatch_error. destruct s1 as [o1 s1].
      rewrite bind_get_object. unfold bind, throw.
      destruct (lift (applyErrorMiddleware c e o1) (o1, s1))
        as [[[[] | e'] s2] l2]; discriminate. }
  intros [= -> -> ->]. unfold dispatch in Hd. apply bind_inv in Hd.
  destruct Hd as [(e & _ & [=]) | ([] & [o1 s1] & l2 & l3 & Hfirst & Hk & _)].
  assert (exists s, o1 = set_status s kept) as [s ->].
  { destruct (queue c) as [q |].
    - exists (status kept). rewrite set_status_same.
      destruct (scheduledFor kept).
      + rewrite (bind_silent _ _ (kept, st2) (Date_now st2) (kept, st2))
          in Hfirst by reflexivity.
        apply lift_inv in Hfirst. destruct Hfirst as [_ Ho]. simpl in Ho.
        by subst.
      + apply lift_inv in Hfirst. destruct Hfirst as [_ Ho]. simpl in Ho.
        by subst.
    - apply sendNow_Ok_inv in Hfirst.
      destruct Hfirst as (? & ? & ? & ? & ? & _ & _ & _ & Ho & _). eauto. }
  exists s. rewrite bind_get_object in Hk.
  apply bind_inv in Hk.
  destruct Hk as [(e & _ & [=]) | ([] & s2 & l4 & l5 & _ & Hk & _)].
  apply bind_inv in Hk.
  destruct Hk as [(e & _ & [=]) | ([] & s3' & l6 & l7 & _ & Hk & _)].
  apply bind_inv in Hk.
  destruct Hk as [(e & _ & [=]) | (now & s4 & l8 & l9 & _ & Hk & _)].
  apply bind_inv in Hk.
  destruct Hk as [(e & _ & [=]) | ([] & s5 & l10 & l11 & _ & Hk & _)].
  by injection Hk as <- _ _.
Qed.

(** C8 (as the code has it). The notification [send] returns has the id and
    the channels of the notification the [beforeSend] chain kept, which is
    the built one when no hook is registered.  The built channels are the
    caller's list, or the template's list when the caller's is empty and a
    template is used: one or the other, never a merge, and empty when the
    list used is empty.  The id is "notif_", the clock, "_" and the random
    suffix; nothing compares it with earlier ids. *)
Theorem C8_sent_notification_channels_and_id c (input : NotificationInput)
    st (n : Notification) st' (log : list Event) :
  send c input st = (Ok n, st', log) ->
  exists built st0 kept st1 log1,
    buildNotification c input st = (Ok built, st0, [])
    /\ applyBeforeSendMiddleware c built st0 = (Ok (Some kept), st1, log1)
    /\ (List.filter has_beforeSend (middleware c) = [] -> kept = built)
    /\ id n = id kept
    /\ channels n = channels kept
    /\ id built = "notif_" +:+ pretty (Date_now st) +:+ "_"
                  +:+ fst (Math_random_base36 st)
    /\ (channels built = in_channels input
        \/ (in_channels input = []
            /\ exists tname tpl,
                 in_template input = Some tname
                 /\ templates c !! tname = Some tpl
                 /\ channels built = d_channels (defaults tpl)))
    /\ (in_channels input <> [] -> channels built = in_channels input).
Proof.
  intros Hsend.
  destruct (buildNotification c input st) as [[[built | e] st0] log0] eqn:Hb.
  2:{ rewrite (send_build_Throw _ _ _ _ _ _ Hb) in Hsend. discriminate. }
  pose proof (buildNotification_silent _ _ _ _ _ _ Hb) as ->.
  destruct (applyBeforeSendMiddleware c built st0)
    as [[[[kept |] | e] st1] log1] eqn:Hm.
  2:{ rewrite (send_filtered _ _ _ _ _ _ _ _ Hb Hm) in Hsend. discriminate. }
  2:{ rewrite (send_before_Throw _ _ _ _ _ _ _ _ _ Hb Hm) in Hsend.
      discriminate. }
  destruct (StorageAdapter.save (storage c) kept st1) as [[[] | e] st2] eqn:Hs.
  2:{ rewrite (send_save_Throw _ _ _ _ _ _ _ _ _ _ _ Hb Hm Hs) in Hsend.
      discriminate. }
  destruct (try_catch (dispatch c kept) (on_dispatch_error c) (kept, st2))
    as [[r3 [o st3]] log3] eqn:Ht.
  rewrite (send_try _ _ _ _ _ _ _ _ _ _ _ _ _ _ Hb Hm Hs Ht) in Hsend.
  injection Hsend as -> <- <-.
  apply try_block_Ok in Ht. destruct Ht as [s ->].
  destruct (buildNotification_Ok_inv _ _ _ _ _ _ Hb) as [Hid Hch].
  exists built, st0, kept, st1, log1.
  split; [reflexivity |]. split; [exact Hm |]. split.
  { intros Hnone. unfold applyBeforeSendMiddleware in Hm.
    rewrite (beforeSend_loop_no_hooks _ _ _ Hnone) in Hm. congruence. }
  split; [reflexivity |]. split; [reflexivity |].
  split; [exact Hid |]. split; [exact Hch |].
  intros Hne. destruct Hch as [Hch | [Hch _]]; [exact Hch | contradiction].
Qed.
End Sent.

(* --------------------------------------------------------------------- *)
(** ** Runs on the sample host *)
(* --------------------------------------------------------------------- *)

Import NotificationCenter.

Lemma run_eta {A B C : Type} (x : A * B * C) :
  x = (fst (fst x), snd (fst x), snd x).
Proof. by destruct x as [[] ?]. Qed.

(** The two aggregation examples of the specification. *)
Example sendNow_mixed_is_delivered :
  status (fst (snd (fst (sendNow center_mixed
                           (notification_on [inapp; email; push], host0)))))
  = st_delivered.
Proof. vm_compute. reflexivity. Qed.

Example sendNow_throwing_is_failed :
  status (fst (snd (fst (sendNow center_throwing
                           (notification_on [inapp; email], host0)))))
  = st_failed.
Proof. vm_compute. reflexivity. Qed.

Lemma C1_witness :
  channels (notification_on [inapp; email; push]) <> []
  /\ exists n' st' log,
       sendNow center_mixed (notification_on [inapp; email; push], host0)
       = (Ok tt, (n', st'), log)
       /\ status n' = st_delivered
       /\ exists receipts,
            length receipts = 3%nat
            /\ ~ Forall skipped_or_failed receipts
            /\ Exists is_delivered receipts.
Proof.
  assert (channels (notification_on [inapp; email; push]) <> [])
    as Hne by discriminate.
  split; [exact Hne |].
  set (run := sendNow center_mixed
                (notification_on [inapp; email; push], host0)).
  assert (run = (Ok tt, (fst (snd (fst run)), snd (snd (fst run))), snd run))
    as Hrun by (vm_compute; reflexivity).
  exists (fst (snd (fst run))), (snd (snd (fst run))), (snd run).
  split; [exact Hrun |].
  assert (status (fst (snd (fst run))) = st_delivered)
    as Hst by (vm_compute; reflexivity).
  split; [exact Hst |].
  destruct (C1_sendNow_aggregates_receipts _ _ _ _ _ _ Hne Hrun)
    as (prefs & st1 & receipts & st2 & calls & _ & _ & Hper & _ & _ & _
        & Hdel & _).
  exists receipts. split.
  - apply Forall2_length in Hper. simpl in Hper. congruence.
  - apply Hdel. exact Hst.
Defined.

Lemma C2_witness :
  buildNotification center_filtering input0 host0 = (Ok built0, host1, [])
  /\ middleware center_filtering
     = [audit_middleware] ++ rate_limit_middleware :: [stamp_middleware]
  /\ beforeSend_loop [audit_middleware] built0 host1
     = (Ok (Some built0), host1, [CallBeforeSend "audit" built0])
  /\ NotificationMiddleware.beforeSend rate_limit_middleware
     = Some (fun _ h => (Ok None, h))
  /\ send center_filtering input0 host0
     = (Throw filtered_error, host1,
        [CallBeforeSend "audit" built0; CallBeforeSend "rate-limit" built0]).
Proof.
  assert (buildNotification center_filtering input0 host0
          = (Ok built0, host1, [])) as Hb by (vm_compute; reflexivity).
  assert (middleware center_filtering
          = [audit_middleware] ++ rate_limit_middleware :: [stamp_middleware])
    as Hmw by reflexivity.
  assert (beforeSend_loop [audit_middleware] built0 host1
          = (Ok (Some built0), host1, [CallBeforeSend "audit" built0]))
    as Hpre by reflexivity.
  assert (NotificationMiddleware.beforeSend rate_limit_middleware
          = Some (fun _ h => (Ok None, h))) as Hhook by reflexivity.
  destruct (C2_filtered_send_is_a_no_op center_filtering input0 host0
              built0 host1 [] [audit_middleware] [stamp_middleware]
              rate_limit_middleware (fun _ h => (Ok None, h)) built0 host1
              [CallBeforeSend "audit" built0] host1
              Hb Hmw Hpre Hhook eq_refl)
    as (log & Hsend & -> & _).
  repeat split; assumption.
Defined.

(** C3, refuted as stated: [storage.save] throws, [send] throws the error,
    and the [onError] hook that is registered is never called. *)
Lemma C3_save_failure_skips_onError :
  List.filter has_onError (middleware center_full_storage) <> []
  /\ exists log,
       send center_full_storage input0 host0
       = (Throw (mkError "disk full"), host1, log)
       /\ In (StorageSave built0) log
       /\ Forall (fun ev => is_CallOnError ev = false) log.
Proof.
  split; [discriminate |].
  exists [CallBeforeSend "audit" built0; StorageSave built0].
  split; [vm_compute; reflexivity |].
  split; [simpl; auto |]. repeat constructor.
Qed.

Lemma C3_witness :
  send center_down_queue input0 host0
  = (Throw (mkError "queue down"),
     with_mem (MemoryStorageAdapter.save built0) host1,
     [CallBeforeSend "audit" built0; CallBeforeSend "stamp" built0;
      StorageSave built0; QueueEnqueue built0;
      CallOnError "audit" (mkError "queue down") built0;
      CallOnError "stamp" (mkError "queue down") built0]).
Proof.
  destruct (C3_onError_guards_the_try_block center_down_queue input0 host0)
    as [_ Hbuilt].
  destruct (Hbuilt built0 host1 [] ltac:(vm_compute; reflexivity))
    as [_ Hkept].
  destruct (Hkept built0 host1
              [CallBeforeSend "audit" built0; CallBeforeSend "stamp" built0]
              ltac:(vm_compute; reflexivity)) as [_ Htry].
  destruct (Htry (with_mem (MemoryStorageAdapter.save built0) host1)
              (mkError "queue down") built0
              (with_mem (MemoryStorageAdapter.save built0) host1)
              [QueueEnqueue built0] (Ok tt)
              (with_mem (MemoryStorageAdapter.save built0) host1)
              [CallOnError "audit" (mkError "queue down") built0;
               CallOnError "stamp" (mkError "queue down") built0]
              ltac:(vm_compute; reflexivity)
              ltac:(vm_compute; reflexivity)
              ltac:(vm_compute; reflexivity)) as [Hsend _].
  exact Hsend.
Defined.

(** C4, refuted as stated: the caller supplies the empty title, and the
    notification gets the template's title. *)
Lemma C4_empty_title_is_replaced :
  in_title (input_welcome (Some EmptyString)) = Some EmptyString
  /\ exists n st',
       buildNotification center_welcome (input_welcome (Some EmptyString)) host0
       = (Ok n, st', [])
       /\ title n = Some "Welcome Ann".
Proof.
  split; [reflexivity |]. eexists _, _. split; [vm_compute; reflexivity |].
  vm_compute. reflexivity.
Qed.

Lemma C4_witness :
  in_template (input_welcome None) = Some "welcome"
  /\ "welcome" <> EmptyString
  /\ exists n st',
       buildNotification center_welcome (input_welcome None) host0
       = (Ok n, st', [])
       /\ title n = Some "Welcome Ann"
       /\ channels n = [inapp; email]
       /\ expiresAt n = Some (1700000000000 + 86400000).
Proof.
  assert ("welcome" <> EmptyString) as Hne by discriminate.
  split; [reflexivity |]. split; [exact Hne |].
  destruct (C4_template_fills_what_the_input_leaves center_welcome
              (input_welcome None) host0 "welcome" eq_refl Hne)
    as [_ Hfill].
  destruct (Hfill welcome "Welcome Ann" "Thanks for signing up"
              ltac:(vm_compute; reflexivity) ltac:(vm_compute; reflexivity)
              eq_refl)
    as (n & st' & Hb & _ & Htitle & _ & _ & _ & _ & _ & _ & _ & Hch & _
        & Hexp & _).
  exists n, st'. split; [exact Hb |]. split; [apply Htitle; by left |].
  split; [exact (Hch eq_refl) |].
  rewrite (Hexp eq_refl 86400000 eq_refl ltac:(discriminate)).
  assert (buildNotification center_welcome (input_welcome None) host0
          = (Ok n, host1, [])) as Hb'.
  { rewrite Hb. f_equal. f_equal.
    assert (snd (fst (buildNotification center_welcome (input_welcome None)
                        host0)) = host1) as Hst by (vm_compute; reflexivity).
    rewrite Hb in Hst. exact Hst. }
  rewrite Hb in Hb'. injection Hb' as ->. reflexivity.
Defined.

(** C5, refuted as stated: the channel has an allow-list, the notification
    has no category, and [canSend] answers true. *)
Lemma C5_absent_category_passes :
  pref_channels (prefs_for inapp billing_only) !! inapp = Some billing_only
  /\ categories billing_only = Some ["billing"]
  /\ category (sample_notification None) = None
  /\ ConsoleTransportAdapter.canSend inapp (sample_notification None)
       (prefs_for inapp billing_only) host0 = true.
Proof. repeat split; vm_compute; reflexivity. Qed.

Lemma C5_witness :
  pref_channels (prefs_for inapp billing_only) !! inapp = Some billing_only
  /\ categories billing_only = Some ["billing"]
  /\ ConsoleTransportAdapter.canSend inapp (sample_notification (Some "social"))
       (prefs_for inapp billing_only) host0 = false.
Proof.
  assert (pref_channels (prefs_for inapp billing_only) !! inapp
          = Some billing_only) as Hcp by (vm_compute; reflexivity).
  split; [exact Hcp |]. split; [reflexivity |].
  destruct (C5_categories_gate_needs_a_category inapp
              (sample_notification (Some "social"))
              (prefs_for inapp billing_only) billing_only ["billing"] host0
              Hcp eq_refl) as [Hdeny _].
  apply (Hdeny "social" eq_refl); [discriminate |].
  intros [Heq | []]. discriminate.
Defined.

Lemma C6_witness :
  ConsoleTransportAdapter.canSend inapp (sample_notification None)
    (prefs_for inapp (quiet_window "22:00" "06:00")) (at_hour 23) = false
  /\ ConsoleTransportAdapter.canSend inapp (sample_notification None)
       (prefs_for inapp (quiet_window "22:00" "06:00")) (at_hour 2) = false
  /\ ConsoleTransportAdapter.canSend inapp (sample_notification None)
       (prefs_for inapp (quiet_window "22:00" "06:00")) (at_hour 10) = true.
Proof.
  assert (forall h,
            (Date_getHours (at_hour h) = 23 ->
             ConsoleTransportAdapter.canSend inapp (sample_notification None)
               (prefs_for inapp (quiet_window "22:00" "06:00")) (at_hour h)
             = false)
            /\ (Date_getHours (at_hour h) = 2 ->
                ConsoleTransportAdapter.canSend inapp (sample_notification None)
                  (prefs_for inapp (quiet_window "22:00" "06:00")) (at_hour h)
                = false)
            /\ (Date_getHours (at_hour h) = 10 ->
                ConsoleTransportAdapter.canSend inapp (sample_notification None)
                  (prefs_for inapp (quiet_window "22:00" "06:00")) (at_hour h)
                = true)) as Hwindow.
  { intros h.
    destruct (C6_quiet_hours_compare_the_hour inapp (sample_notification None)
                (prefs_for inapp (quiet_window "22:00" "06:00"))
                (quiet_window "22:00" "06:00")
                {| start := "22:00"; end_ := "06:00"; timezone := None |}
                (at_hour h) eq_refl ltac:(vm_compute; reflexivity) eq_refl
                (or_introl eq_refl) eq_refl) as (_ & Hexample & _).
    exact (Hexample eq_refl eq_refl eq_refl eq_refl). }
  split; [exact (proj1 (Hwindow 23) eq_refl) |].
  split; [exact (proj1 (proj2 (Hwindow 2)) eq_refl) |].
  exact (proj2 (proj2 (Hwindow 10)) eq_refl).
Defined.

(** Two delivery passes over the same notification, the first failing,
    leave a failed and then a delivered receipt for the channel; a retry
    from there calls the transport again. *)
Example failed_then_delivered_is_reachable :
  map r_status
      (MemoryStorageAdapter.getReceipts "n1" (mem host_after_two_passes))
  = [ds_failed; ds_delivered]
  /\ sent_channels
       (snd (retryFailed center_flaky "n1" None host_after_two_passes))
     = [email].
Proof. split; vm_compute; reflexivity. Qed.

(** C7, refuted as stated: the latest receipt of the e-mail channel is
    [delivered], and [retryFailed] calls the e-mail transport again. *)
Lemma C7_delivered_channel_is_retried :
  MemoryStorageAdapter.getReceipts "n1" (mem host_retried)
  = [receipt_of "n1" email ds_failed; receipt_of "n1" email ds_delivered]
  /\ exists st' log,
       retryFailed center_email "n1" None host_retried = (Ok tt, st', log)
       /\ sent_channels log = [email].
Proof.
  split; [vm_compute; reflexivity |].
  eexists _, _. split; [vm_compute; reflexivity |]. reflexivity.
Qed.

Lemma C7_witness :
  StorageAdapter.findById (storage center_email) "n1" host_retried
  = (Ok (Some (notification_on [email])), host_retried)
  /\ exists r st' log,
       retryFailed center_email "n1" (Some email) host_retried = (r, st', log)
       /\ forall ch n' p, In (TransportSend ch n' p) log ->
                          n' = notification_on [email] /\ ch = email.
Proof.
  assert (StorageAdapter.findById (storage center_email) "n1" host_retried
          = (Ok (Some (notification_on [email])), host_retried))
    as Hfind by (vm_compute; reflexivity).
  split; [exact Hfind |].
  set (run := retryFailed center_email "n1" (Some email) host_retried).
  exists (fst (fst run)), (snd (fst run)), (snd run).
  split; [apply run_eta |].
  destruct (C7_retryFailed_resends_each_failed_receipt center_email "n1"
              (Some email) host_retried) as [_ Hretry].
  destruct (Hretry (notification_on [email]) host_retried
              [receipt_of "n1" email ds_failed;
               receipt_of "n1" email ds_delivered]
              host_retried [StorageGetReceipts "n1"]
              (fst (fst run)) (snd (fst run)) (snd run)
              Hfind ltac:(vm_compute; reflexivity)
              (run_eta run)) as [Honly _].
  intros ch n' p Hin. destruct (Honly ch n' p Hin) as (-> & Hch & _).
  split; [reflexivity |]. destruct Hch as [Hch | Hch]; congruence.
Defined.

(** C8, refuted as stated: [send] resolves with an empty [channels] list. *)
Lemma C8_empty_channels_are_sent :
  exists n st' log,
    send center0 input_without_channels host0 = (Ok n, st', log)
    /\ channels n = [].
Proof. eexists _, _, _. split; [vm_compute; reflexivity | reflexivity]. Qed.

Lemma C8_witness :
  exists n st' log,
    send center0 input0 host0 = (Ok n, st', log)
    /\ id n = "notif_1700000000000_k3x9q2m1z"
    /\ channels n = [inapp; push].
Proof.
  set (run := send center0 input0 host0).
  assert (run = (Ok (set_status st_delivered built0), snd (fst run), snd run))
    as Hrun by (vm_compute; reflexivity).
  exists (set_status st_delivered built0), (snd (fst run)), (snd run).
  split; [exact Hrun |].
  destruct (C8_sent_notification_channels_and_id center0 input0 host0 _ _ _
              Hrun)
    as (built & st0 & kept & st1 & log1 & Hb & Hm & Hsame & Hid & Hch & Hbid
        & _ & Hlist).
  rewrite Hid, Hch, (Hsame eq_refl), Hbid, (Hlist ltac:(discriminate)).
  split; vm_compute; reflexivity.
Defined.

Lemma C9_witness :
  exists r st' log,
    send center0 input0 host0 = (r, st', log)
    /\ forall pre ev post,
         log = pre ++ ev :: post -> is_delivery_call ev = true ->
         exists n, delivered_notification ev = Some n
                   /\ In (StorageSave n) pre.
Proof.
  set (run := send center0 input0 host0).
  exists (fst (fst run)), (snd (fst run)), (snd run).
  assert (run = (fst (fst run), snd (fst run), snd run))
    as Hrun by apply run_eta.
  split; [exact Hrun |].
  exact (proj1 (C9_save_precedes_delivery center0 input0 host0 _ _ _ Hrun)).
Defined.

Lemma C10_witness :
  StorageAdapter.findById (storage center_listening) "n1" host_unread
  = (Ok (Some (notification_on [inapp])), host_unread)
  /\ exists st',
       delete center_listening "n1" host_unread
       = (Ok tt, st',
          [StorageFindById "n1"; StorageDelete "n1"; StorageCountUnread "u1";
           PublishUnread "u1" 0 0]).
Proof.
  assert (StorageAdapter.findById (storage center_listening) "n1" host_unread
          = (Ok (Some (notification_on [inapp])), host_unread))
    as Hfind by (vm_compute; reflexivity).
  split; [exact Hfind |].
  set (run := delete center_listening "n1" host_unread).
  assert (run = (Ok tt, snd (fst run), snd run))
    as Hrun by (vm_compute; reflexivity).
  exists (snd (fst run)).
  destruct (C10_delete_unread_callbacks center_listening "n1" host_unread
              host_unread (Some (notification_on [inapp])) (Ok tt)
              (snd (fst run)) (snd run) Hfind Hrun) as (_ & _ & Hpub).
  destruct (Hpub (notification_on [inapp])
              (with_mem (MemoryStorageAdapter.delete "n1") host_unread)
              0 (with_mem (MemoryStorageAdapter.delete "n1") host_unread)
              eq_refl ltac:(discriminate) ltac:(vm_compute; reflexivity)
              ltac:(vm_compute; reflexivity))
    as (published & Hlog & _ & Hexact).
  rewrite (Hexact eq_refl) in Hlog.
  etransitivity; [exact Hrun |]. rewrite Hlog. reflexivity.
Defined.

(* ===================================================================== *)
(** * Further properties of the adapters and of the center *)
(* ===================================================================== *)

(* --------------------------------------------------------------------- *)
(** ** The memory queue *)
(* --------------------------------------------------------------------- *)

Section MemoryQueue.
Import MemoryQueueAdapter.

Lemma queue_eta (q : MemoryQueueAdapter.t) :
  {| queue := queue q; delayedQueue := delayedQueue q;
     isRunning := isRunning q; checkInterval := checkInterval q;
     intervals := intervals q |} = q.
Proof. by destruct q. Qed.

(** X1. [dequeueBatch(count)] cuts the queue in two: what it returns followed
    by what it leaves is the queue as it was, it returns [count] entries or
    the whole queue when shorter, a count of zero or less takes nothing, and
    the delayed entries are not touched. *)
Theorem X1_dequeueBatch_cuts_the_queue (count : Z) (q : MemoryQueueAdapter.t) :
  fst (dequeueBatch count q) ++ queue (snd (dequeueBatch count q)) = queue q
  /\ length (fst (dequeueBatch count q))
     = Nat.min (Z.to_nat count) (length (queue q))
  /\ delayedQueue (snd (dequeueBatch count q)) = delayedQueue q
  /\ (count <= 0 -> dequeueBatch count q = ([], q)).
Proof.
  unfold dequeueBatch. simpl. split; [apply firstn_skipn |].
  split; [apply length_firstn |]. split; [reflexivity |].
  intros Hle. assert (Z.to_nat count = 0%nat) as -> by lia.
  by destruct q.
Qed.

Lemma enqueue_one_by_one (ns : list Notification) (q : MemoryQueueAdapter.t) :
  fold_left (fun acc n => enqueue n acc) ns q = enqueueBatch ns q.
Proof.
  revert q. induction ns as [| n ns IH]; intros q; simpl.
  - unfold enqueueBatch. rewrite app_nil_r. by rewrite queue_eta.
  - rewrite IH. unfold enqueueBatch, enqueue. simpl.
    by rewrite <- app_assoc.
Qed.

Lemma dequeue_times_all (q : MemoryQueueAdapter.t) :
  dequeue_times (length (queue q)) q
  = (map Some (queue q),
     {| queue := []; delayedQueue := delayedQueue q;
        isRunning := isRunning q; checkInterval := checkInterval q;
        intervals := intervals q |}).
Proof.
  destruct q as [items delayed running handle timers]. simpl.
  induction items as [| n items IH]; simpl; [reflexivity |].
  unfold dequeue. simpl. by rewrite IH.
Qed.

(** X2. First in, first out: [enqueueBatch] is [enqueue] one by one, and
    after it as many [dequeue] as the queue is long return what was there
    and then the new notifications, in the order of arrival, and leave the
    queue empty; one more [dequeue] returns null and changes nothing. *)
Theorem X2_first_in_first_out (ns : list Notification)
    (q : MemoryQueueAdapter.t) :
  fold_left (fun acc n => enqueue n acc) ns q = enqueueBatch ns q
  /\ fst (dequeue_times (length (queue q) + length ns) (enqueueBatch ns q))
     = map Some (queue q ++ ns)
  /\ queue (snd (dequeue_times (length (queue q) + length ns)
                   (enqueueBatch ns q))) = []
  /\ dequeue (snd (dequeue_times (length (queue q) + length ns)
                     (enqueueBatch ns q)))
     = (None, snd (dequeue_times (length (queue q) + length ns)
                     (enqueueBatch ns q))).
Proof.
  split; [apply enqueue_one_by_one |].
  assert (length (queue q) + length ns
          = length (queue (enqueueBatch ns q)))%nat as ->
    by (simpl; by rewrite length_app).
  rewrite dequeue_times_all. simpl. auto.
Qed.



End MemoryQueue.

(* --------------------------------------------------------------------- *)
(** ** The memory storage *)
(* --------------------------------------------------------------------- *)

Section MemoryStorage.
Import MemoryStorageAdapter MemoryStorageQueries.
Implicit Types (m : MemoryStorageAdapter.t) (ns : gmap string Notification).

Lemma filter_length_Permutation {A} (p : A -> bool) (l l' : list A) :
  l ≡ₚ l' -> length (List.filter p l) = length (List.filter p l').
Proof.
  induction 1 as [| x l l' _ IH | x y l | l1 l2 l3 _ IH1 _ IH2]; simpl.
  - reflexivity.
  - destruct (p x); simpl; by rewrite IH.
  - destruct (p x), (p y); reflexivity.
  - by rewrite IH1.
Qed.

Lemma count_stored_insert_fresh p ns k v :
  ns !! k = None ->
  count_stored p (<[k := v]> ns)
  = ((if p v then 1 else 0) + count_stored p ns)%nat.
Proof.
  intros Hfresh. unfold count_stored.
  rewrite (filter_length_Permutation p _ (map snd ((k, v) :: map_to_list ns))).
  - simpl. by destruct (p v).
  - apply Permutation_map. fold (@fmap list _). by apply map_to_list_insert.
Qed.

Lemma count_stored_delete p ns k v :
  ns !! k = Some v ->
  count_stored p ns
  = ((if p v then 1 else 0) + count_stored p (base.delete k ns))%nat.
Proof.
  intros Hk. rewrite <- (count_stored_insert_fresh p _ k v)
    by apply lookup_delete_eq.
  by rewrite insert_delete_id.
Qed.

Lemma count_stored_insert p ns k old v :
  ns !! k = Some old ->
  (count_stored p (<[k := v]> ns) + (if p old then 1 else 0))%nat
  = (count_stored p ns + (if p v then 1 else 0))%nat.
Proof.
  intros Hk. rewrite <- (insert_delete_eq ns).
  rewrite count_stored_insert_fresh by apply lookup_delete_eq.
  rewrite (count_stored_delete p ns k old Hk). lia.
Qed.

Lemma filter_map_length {A B} (p : B -> bool) (f : A -> B) (l : list A) :
  length (List.filter p (map f l))
  = length (List.filter (fun x => p (f x)) l).
Proof.
  induction l as [| x l IH]; simpl; [reflexivity |].
  destruct (p (f x)); simpl; by rewrite IH.
Qed.

Lemma count_stored_fmap p (f : Notification -> Notification) ns :
  count_stored p (f <$> ns) = count_stored (fun n => p (f n)) ns.
Proof.
  unfold count_stored. rewrite map_to_list_fmap.
  assert (forall l : list (string * Notification),
            map snd (prod_map Datatypes.id f <$> l) = map f (map snd l))
    as -> by (induction l as [| [k n] l IH]; simpl; [| rewrite <- IH]; done).
  apply filter_map_length.
Qed.

Lemma count_stored_ext p p' ns :
  (forall k n, ns !! k = Some n -> p n = p' n) ->
  count_stored p ns = count_stored p' ns.
Proof.
  intros Hext. unfold count_stored.
  assert (forall kn, kn ∈ map_to_list ns -> p kn.2 = p' kn.2) as Hall.
  { intros [k n] Hin. apply elem_of_map_to_list in Hin. eauto. }
  induction (map_to_list ns) as [| kn l IH]; simpl; [reflexivity |].
  rewrite (Hall kn) by left.
  destruct (p' kn.2); simpl; rewrite IH; auto; intros; apply Hall; by right.
Qed.

Lemma countUnread_count uid m :
  countUnread uid m
  = Z.of_nat (count_stored (is_unread_of uid) (notifications m)).
Proof. reflexivity. Qed.

Lemma in_values m n :
  In n (values m) <-> exists k, notifications m !! k = Some n.
Proof.
  unfold values. rewrite in_map_iff. split.
  - intros ([k n'] & <- & Hin). exists k.
    apply elem_of_map_to_list. by apply list_elem_of_In.
  - intros (k & Hk). exists (k, n). split; [reflexivity |].
    apply list_elem_of_In. by apply elem_of_map_to_list.
Qed.

(** What a loop of [set(n.id, f n)] over stored values leaves. *)
Lemma fold_set_lookup (f : Notification -> Notification)
    (l : list Notification) ns0 m k :
  (forall n, In n l -> ns0 !! id n = Some n) ->
  notifications
    (fold_left (fun acc n =>
                  with_notifications (fun ns => <[id n := f n]> ns) acc) l m)
  !! k
  = if bool_decide (k ∈ map id l) then f <$> ns0 !! k
    else notifications m !! k.
Proof.
  revert m. induction l as [| n l IH]; intros m Hl; cbn [fold_left].
  - reflexivity.
  - rewrite IH by (intros; apply Hl; by right).
    destruct (bool_decide (k ∈ map id l)) eqn:Hin.
    + apply bool_decide_eq_true in Hin.
      rewrite bool_decide_eq_true_2 by (by right). reflexivity.
    + apply bool_decide_eq_false in Hin. simpl.
      destruct (decide (id n = k)) as [<- | Hne].
      * rewrite bool_decide_eq_true_2 by left.
        rewrite lookup_insert_eq, Hl by (by left). reflexivity.
      * rewrite lookup_insert_ne by done.
        rewrite bool_decide_eq_false_2; [reflexivity |].
        intros Hk. apply elem_of_cons in Hk. destruct Hk; congruence.
Qed.

(** What a loop of [delete(n.id)] leaves. *)
Lemma fold_delete_lookup (l : list Notification) m k :
  notifications
    (fold_left (fun acc n =>
                  with_notifications (fun ns => base.delete (id n) ns) acc) l m)
  !! k
  = if bool_decide (k ∈ map id l) then None else notifications m !! k.
Proof.
  revert m. induction l as [| n l IH]; intros m; cbn [fold_left].
  - reflexivity.
  - rewrite IH.
    destruct (bool_decide (k ∈ map id l)) eqn:Hin.
    + apply bool_decide_eq_true in Hin.
      rewrite bool_decide_eq_true_2 by (by right). reflexivity.
    + apply bool_decide_eq_false in Hin. simpl.
      destruct (decide (id n = k)) as [<- | Hne].
      * rewrite bool_decide_eq_true_2 by left. apply lookup_delete_eq.
      * rewrite lookup_delete_ne by done.
        rewrite bool_decide_eq_false_2; [reflexivity |].
        intros Hk. apply elem_of_cons in Hk. destruct Hk; congruence.
Qed.

Lemma fold_keeps_other_maps (step : Notification ->
                                     gmap string Notification ->
                                     gmap string Notification)
    (l : list Notification) m :
  preferences (fold_left (fun acc n => with_notifications (step n) acc) l m)
  = preferences m
  /\ receipts (fold_left (fun acc n => with_notifications (step n) acc) l m)
     = receipts m.
Proof.
  revert m. induction l as [| n l IH]; intros m; simpl; [auto |].
  destruct (IH (with_notifications (step n) m)) as [-> ->]. auto.
Qed.

(** The ids of the stored values that satisfy [p], under the key rule. *)
Lemma id_in_filtered_values (p : Notification -> bool) m k :
  well_keyed m ->
  k ∈ map id (List.filter p (values m))
  <-> exists n, notifications m !! k = Some n /\ p n = true.
Proof.
  intros Hkeys. rewrite list_elem_of_In, in_map_iff. split.
  - intros (n & <- & Hin). apply filter_In in Hin. destruct Hin as [Hin Hp].
    apply in_values in Hin. destruct Hin as (k' & Hk').
    exists n. split; [| exact Hp]. by rewrite (Hkeys _ _ Hk').
  - intros (n & Hk & Hp). exists n. split; [by apply Hkeys |].
    apply filter_In. split; [apply in_values; eauto | exact Hp].
Qed.

Lemma markAllAsRead_lookup uid now m k :
  well_keyed m ->
  notifications (markAllAsRead uid now m) !! k
  = (fun n => if is_unread_of uid n then mark_read now n else n)
      <$> notifications m !! k.
Proof.
  intros Hkeys. unfold markAllAsRead.
  rewrite (fold_set_lookup (mark_read now) _ (notifications m)).
  2:{ intros n Hin. apply filter_In in Hin. destruct Hin as [Hin _].
      apply in_values in Hin. destruct Hin as (k' & Hk').
      by rewrite (Hkeys _ _ Hk'). }
  destruct (bool_decide (k ∈ _)) eqn:Hin.
  - apply bool_decide_eq_true, id_in_filtered_values in Hin; [| exact Hkeys].
    destruct Hin as (n & -> & Hp). simpl. by rewrite Hp.
  - apply bool_decide_eq_false in Hin.
    destruct (notifications m !! k) as [n |] eqn:Hk; [| reflexivity].
    simpl. destruct (is_unread_of uid n) eqn:Hp; [| reflexivity].
    exfalso. apply Hin. apply id_in_filtered_values; eauto.
Qed.

Lemma well_keyed_save m n : well_keyed m -> well_keyed (save n m).
Proof.
  intros Hm k n'. unfold save. simpl.
  destruct (decide (id n = k)) as [<- | Hne].
  - rewrite lookup_insert_eq. by intros [= <-].
  - rewrite lookup_insert_ne by done. apply Hm.
Qed.

Lemma well_keyed_saveBatch l m : well_keyed m -> well_keyed (saveBatch l m).
Proof.
  unfold saveBatch. revert m.
  induction l as [| n l IH]; intros m Hkeys; simpl; [done |].
  by apply IH, well_keyed_save.
Qed.

Lemma well_keyed_empty : well_keyed MemoryStorageAdapter.empty.
Proof.
  intros k n Hk. unfold empty in Hk. simpl in Hk.
  by rewrite lookup_empty in Hk.
Qed.

Lemma well_keyed_sample_store : well_keyed sample_store.
Proof. apply well_keyed_saveBatch, well_keyed_empty. Qed.

(** X5. Once every key is the id of the notification it holds, every
    operation of the adapter keeps it so. *)
Theorem X5_keys_stay_the_ids (m : MemoryStorageAdapter.t) :
  well_keyed m ->
  (forall n, well_keyed (save n m))
  /\ (forall l, well_keyed (saveBatch l m))
  /\ (forall nid now, well_keyed (markAsRead nid now m))
  /\ (forall uid now, well_keyed (markAllAsRead uid now m))
  /\ (forall nid, well_keyed (delete nid m))
  /\ (forall now, well_keyed (snd (deleteExpired now m)))
  /\ (forall r, well_keyed (saveReceipt r m))
  /\ (forall uid prefs, well_keyed (savePreferences uid prefs m)).
Proof.
  intros Hkeys.
  split; [intros n; by apply well_keyed_save |]. split.
  { intros l. by apply well_keyed_saveBatch. }
  split.
  { intros nid now k n. unfold markAsRead.
    destruct (notifications m !! nid) as [old |] eqn:Hold; [| apply Hkeys].
    simpl. destruct (decide (nid = k)) as [<- | Hne].
    - rewrite lookup_insert_eq. intros [= <-]. simpl. by apply Hkeys.
    - rewrite lookup_insert_ne by done. apply Hkeys. }
  split.
  { intros uid now k n. rewrite markAllAsRead_lookup by done.
    destruct (notifications m !! k) as [old |] eqn:Hold; [| discriminate].
    simpl. intros [= <-]. apply Hkeys in Hold.
    by destruct (is_unread_of uid old). }
  split.
  { intros nid k n. unfold delete. simpl.
    intros Hk. apply lookup_delete_Some in Hk. apply Hkeys, Hk. }
  split.
  { intros now k n. unfold deleteExpired. simpl.
    rewrite fold_delete_lookup. destruct (bool_decide _); [discriminate |].
    apply Hkeys. }
  split; intros; exact Hkeys.
Qed.

Lemma markAllAsRead_map uid now m :
  well_keyed m ->
  notifications (markAllAsRead uid now m)
  = (fun n => if is_unread_of uid n then mark_read now n else n)
      <$> notifications m.
Proof.
  intros Hkeys. apply map_eq. intros k.
  rewrite lookup_fmap. by apply markAllAsRead_lookup.
Qed.

Lemma count_stored_none p ns :
  (forall k n, ns !! k = Some n -> p n = false) -> count_stored p ns = 0%nat.
Proof.
  intros Hnone. rewrite (count_stored_ext _ (fun _ => false)) by done.
  unfold count_stored. by induction (map snd (map_to_list ns)).
Qed.

Lemma countUnread_markAllAsRead uid now m :
  well_keyed m -> countUnread uid (markAllAsRead uid now m) = 0.
Proof.
  intros Hkeys. rewrite countUnread_count.
  rewrite (markAllAsRead_map uid now m Hkeys), count_stored_fmap.
  rewrite count_stored_none; [done |].
  intros k n _. unfold is_unread_of.
  destruct (bool_decide (userId n = uid)) eqn:Hu,
           (bool_decide (status n <> st_read)) eqn:Hs; simpl;
    rewrite ?Hu, ?Hs; simpl; reflexivity.
Qed.

(** X6. After [markAllAsRead(userId)] the user has nothing unread, every
    notification of the user that was unread is [read] with [readAt] the
    clock of the call, the ones already read keep their [readAt], and the
    notifications and unread counts of other users are as before. *)
Theorem X6_markAllAsRead_clears_one_user (uid : string) (now : Z)
    (m : MemoryStorageAdapter.t) :
  well_keyed m ->
  countUnread uid (markAllAsRead uid now m) = 0
  /\ (forall other, other <> uid ->
        countUnread other (markAllAsRead uid now m) = countUnread other m)
  /\ (forall k n, notifications m !! k = Some n ->
        notifications (markAllAsRead uid now m) !! k
        = Some (if bool_decide (userId n = uid /\ status n <> st_read)
                then mark_read now n else n))
  /\ (forall k, notifications m !! k = None ->
        notifications (markAllAsRead uid now m) !! k = None)
  /\ receipts (markAllAsRead uid now m) = receipts m
  /\ preferences (markAllAsRead uid now m) = preferences m.
Proof.
  intros Hkeys. rewrite !countUnread_count.
  rewrite (markAllAsRead_map uid now m Hkeys). split.
  { rewrite count_stored_fmap.
    rewrite (count_stored_ext _ (fun _ => false)).
    - unfold count_stored.
      by induction (map snd (map_to_list (notifications m))).
    - intros k n _. unfold is_unread_of.
      destruct (bool_decide (userId n = uid)) eqn:Hu,
               (bool_decide (status n <> st_read)) eqn:Hs; simpl;
        rewrite ?Hu, ?Hs; simpl; reflexivity. }
  split.
  { intros other Hother. rewrite !countUnread_count.
    rewrite (markAllAsRead_map uid now m Hkeys), count_stored_fmap.
    f_equal. apply count_stored_ext. intros k n _. unfold is_unread_of.
    destruct (bool_decide (userId n = uid)) eqn:Hu; simpl; [| reflexivity].
    apply bool_decide_eq_true in Hu.
    assert (bool_decide (userId n = other) = false) as Hf
      by (apply bool_decide_eq_false_2; congruence).
    destruct (bool_decide (status n <> st_read)); simpl; by rewrite Hf. }
  split.
  { intros k n Hk. rewrite <- (markAllAsRead_map uid now m Hkeys).
    rewrite markAllAsRead_lookup, Hk by done. simpl. f_equal.
    unfold is_unread_of.
    destruct (bool_decide (userId n = uid)) eqn:Hu,
             (bool_decide (status n <> st_read)) eqn:Hs; simpl.
    - apply bool_decide_eq_true in Hu, Hs.
      by rewrite bool_decide_eq_true_2.
    - apply bool_decide_eq_false in Hs.
      rewrite bool_decide_eq_false_2; [reflexivity | by intros [_ ?]].
    - apply bool_decide_eq_false in Hu.
      rewrite bool_decide_eq_false_2; [reflexivity | by intros [? _]].
    - apply bool_decide_eq_false in Hu.
      rewrite bool_decide_eq_false_2; [reflexivity | by intros [? _]]. }
  split.
  { intros k Hk. rewrite <- (markAllAsRead_map uid now m Hkeys).
    by rewrite markAllAsRead_lookup, Hk. }
  destruct (fold_keeps_other_maps
              (fun n ns => <[id n := mark_read now n]> ns)
              (List.filter (is_unread_of uid) (values m)) m) as [Hp Hr].
  split; [exact Hr | exact Hp].
Qed.

Lemma mark_read_again (t1 t2 : Z) (n : Notification) :
  mark_read t2 (mark_read t1 n) = mark_read t2 n.
Proof. reflexivity. Qed.

Lemma markAsRead_found nid now m n :
  notifications m !! nid = Some n ->
  markAsRead nid now m
  = with_notifications (fun ns => <[nid := mark_read now n]> ns) m.
Proof. intros Hn. unfold markAsRead. by rewrite Hn. Qed.

Lemma countUnread_markAsRead nid now m n :
  notifications m !! nid = Some n ->
  countUnread (userId n) (markAsRead nid now m)
  = countUnread (userId n) m
    - (if bool_decide (status n = st_read) then 0 else 1).
Proof.
  intros Hn. rewrite (markAsRead_found _ _ _ _ Hn), !countUnread_count. simpl.
  pose proof (count_stored_insert (is_unread_of (userId n))
                (notifications m) nid n (mark_read now n) Hn) as Hcount.
  unfold is_unread_of in Hcount at 2 4. simpl in Hcount.
  rewrite bool_decide_eq_true_2 in Hcount by reflexivity.
  simpl in Hcount.
  destruct (bool_decide (status n = st_read)) eqn:Hs.
  - apply bool_decide_eq_true in Hs.
    rewrite (bool_decide_eq_false_2 (status n <> st_read)) in Hcount
      by (intros Hne; contradiction).
    lia.
  - apply bool_decide_eq_false in Hs.
    rewrite (bool_decide_eq_true_2 (status n <> st_read)) in Hcount
      by done.
    lia.
Qed.

(** X7. [markAsRead(id)] does nothing for an unknown id; for a stored one it
    sets [read] and [readAt] to the clock of the call and touches no other
    notification; a second call leaves what one call at the later clock
    leaves ([readAt] is refreshed); the owner's unread count drops by one
    when the notification was not yet read and stays otherwise, and the
    counts of other users stay. *)
Theorem X7_markAsRead_marks_one (nid : string) (now : Z)
    (m : MemoryStorageAdapter.t) :
  (notifications m !! nid = None -> markAsRead nid now m = m)
  /\ (forall n, notifications m !! nid = Some n ->
        notifications (markAsRead nid now m) !! nid = Some (mark_read now n)
        /\ (forall k, k <> nid ->
              notifications (markAsRead nid now m) !! k
              = notifications m !! k)
        /\ (forall later,
              markAsRead nid later (markAsRead nid now m)
              = markAsRead nid later m)
        /\ countUnread (userId n) (markAsRead nid now m)
           = countUnread (userId n) m
             - (if bool_decide (status n = st_read) then 0 else 1)
        /\ (forall other, other <> userId n ->
              countUnread other (markAsRead nid now m)
              = countUnread other m)).
Proof.
  split.
  { intros Hnone. unfold markAsRead. by rewrite Hnone. }
  intros n Hn.
  assert (forall t,
            markAsRead nid t m
            = with_notifications (fun ns => <[nid := mark_read t n]> ns) m)
    as Hdef by (intros t; unfold markAsRead; by rewrite Hn).
  rewrite !Hdef.
  split; [apply lookup_insert_eq |].
  split; [intros k Hk; by apply lookup_insert_ne |].
  split.
  { intros later. unfold markAsRead. simpl.
    rewrite lookup_insert_eq. unfold with_notifications. simpl.
    rewrite insert_insert_eq, Hn. reflexivity. }
  rewrite !countUnread_count. simpl.
  pose proof (count_stored_insert (is_unread_of (userId n))
                (notifications m) nid n (mark_read now n) Hn) as Hcount.
  split.
  { unfold is_unread_of in Hcount at 2 4. simpl in Hcount.
    rewrite bool_decide_eq_true_2 in Hcount by reflexivity.
    simpl in Hcount.
    destruct (bool_decide (status n = st_read)) eqn:Hs.
    - apply bool_decide_eq_true in Hs.
      rewrite (bool_decide_eq_false_2 (status n <> st_read)) in Hcount
        by (intros Hne; contradiction).
      lia.
    - apply bool_decide_eq_false in Hs.
      rewrite (bool_decide_eq_true_2 (status n <> st_read)) in Hcount
        by done.
      lia. }
  intros other Hother.
  pose proof (count_stored_insert (is_unread_of other)
                (notifications m) nid n (mark_read now n) Hn) as Hc.
  unfold is_unread_of in Hc at 2 4. simpl in Hc.
  rewrite (bool_decide_eq_false_2 (userId n = other)) in Hc by congruence.
  simpl in Hc. rewrite !countUnread_count. simpl. lia.
Qed.

Lemma count_stored_empty p : count_stored p ∅ = 0%nat.
Proof. unfold count_stored. by rewrite map_to_list_empty. Qed.

(** Counting in a map that keeps the entries satisfying [q]. *)
Lemma count_stored_kept (q p : Notification -> bool)
    (before after : gmap string Notification) :
  (forall k, after !! k
             = match before !! k with
               | Some n => if q n then Some n else None
               | None => None
               end) ->
  count_stored p after = count_stored (fun n => q n && p n) before.
Proof.
  revert after. induction before as [| i x before Hfresh IH] using map_ind;
    intros after Hafter.
  - assert (after = ∅) as ->.
    { apply map_eq. intros k. rewrite Hafter, !lookup_empty. reflexivity. }
    by rewrite !count_stored_empty.
  - rewrite count_stored_insert_fresh by done.
    assert (count_stored p (base.delete i after)
            = count_stored (fun n => q n && p n) before) as Hrest.
    { apply IH. intros k. destruct (decide (i = k)) as [<- | Hne].
      - by rewrite lookup_delete_eq, Hfresh.
      - rewrite lookup_delete_ne by done.
        rewrite Hafter, lookup_insert_ne by done. reflexivity. }
    pose proof (Hafter i) as Hi. rewrite lookup_insert_eq in Hi.
    destruct (q x); simpl.
    + rewrite (count_stored_delete p after i x Hi), Hrest. reflexivity.
    + rewrite <- Hrest. by rewrite delete_id.
Qed.

Lemma count_stored_all ns : count_stored (fun _ => true) ns = size ns.
Proof.
  unfold count_stored. rewrite <- length_map_to_list, <- (length_map snd).
  by induction (map snd (map_to_list ns)) as [| n l IH]; simpl; [| rewrite IH].
Qed.

Lemma count_stored_split p ns :
  (count_stored p ns + count_stored (fun n => negb (p n) && true) ns)%nat
  = size ns.
Proof.
  rewrite <- count_stored_all. unfold count_stored.
  induction (map snd (map_to_list ns)) as [| n l IH]; simpl; [reflexivity |].
  destruct (p n); simpl; lia.
Qed.

(** X8. [deleteExpired] removes the notifications whose [expiresAt] is
    before the clock of the call and no other (one expiring exactly at that
    time, or without [expiresAt], stays), returns how many it removed, and,
    unlike [delete], leaves the receipts of what it removed. *)
Theorem X8_deleteExpired_removes_the_expired (now : Z)
    (m : MemoryStorageAdapter.t) :
  well_keyed m ->
  (forall k n, notifications m !! k = Some n ->
     notifications (snd (deleteExpired now m)) !! k
     = match expiresAt n with
       | Some t => if Z.ltb t now then None else Some n
       | None => Some n
       end)
  /\ (forall k, notifications m !! k = None ->
        notifications (snd (deleteExpired now m)) !! k = None)
  /\ fst (deleteExpired now m)
     = Z.of_nat (size (notifications m))
       - Z.of_nat (size (notifications (snd (deleteExpired now m))))
  /\ receipts (snd (deleteExpired now m)) = receipts m
  /\ preferences (snd (deleteExpired now m)) = preferences m.
Proof.
  intros Hkeys.
  assert (forall k,
            notifications (snd (deleteExpired now m)) !! k
            = match notifications m !! k with
              | Some n => if negb (is_expired now n) then Some n else None
              | None => None
              end) as Hlookup.
  { intros k. unfold deleteExpired. simpl. rewrite fold_delete_lookup.
    case_bool_decide as Hin.
    - apply id_in_filtered_values in Hin; [| exact Hkeys].
      destruct Hin as (n & -> & ->). reflexivity.
    - destruct (notifications m !! k) as [n |] eqn:Hk; [| reflexivity].
      destruct (is_expired now n) eqn:Hexp; [| reflexivity].
      exfalso. apply Hin. apply id_in_filtered_values; eauto. }
  split.
  { intros k n Hk. rewrite Hlookup, Hk. unfold is_expired.
    destruct (expiresAt n) as [t |]; [| reflexivity].
    by destruct (Z.ltb t now). }
  split; [intros k Hk; by rewrite Hlookup, Hk |].
  split.
  { pose proof (count_stored_kept (fun n => negb (is_expired now n))
                  (fun _ => true) (notifications m) _ Hlookup) as Hkept.
    rewrite count_stored_all in Hkept.
    pose proof (count_stored_split (is_expired now) (notifications m)).
    change (fst (deleteExpired now m))
      with (Z.of_nat (count_stored (is_expired now) (notifications m))).
    lia. }
  unfold deleteExpired. simpl.
  destruct (fold_keeps_other_maps (fun n ns => base.delete (id n) ns)
              (List.filter (is_expired now) (values m)) m) as [Hp Hr].
  split; [exact Hr | exact Hp].
Qed.

(** X9. A receipt history only grows: [saveReceipt] appends to the history
    of its notification and leaves the others, saving the notification again
    keeps its history, and only [delete(id)] erases one, that of [id]. *)
Theorem X9_receipts_are_append_only (r : DeliveryReceipt)
    (m : MemoryStorageAdapter.t) :
  getReceipts (notificationId r) (saveReceipt r m)
  = getReceipts (notificationId r) m ++ [r]
  /\ (forall nid, nid <> notificationId r ->
        getReceipts nid (saveReceipt r m) = getReceipts nid m)
  /\ (forall n nid, getReceipts nid (save n m) = getReceipts nid m)
  /\ (forall nid now, getReceipts nid (markAsRead nid now m)
                      = getReceipts nid m)
  /\ (forall nid, getReceipts nid (delete nid m) = [])
  /\ (forall nid other, other <> nid ->
        getReceipts other (delete nid m) = getReceipts other m)
  /\ (forall nid, findById nid (saveReceipt r m) = findById nid m).
Proof.
  unfold getReceipts, saveReceipt, save, delete, findById. simpl.
  split; [by rewrite lookup_insert_eq |].
  split; [intros nid Hne; by rewrite lookup_insert_ne |].
  split; [reflexivity |].
  split.
  { intros nid now. unfold markAsRead.
    by destruct (notifications m !! nid). }
  split; [intros nid; by rewrite lookup_delete_eq |].
  split; [intros nid other Hne; by rewrite lookup_delete_ne | reflexivity].
Qed.
End MemoryStorage.

(* ===================================================================== *)
(** ** [MemoryStorageAdapter.findByUser] *)
(* ===================================================================== *)

Section FindByUser.
Import MemoryStorageAdapter MemoryStorageQueries.

Lemma sort_insert_Permutation {A} (cmp : A -> A -> Z) (x : A) (l : list A) :
  Permutation (sort_insert cmp x l) (x :: l).
Proof.
  induction l as [| y l IH]; simpl; [done |].
  destruct (Z.leb (cmp x y) 0); [done |].
  rewrite IH. apply perm_swap.
Qed.

Lemma Array_sort_Permutation {A} (cmp : A -> A -> Z) (l : list A) :
  Permutation (Array_sort cmp l) l.
Proof.
  induction l as [| x l IH]; simpl; [done |].
  rewrite sort_insert_Permutation. by constructor.
Qed.

Lemma sort_insert_sorted {A} (cmp : A -> A -> Z) (key : A -> Z) :
  (forall a b, cmp a b <= 0 <-> key a <= key b) ->
  forall x l,
    StronglySorted (fun a b => key a <= key b) l ->
    StronglySorted (fun a b => key a <= key b) (sort_insert cmp x l).
Proof.
  intros Hcmp x l. induction l as [| y l IH]; intros Hsorted; simpl.
  - constructor; [constructor | constructor].
  - apply StronglySorted_inv in Hsorted as [Hrest Hy].
    destruct (Z.leb (cmp x y) 0) eqn:Hle.
    + apply Z.leb_le, Hcmp in Hle.
      constructor; [by constructor |].
      constructor; [done |].
      eapply List.Forall_impl; [| exact Hy]. simpl. intros; lia.
    + apply Z.leb_gt in Hle.
      assert (key y <= key x) as Hyx.
      { destruct (Z.le_gt_cases (key x) (key y)) as [Hc | Hc]; [| lia].
        apply Hcmp in Hc. lia. }
      constructor; [by apply IH |].
      apply List.Forall_forall. intros z Hz.
      apply (Permutation_in _ (sort_insert_Permutation cmp x l)) in Hz.
      destruct Hz as [<- | Hz]; [done |].
      by apply (proj1 (List.Forall_forall _ _) Hy).
Qed.

Lemma Array_sort_sorted {A} (cmp : A -> A -> Z) (key : A -> Z) :
  (forall a b, cmp a b <= 0 <-> key a <= key b) ->
  forall l, StronglySorted (fun a b => key a <= key b) (Array_sort cmp l).
Proof.
  intros Hcmp l. induction l as [| x l IH]; simpl; [constructor |].
  by apply (sort_insert_sorted cmp key).
Qed.

Lemma StronglySorted_skipn {A} (R : A -> A -> Prop) (k : nat) (l : list A) :
  StronglySorted R l -> StronglySorted R (skipn k l).
Proof.
  revert l. induction k as [| k IH]; intros l Hl; [done |].
  destruct l as [| x l]; [done |]. simpl.
  apply IH. by apply StronglySorted_inv in Hl as [? _].
Qed.

Lemma StronglySorted_firstn {A} (R : A -> A -> Prop) (k : nat) (l : list A) :
  StronglySorted R l -> StronglySorted R (firstn k l).
Proof.
  revert l. induction k as [| k IH]; intros l Hl; [constructor |].
  destruct l as [| x l]; [constructor |]. simpl.
  apply StronglySorted_inv in Hl as [Hrest Hx].
  constructor; [by apply IH |].
  apply List.Forall_forall. intros z Hz.
  apply (proj1 (List.Forall_forall _ _) Hx).
  revert Hz. clear. revert l. induction k as [| k IH]; intros l; [done |].
  destruct l as [| y l]; [done |]. simpl. intros [-> | Hz]; [by left |].
  right. by apply IH.
Qed.

Lemma priority_rank_alphabetical (p q : NotificationPriority) :
  priority_rank p < priority_rank q
  <-> String.compare (priority_name p) (priority_name q) = Lt.
Proof. destruct p, q; vm_compute; split; congruence. Qed.

Lemma compare_notifications_rank (key : SortBy) (order : SortOrder)
    (a b : Notification) :
  key <> by_readAt ->
  compare_notifications key order a b <= 0
  <-> match order with
      | asc => sort_rank key a <= sort_rank key b
      | desc => sort_rank key b <= sort_rank key a
      end.
Proof.
  intros Hkey. destruct key; [| | done].
  - unfold compare_notifications, sort_value, sort_value_lt, sort_rank.
    destruct (Z.ltb_spec (createdAt a) (createdAt b)),
             (Z.ltb_spec (createdAt b) (createdAt a)), order; lia.
  - unfold compare_notifications, sort_value, sort_rank.
    destruct (priority a), (priority b), order; vm_compute;
      split; congruence.
Qed.

Lemma includes_In (l : list string) (x : string) :
  includes l x = true <-> In x l.
Proof.
  unfold includes. rewrite existsb_exists. split.
  - intros (y & Hy & Heq). apply String.eqb_eq in Heq. by subst.
  - intros Hx. exists x. split; [done |]. apply String.eqb_refl.
Qed.

Lemma truthy_strings_spec (x : option (OneOrMany string)) :
  truthy_strings x = true
  <-> exists wanted, x = Some wanted /\ wanted <> One EmptyString.
Proof.
  destruct x as [[s | l] |]; simpl.
  - destruct (String.eqb_spec s EmptyString) as [-> | Hne]; simpl.
    + split; [done |]. intros (w & [= <-] & Hw). by destruct Hw.
    + split; [| done]. intros _. exists (One s). split; [done |].
      intros [= ->]. by destruct Hne.
  - split; [| done]. intros _. by exists (Many l).
  - split; [done |]. by intros (w & ? & _).
Qed.

(** The unpaged part of [findByUser]. *)
Lemma findByUser_in_unpaged stored uid f :
  truthy_number (f_offset f) = false ->
  truthy_number (f_limit f) = false ->
  Permutation
    (findByUser_in stored uid (Some f))
    (List.filter
       (fun n => bool_decide (userId n = uid) && matches_status f n
                 && matches_type f n && matches_category f n
                 && matches_startDate f n && matches_endDate f n)
       stored).
Proof.
  intros Hoffset Hlimit. unfold findByUser_in.
  rewrite Hoffset, Hlimit. rewrite Array_sort_Permutation.
  induction stored as [| n stored IH]; [done |]. simpl.
  destruct (bool_decide (userId n = uid)); simpl; [| exact IH].
  destruct (matches_status f n); simpl; [| exact IH].
  destruct (matches_type f n); simpl; [| exact IH].
  destruct (matches_category f n); simpl; [| exact IH].
  destruct (matches_startDate f n); simpl; [| exact IH].
  destruct (matches_endDate f n); simpl; [| exact IH].
  by constructor.
Qed.

(** X10. What [findByUser] selects.  Without [offset] and [limit], a
    notification is returned exactly when it is stored for the user, its
    status is one of the wanted ones, its type is one of the wanted types,
    it has a category and that is one of the wanted categories, and it was
    created within the dates (bounds included); it is returned as often as
    it is stored.  A [type] or [category] filter that is the empty string is
    no filter, and the [channels] and [priority] filters take no part. *)
Theorem X10_findByUser_selects (stored : list Notification) (uid : string)
    (f : NotificationFilters) :
  truthy_number (f_offset f) = false ->
  truthy_number (f_limit f) = false ->
  exists selected : Notification -> bool,
    (forall n,
       selected n = true
       <-> userId n = uid
           /\ (forall wanted, f_status f = Some wanted ->
                 In (status n) (as_array wanted))
           /\ (forall wanted, f_type f = Some wanted ->
                 wanted <> One EmptyString ->
                 exists ty, type n = Some ty /\ In ty (as_array wanted))
           /\ (forall wanted, f_category f = Some wanted ->
                 wanted <> One EmptyString ->
                 exists cat, category n = Some cat /\ cat <> EmptyString
                             /\ In cat (as_array wanted))
           /\ (forall d, f_startDate f = Some d -> d <= createdAt n)
           /\ (forall d, f_endDate f = Some d -> createdAt n <= d))
    /\ Permutation (findByUser_in stored uid (Some f))
                   (List.filter selected stored)
    /\ (forall n, In n (findByUser_in stored uid (Some f))
                  <-> In n stored /\ selected n = true).
Proof.
  intros Hoffset Hlimit.
  exists (fun n => bool_decide (userId n = uid) && matches_status f n
                   && matches_type f n && matches_category f n
                   && matches_startDate f n && matches_endDate f n).
  split; [| split].
  - intros n. rewrite !andb_true_iff, bool_decide_eq_true.
    assert (matches_status f n = true
            <-> forall wanted, f_status f = Some wanted ->
                  In (status n) (as_array wanted)) as ->.
    { unfold matches_status. destruct (f_status f) as [wanted |].
      - rewrite bool_decide_eq_true, list_elem_of_In. split.
        + by intros Hin w [= <-].
        + intros Hw. by apply Hw.
      - split; [by intros _ w | done]. }
    assert (matches_type f n = true
            <-> forall wanted, f_type f = Some wanted ->
                  wanted <> One EmptyString ->
                  exists ty, type n = Some ty /\ In ty (as_array wanted))
      as ->.
    { unfold matches_type.
      destruct (truthy_strings (f_type f)) eqn:Htruthy.
      - apply truthy_strings_spec in Htruthy as (w & Hw & Hne).
        rewrite Hw. simpl. destruct (type n) as [ty |].
        + rewrite includes_In. split.
          * intros Hin w' [= <-] _. by exists ty.
          * intros Hall. destruct (Hall w eq_refl Hne) as (ty' & [= <-] & Hin).
            done.
        + split; [done |]. intros Hall.
          by destruct (Hall w eq_refl Hne) as (ty' & ? & _).
      - split; [| done]. intros _ w Hw Hne.
        assert (truthy_strings (f_type f) = true) as Ht
          by (apply truthy_strings_spec; by exists w).
        congruence. }
    assert (matches_category f n = true
            <-> forall wanted, f_category f = Some wanted ->
                  wanted <> One EmptyString ->
                  exists cat, category n = Some cat /\ cat <> EmptyString
                              /\ In cat (as_array wanted)) as ->.
    { unfold matches_category.
      destruct (truthy_strings (f_category f)) eqn:Htruthy.
      - apply truthy_strings_spec in Htruthy as (w & Hw & Hne).
        rewrite Hw. simpl. rewrite andb_true_iff, includes_In.
        destruct (category n) as [cat |]; simpl.
        + destruct (String.eqb_spec cat EmptyString) as [-> | Hcat]; simpl.
          * split; [by intros [? _] |]. intros Hall.
            by destruct (Hall w eq_refl Hne) as (c' & [= <-] & Hc & _).
          * split.
            -- intros [_ Hin] w' [= <-] _. by exists cat.
            -- intros Hall.
               by destruct (Hall w eq_refl Hne) as (c' & [= <-] & _ & Hin).
        + split; [by intros [? _] |]. intros Hall.
          by destruct (Hall w eq_refl Hne) as (c' & ? & _).
      - split; [| done]. intros _ w Hw Hne.
        assert (truthy_strings (f_category f) = true) as Ht
          by (apply truthy_strings_spec; by exists w).
        congruence. }
    assert (matches_startDate f n = true
            <-> forall d, f_startDate f = Some d -> d <= createdAt n) as ->.
    { unfold matches_startDate. destruct (f_startDate f) as [d |].
      - rewrite Z.leb_le. split; [by intros Hd d' [= <-] | auto].
      - split; [by intros _ d | done]. }
    assert (matches_endDate f n = true
            <-> forall d, f_endDate f = Some d -> createdAt n <= d) as ->.
    { unfold matches_endDate. destruct (f_endDate f) as [d |].
      - rewrite Z.leb_le. split; [by intros Hd d' [= <-] | auto].
      - split; [by intros _ d | done]. }
    tauto.
  - by apply findByUser_in_unpaged.
  - intros n. split.
    + intros Hin.
      apply (Permutation_in _ (findByUser_in_unpaged _ _ _ Hoffset Hlimit))
        in Hin.
      by apply filter_In in Hin.
    + intros Hin.
      apply (Permutation_in
               _ (Permutation_sym
                    (findByUser_in_unpaged _ _ _ Hoffset Hlimit))).
      by apply filter_In.
Qed.

Lemma skipn_min {A} (k : nat) (l : list A) :
  skipn (Nat.min k (length l)) l = skipn k l.
Proof.
  destruct (Nat.le_gt_cases k (length l)) as [Hle | Hgt].
  - by rewrite Nat.min_l.
  - rewrite Nat.min_r by lia. rewrite skipn_all.
    symmetry. apply skipn_all2. lia.
Qed.

Lemma firstn_min {A} (k : nat) (l : list A) :
  firstn (Nat.min k (length l)) l = firstn k l.
Proof.
  destruct (Nat.le_gt_cases k (length l)) as [Hle | Hgt].
  - by rewrite Nat.min_l.
  - rewrite Nat.min_r by lia. rewrite firstn_all.
    symmetry. apply firstn_all2. lia.
Qed.

Lemma slice_from_nat {A} (k : nat) (l : list A) :
  slice_from (Z.of_nat k) l = skipn k l.
Proof.
  unfold slice_from, slice_index.
  destruct (Z.ltb_spec (Z.of_nat k) 0); [lia |].
  rewrite Nat2Z.id. apply skipn_min.
Qed.

Lemma slice_to_nat {A} (k : nat) (l : list A) :
  slice_to (Z.of_nat k) l = firstn k l.
Proof.
  unfold slice_to, slice_index.
  destruct (Z.ltb_spec (Z.of_nat k) 0); [lia |].
  rewrite Nat2Z.id. apply firstn_min.
Qed.

Lemma truthy_number_nat (k : nat) :
  truthy_number (Some (Z.of_nat k)) = negb (Nat.eqb k 0).
Proof.
  unfold truthy_number. f_equal.
  destruct (Z.eqb_spec (Z.of_nat k) 0), (Nat.eqb_spec k 0); try done; lia.
Qed.

(** X11. Pages.  With [offset: k] and [limit: j], [findByUser] skips the
    first [k] of what it would return without them and keeps the next [j];
    but [limit: 0] is no limit at all: everything after the offset is
    returned.  A negative offset [-(k+1)] returns the last [k+1]. *)
Theorem X11_findByUser_pages (stored : list Notification) (uid : string)
    (f : NotificationFilters) (k j : nat) :
  let all := findByUser_in stored uid (Some (paged None None f)) in
  findByUser_in stored uid
    (Some (paged (Some (Z.of_nat k)) (Some (Z.of_nat j)) f))
  = match j with
    | O => skipn k all
    | S _ => firstn j (skipn k all)
    end
  /\ findByUser_in stored uid (Some (paged (Some (Z.of_nat k)) None f))
     = skipn k all
  /\ findByUser_in stored uid
       (Some (paged (Some (- Z.of_nat (S k))) None f))
     = skipn (length all - S k) all.
Proof.
  intros all.
  assert (forall offset limit,
            findByUser_in stored uid (Some (paged offset limit f))
            = let rest := if truthy_number offset
                          then slice_from (default 0 offset) all
                          else all in
              if truthy_number limit then slice_to (default 0 limit) rest
              else rest) as Hpaged by reflexivity.
  rewrite !Hpaged. clearbody all. clear Hpaged.
  change (truthy_number None) with false.
  change (default 0 (Some ?x)) with x.
  cbv zeta iota. rewrite !truthy_number_nat.
  assert ((if negb (Nat.eqb k 0) then slice_from (Z.of_nat k) all
           else all) = skipn k all) as Hskip.
  { rewrite slice_from_nat. by destruct k. }
  split; [| split].
  - rewrite Hskip. destruct j as [| j]; [done |].
    cbn [Nat.eqb negb]. apply slice_to_nat.
  - exact Hskip.
  - unfold truthy_number.
    destruct (Z.eqb_spec (- Z.of_nat (S k)) 0) as [H0 | Hne]; [lia |].
    simpl negb. cbv iota. unfold slice_from, slice_index.
    destruct (Z.ltb_spec (- Z.of_nat (S k)) 0); [| lia].
    f_equal. lia.
Qed.

(** X12. Order.  Unless sorted by [readAt], the result of [findByUser] with
    a filters object is in order: by creation time, or by the alphabetical
    place of the priority's name (high, low, normal, urgent) when
    [sortBy] is priority; newest or last first unless [sortOrder] is asc. *)
Theorem X12_findByUser_order (stored : list Notification) (uid : string)
    (f : NotificationFilters) :
  f_sortBy f <> Some by_readAt ->
  StronglySorted
    (fun a b =>
       match default desc (f_sortOrder f) with
       | asc => sort_rank (default by_createdAt (f_sortBy f)) a
                <= sort_rank (default by_createdAt (f_sortBy f)) b
       | desc => sort_rank (default by_createdAt (f_sortBy f)) b
                 <= sort_rank (default by_createdAt (f_sortBy f)) a
       end)
    (findByUser_in stored uid (Some f)).
Proof.
  intros Hkey. unfold findByUser_in.
  set (key := default by_createdAt (f_sortBy f)).
  set (order := default desc (f_sortOrder f)).
  assert (key <> by_readAt) as Hkey'.
  { subst key. destruct (f_sortBy f) as [[] |]; simpl; congruence. }
  set (results := List.filter (matches_endDate f) _).
  assert (StronglySorted
            (fun a b => match order with
                        | asc => sort_rank key a <= sort_rank key b
                        | desc => sort_rank key b <= sort_rank key a
                        end)
            (Array_sort (compare_notifications key order) results))
    as Hsorted.
  { destruct order eqn:Horder.
    - apply (Array_sort_sorted _ (sort_rank key)). intros a b.
      by rewrite compare_notifications_rank.
    - assert (StronglySorted
                (fun a b => - sort_rank key a <= - sort_rank key b)
                (Array_sort (compare_notifications key desc) results))
        as Hneg.
      { apply (Array_sort_sorted _ (fun n => - sort_rank key n)).
        intros a b. rewrite compare_notifications_rank by done. lia. }
      clear -Hneg. induction Hneg as [| x l Hl IH Hx]; constructor; [done |].
      eapply List.Forall_impl; [| exact Hx]. simpl. intros; lia. }
  destruct (truthy_number (f_offset f)), (truthy_number (f_limit f));
    unfold slice_to, slice_from;
    repeat first [apply StronglySorted_firstn | apply StronglySorted_skipn];
    exact Hsorted.
Qed.

Lemma find_append {A} (p : A -> bool) (l1 l2 : list A) :
  List.find p (l1 ++ l2)
  = match List.find p l1 with
    | Some x => Some x
    | None => List.find p l2
    end.
Proof.
  induction l1 as [| x l1 IH]; simpl; [done |]. by destruct (p x).
Qed.

(** X13. [saveBatch] then [findById]: the notification found under an id is
    the last one of the batch with that id, or, when the batch has none,
    what was stored before. *)
Theorem X13_saveBatch_round_trip (ns : list Notification) (k : string)
    (m : MemoryStorageAdapter.t) :
  findById k (saveBatch ns m)
  = match List.find (fun n => String.eqb (id n) k) (rev ns) with
    | Some n => Some n
    | None => findById k m
    end.
Proof.
  unfold saveBatch. revert m.
  induction ns as [| n ns IH]; intros m; [done |].
  cbn [fold_left rev]. rewrite IH, find_append.
  destruct (List.find _ (rev ns)) as [found |]; [done |].
  cbn [List.find]. unfold findById, save. simpl.
  destruct (String.eqb_spec (id n) k) as [<- | Hne].
  - by rewrite lookup_insert_eq.
  - by rewrite lookup_insert_ne.
Qed.

(** [findByUser(userId, {})]: the user's notifications, newest first. *)
Lemma findByUser_all_Permutation stored uid :
  Permutation (findByUser_in stored uid (Some no_filters))
              (List.filter (fun n => bool_decide (userId n = uid)) stored).
Proof.
  rewrite (findByUser_in_unpaged stored uid no_filters eq_refl eq_refl).
  erewrite List.filter_ext; [reflexivity |].
  intros n. unfold matches_status, matches_type, matches_category,
    matches_startDate, matches_endDate. simpl.
  by rewrite !andb_true_r.
Qed.

Lemma findByUser_all_In stored uid n :
  In n (findByUser_in stored uid (Some no_filters))
  <-> In n stored /\ userId n = uid.
Proof.
  split.
  - intros Hin.
    apply (Permutation_in _ (findByUser_all_Permutation stored uid)) in Hin.
    apply filter_In in Hin as [Hin Hu]. by apply bool_decide_eq_true in Hu.
  - intros [Hin Hu].
    apply (Permutation_in
             _ (Permutation_sym (findByUser_all_Permutation stored uid))).
    apply filter_In. split; [done |]. by apply bool_decide_eq_true.
Qed.

End FindByUser.

(* ===================================================================== *)
(** ** [send]: the two ways out of the [try] block *)
(* ===================================================================== *)

Section CenterSend.
Context {St : Type} `{Runtime St}.
Import NotificationCenter.

Lemma Forall_imap_all {A B} (P : B -> Prop) (f : nat -> A -> B)
    (l : list A) :
  (forall k x, P (f k x)) -> Forall P (imap f l).
Proof.
  intros HP. apply List.Forall_forall. intros y Hin.
  apply list_elem_of_In, elem_of_lookup_imap in Hin.
  destruct Hin as (k & x & -> & _). apply HP.
Qed.

Lemma dispatch_unfold (c : NotificationCenter.t St) kept :
  dispatch c kept
  = bind (enqueue_or_sendNow c kept)
      (fun _ =>
         bind get_object
           (fun current =>
              bind (lift (applyAfterSendMiddleware c current))
                (fun _ =>
                   bind (lift (notifySubscribers c current))
                     (fun _ =>
                        bind (lift (gets Date_now))
                          (fun now =>
                             bind (lift (notifyEventSubscribers c
                                           {| ev_type := ev_sent;
                                              ev_notification := current;
                                              timestamp := now |}))
                               (fun _ => ret current)))))).
Proof. reflexivity. Qed.

(** A send that resolves went through every stage. *)
Lemma send_Ok_inv (c : NotificationCenter.t St) input st n st' log :
  send c input st = (Ok n, st', log) ->
  exists built st0 kept st1 log1 st2 o log3,
    buildNotification c input st = (Ok built, st0, [])
    /\ applyBeforeSendMiddleware c built st0 = (Ok (Some kept), st1, log1)
    /\ StorageAdapter.save (storage c) kept st1 = (Ok tt, st2)
    /\ dispatch c kept (kept, st2) = (Ok n, (o, st'), log3)
    /\ log = log1 ++ StorageSave kept :: log3.
Proof.
  intros Hsend.
  destruct (buildNotification c input st) as [[[built | e] st0] log0] eqn:Hb.
  2:{ rewrite (send_build_Throw _ _ _ _ _ _ Hb) in Hsend. discriminate. }
  assert (log0 = []) as -> by (eapply buildNotification_silent; exact Hb).
  destruct (applyBeforeSendMiddleware c built st0)
    as [[[[kept |] | e] st1] log1] eqn:Hm.
  2:{ rewrite (send_filtered _ _ _ _ _ _ _ _ Hb Hm) in Hsend. discriminate. }
  2:{ rewrite (send_before_Throw _ _ _ _ _ _ _ _ _ Hb Hm) in Hsend.
      discriminate. }
  destruct (StorageAdapter.save (storage c) kept st1) as [[[] | e] st2] eqn:Hs.
  2:{ rewrite (send_save_Throw _ _ _ _ _ _ _ _ _ _ _ Hb Hm Hs) in Hsend.
      discriminate. }
  destruct (try_catch (dispatch c kept) (on_dispatch_error c) (kept, st2))
    as [[r [o st3]] log3] eqn:Ht.
  rewrite (send_try _ _ _ _ _ _ _ _ _ _ _ _ _ _ Hb Hm Hs Ht) in Hsend.
  injection Hsend as -> -> <-.
  exists built, st0, kept, st1, log1, st2, o, log3.
  repeat split; try done.
  unfold try_catch in Ht.
  destruct (dispatch c kept (kept, st2)) as [[[a | e] s1] l1] eqn:Hd.
  - by injection Ht as -> -> ->.
  - unfold on_dispatch_error in Ht. destruct s1 as [o1 s1].
    rewrite bind_get_object in Ht. unfold bind, throw in Ht.
    destruct (lift (applyErrorMiddleware c e o1) (o1, s1))
      as [[[[] | e'] s2] l2]; discriminate.
Qed.

Lemma applyAfterSendMiddleware_calls (c : NotificationCenter.t St)
    n st r st' log :
  applyAfterSendMiddleware c n st = (r, st', log) ->
  Forall (fun ev => exists mw, ev = CallAfterSend mw n) log
  /\ (r = Ok tt ->
      log = map (fun m => CallAfterSend (NotificationMiddleware.name m) n)
                (List.filter has_afterSend (middleware c))).
Proof.
  intros Hrun. unfold applyAfterSendMiddleware in Hrun.
  set (hook_of := fun m : NotificationMiddleware.t St =>
         match NotificationMiddleware.afterSend m with
         | Some h => Some (h n)
         | None => None
         end).
  set (ev_of := fun m : NotificationMiddleware.t St =>
         CallAfterSend (NotificationMiddleware.name m) n).
  assert (for_each (fun x => match hook_of x with
                             | Some op => call (ev_of x) op
                             | None => ret tt
                             end) (middleware c) st = (r, st', log)) as Hrun'.
  { rewrite <- Hrun. apply for_each_ext. intros m. unfold hook_of.
    destruct (NotificationMiddleware.afterSend m); reflexivity. }
  apply for_each_hooks in Hrun'. destruct Hrun' as [[done ->] Hok]. split.
  - apply List.Forall_forall. intros ev Hin. apply in_map_iff in Hin.
    destruct Hin as (m & <- & _). eexists. reflexivity.
  - intros Hr. rewrite (Hok Hr). f_equal. clear.
    induction (middleware c) as [| m ms IH]; simpl; [reflexivity |].
    unfold hook_of at 1, has_afterSend at 1.
    destruct (NotificationMiddleware.afterSend m); by rewrite IH.
Qed.

Lemma notifySubscribers_Ok (c : NotificationCenter.t St) n st st' log :
  notifySubscribers c n st = (Ok tt, st', log) ->
  log = imap (fun k _ => PublishNotification (userId n) k n)
             (default [] (subscribers c !! userId n)).
Proof.
  unfold notifySubscribers.
  destruct (subscribers c !! userId n) as [subs |]; simpl.
  - intros Hrun. apply for_each_from_calls in Hrun as [_ Hok].
    by rewrite (Hok eq_refl).
  - by intros [= <- <-].
Qed.

Lemma notifyEventSubscribers_Ok (c : NotificationCenter.t St) ev st st' log :
  notifyEventSubscribers c ev st = (Ok tt, st', log) ->
  log = imap (fun k _ => PublishEvent (userId (ev_notification ev)) k ev)
             (default [] (eventSubscribers c
                            !! userId (ev_notification ev))).
Proof.
  unfold notifyEventSubscribers.
  destruct (eventSubscribers c !! userId (ev_notification ev)) as [subs |];
    simpl.
  - intros Hrun.
    apply (for_each_from_calls
             (fun k => PublishEvent (userId (ev_notification ev)) k ev)
             (fun callback => callback ev)) in Hrun as [_ Hok].
    by rewrite (Hok eq_refl).
  - by intros [= <- <-].
Qed.

Lemma notifyUnreadSubscribers_Ok (c : NotificationCenter.t St) uid count
    st st' log :
  notifyUnreadSubscribers c uid count st = (Ok tt, st', log) ->
  log = imap (fun k _ => PublishUnread uid k count)
             (default [] (unreadSubscribers c !! uid)).
Proof.
  unfold notifyUnreadSubscribers.
  destruct (unreadSubscribers c !! uid) as [subs |]; simpl.
  - intros Hrun.
    apply (for_each_from_calls
             (fun k => PublishUnread uid k count)
             (fun callback => callback count uid)) in Hrun as [_ Hok].
    by rewrite (Hok eq_refl).
  - by intros [= <- <-].
Qed.

Lemma logs_notifyUnreadSubscribers_any (c : NotificationCenter.t St)
    uid count st :
  Forall (fun ev => exists k, ev = PublishUnread uid k count)
         (snd (notifyUnreadSubscribers c uid count st)).
Proof.
  assert (logs (fun ev => exists k, ev = PublishUnread uid k count)
               (notifyUnreadSubscribers c uid count)) as Hlogs; [| apply Hlogs].
  unfold notifyUnreadSubscribers.
  destruct (unreadSubscribers c !! uid); [| apply logs_ret].
  apply logs_for_each_from. intros k callback. apply logs_call. by exists k.
Qed.

(** What a [try] block that completes did after its first statement. *)
Lemma dispatch_Ok_inv (c : NotificationCenter.t St) kept st2 n o st3 log3 :
  dispatch c kept (kept, st2) = (Ok n, (o, st3), log3) ->
  exists sA lA ts,
    enqueue_or_sendNow c kept (kept, st2) = (Ok tt, (n, sA), lA)
    /\ o = n
    /\ log3
       = lA
         ++ map (fun m => CallAfterSend (NotificationMiddleware.name m) n)
                (List.filter has_afterSend (middleware c))
         ++ imap (fun k _ => PublishNotification (userId n) k n)
                 (default [] (subscribers c !! userId n))
         ++ imap (fun k _ =>
                    PublishEvent (userId n) k
                      {| ev_type := ev_sent; ev_notification := n;
                         timestamp := ts |})
                 (default [] (eventSubscribers c !! userId n)).
Proof.
  rewrite dispatch_unfold. intros Hd. apply bind_inv in Hd.
  destruct Hd as [(e & _ & [=]) | ([] & [o1 sA] & lA & l3 & Hfirst & Hk & ->)].
  rewrite bind_get_object in Hk. apply bind_inv in Hk.
  destruct Hk as [(e & _ & [=]) | ([] & [o2 sB] & lB & l4 & Hafter & Hk & ->)].
  apply lift_inv in Hafter as [Hafter Ho2]. simpl in Hafter, Ho2. subst o2.
  apply bind_inv in Hk.
  destruct Hk as [(e & _ & [=]) | ([] & [o3 sC] & lC & l5 & Hpub & Hk & ->)].
  apply lift_inv in Hpub as [Hpub Ho3]. simpl in Hpub, Ho3. subst o3.
  apply bind_inv in Hk.
  destruct Hk as [(e & _ & [=]) | (ts & [o4 sD] & lD & l6 & Hnow & Hk & ->)].
  apply lift_inv in Hnow as [Hnow Ho4]. simpl in Hnow, Ho4. subst o4.
  injection Hnow as <- <- <-.
  apply bind_inv in Hk.
  destruct Hk as [(e & _ & [=]) | ([] & [o5 sE] & lE & l7 & Hev & Hk & ->)].
  apply lift_inv in Hev as [Hev Ho5]. simpl in Hev, Ho5. subst o5.
  injection Hk as <- <- <- <-.
  exists sA, lA, (Date_now sC). split; [done |]. split; [done |].
  apply applyAfterSendMiddleware_calls in Hafter as [_ Hafter].
  rewrite (Hafter eq_refl).
  rewrite (notifySubscribers_Ok _ _ _ _ _ Hpub).
  rewrite (notifyEventSubscribers_Ok _ _ _ _ _ Hev). simpl.
  by rewrite app_nil_r.
Qed.

Lemma logs_beforeSend_only (c : NotificationCenter.t St) built st0 r st1 log1 :
  applyBeforeSendMiddleware c built st0 = (r, st1, log1) ->
  Forall (fun ev => is_CallBeforeSend ev = true) log1.
Proof.
  intros Hrun.
  pose proof (logs_beforeSend_loop (middleware c) built st0) as Hlogs.
  unfold applyBeforeSendMiddleware in Hrun. by rewrite Hrun in Hlogs.
Qed.

(** X14. With a queue, a send that resolves has stored the notification the
    [beforeSend] hooks left, handed it to the queue once ([enqueueDelayed]
    with the time left until [scheduledFor] when it has one, [enqueue]
    otherwise), run every [afterSend] hook and told every subscriber, in
    that order, and has called no transport: what it returns, and what the
    hooks and the subscribers saw, is the notification as stored, not yet
    delivered.  The time left is counted from the clock after the save. *)
Theorem X14_send_through_a_queue (c : NotificationCenter.t St)
    (q : QueueAdapter.t St) input st n st' log :
  queue c = Some q ->
  send c input st = (Ok n, st', log) ->
  exists built st0 st1 log1 st2 ts,
    buildNotification c input st = (Ok built, st0, [])
    /\ applyBeforeSendMiddleware c built st0 = (Ok (Some n), st1, log1)
    /\ StorageAdapter.save (storage c) n st1 = (Ok tt, st2)
    /\ log
       = log1
         ++ [StorageSave n;
             match scheduledFor n with
             | Some when => QueueEnqueueDelayed n (when - Date_now st2)
             | None => QueueEnqueue n
             end]
         ++ map (fun m => CallAfterSend (NotificationMiddleware.name m) n)
                (List.filter has_afterSend (middleware c))
         ++ imap (fun k _ => PublishNotification (userId n) k n)
                 (default [] (subscribers c !! userId n))
         ++ imap (fun k _ =>
                    PublishEvent (userId n) k
                      {| ev_type := ev_sent; ev_notification := n;
                         timestamp := ts |})
                 (default [] (eventSubscribers c !! userId n))
    /\ Forall (fun ev => is_transport_call ev = false) log.
Proof.
  intros Hq Hsend. apply send_Ok_inv in Hsend.
  destruct Hsend
    as (built & st0 & kept & st1 & log1 & st2 & o & log3
        & Hb & Hm & Hs & Hd & ->).
  apply dispatch_Ok_inv in Hd as (sA & lA & ts & Hfirst & -> & ->).
  unfold enqueue_or_sendNow in Hfirst. rewrite Hq in Hfirst.
  assert (n = kept
          /\ lA = [match scheduledFor kept with
                   | Some when => QueueEnqueueDelayed kept (when - Date_now st2)
                   | None => QueueEnqueue kept
                   end]) as [-> ->].
  { destruct (scheduledFor kept) as [when |].
    - rewrite (bind_silent _ _ (kept, st2) (Date_now st2) (kept, st2))
        in Hfirst by reflexivity.
      apply lift_inv in Hfirst as [Hcall Ho]. simpl in Hcall, Ho.
      unfold call in Hcall.
      destruct (QueueAdapter.enqueueDelayed q kept (when - Date_now st2) st2).
      by injection Hcall as _ _ <-.
    - apply lift_inv in Hfirst as [Hcall Ho]. simpl in Hcall, Ho.
      unfold call in Hcall. destruct (QueueAdapter.enqueue q kept st2).
      by injection Hcall as _ _ <-. }
  exists built, st0, st1, log1, st2, ts.
  split; [done |]. split; [done |]. split; [done |]. split; [done |].
  apply Forall_app. split.
  - eapply List.Forall_impl; [| exact (logs_beforeSend_only _ _ _ _ _ _ Hm)].
    intros [] Hev; done.
  - constructor; [done |]. apply Forall_app. split.
    + constructor; [by destruct (scheduledFor kept) | constructor].
    + apply Forall_app. split; [| apply Forall_app; split].
      * apply List.Forall_forall. intros ev Hin. apply in_map_iff in Hin.
        by destruct Hin as (m & <- & _).
      * by apply Forall_imap_all.
      * by apply Forall_imap_all.
Qed.

Lemma sendNow_Ok_saved (c : NotificationCenter.t St) n st n' st' log :
  sendNow c (n, st) = (Ok tt, (n', st'), log) ->
  exists receipts calls st2,
    n' = set_status (aggregate receipts) n
    /\ length receipts = length (channels n)
    /\ log = StorageGetPreferences (userId n) :: calls ++ [StorageSave n']
    /\ StorageAdapter.save (storage c) n' st2 = (Ok tt, st').
Proof.
  intros Hrun. unfold sendNow in Hrun. rewrite bind_get_object in Hrun.
  apply bind_inv in Hrun.
  destruct Hrun as [(e & _ & [=]) | (prefs & s1 & l1 & l2 & Hp & Hk & ->)].
  apply lift_inv in Hp. destruct Hp as [Hp Ho1]. destruct s1 as [o1 st1].
  simpl in Hp, Ho1. subst o1.
  unfold getPreferences, call in Hp.
  destruct (StorageAdapter.getPreferences (storage c) (userId n) st)
    as [rp sp] eqn:Hprefs.
  injection Hp as -> -> <-.
  apply bind_inv in Hk.
  destruct Hk as [(e & _ & [=]) | (receipts & s2 & l3 & l4 & Hall & Hk & ->)].
  apply lift_inv in Hall. destruct Hall as [Hall Ho2]. destruct s2 as [o2 st2].
  simpl in Hall, Ho2. subst o2.
  apply bind_inv in Hk.
  destruct Hk as [(e & _ & [=]) | ([] & s3 & l5 & l6 & Hu & Hk & ->)].
  unfold update_object in Hu. simpl in Hu. injection Hu as <- <-.
  rewrite bind_get_object in Hk.
  apply lift_inv in Hk. destruct Hk as [Hsave Ho3]. simpl in Hsave, Ho3.
  unfold call in Hsave.
  destruct (StorageAdapter.save (storage c)
              (set_status (aggregate receipts) n) st2) as [rs ss] eqn:Hsaved.
  injection Hsave as -> -> <-. subst n'.
  exists receipts, l3, st2. split; [done |]. split; [| by split].
  apply promise_all_map_Ok in Hall.
  symmetry. eapply Forall2_length. exact Hall.
Qed.

Lemma sendNow_Ok_status (c : NotificationCenter.t St) n st n' st' log :
  sendNow c (n, st) = (Ok tt, (n', st'), log) ->
  exists receipts calls,
    n' = set_status (aggregate receipts) n
    /\ length receipts = length (channels n)
    /\ log = StorageGetPreferences (userId n) :: calls ++ [StorageSave n'].
Proof.
  intros Hrun.
  destruct (sendNow_Ok_saved c n st n' st' log Hrun)
    as (receipts & calls & st2 & ? & ? & ? & _).
  by exists receipts, calls.
Qed.


Lemma aggregate_cases (receipts : list (option DeliveryReceipt)) :
  aggregate receipts = st_failed \/ aggregate receipts = st_delivered
  \/ aggregate receipts = st_sent.
Proof.
  unfold aggregate.
  destruct (allFailed receipts), (anyDelivered receipts); auto.
Qed.

(** X15. Without a queue, a send that resolves has delivered at once,
    whatever [scheduledFor] says: it stored the notification, made one
    delivery pass and stored it again with the outcome ([failed],
    [delivered] or [sent], never [pending]) before the [afterSend] hooks and
    the subscribers saw it; nothing is ever enqueued.  (This is [sendNow] of
    [notification_center.ts]; X20 has what the bundled build does with an
    empty channel list.) *)
Theorem X15_send_without_a_queue (c : NotificationCenter.t St)
    input st n st' log :
  queue c = None ->
  send c input st = (Ok n, st', log) ->
  exists built st0 kept st1 log1 calls ts,
    buildNotification c input st = (Ok built, st0, [])
    /\ applyBeforeSendMiddleware c built st0 = (Ok (Some kept), st1, log1)
    /\ n = set_status (status n) kept
    /\ (status n = st_failed \/ status n = st_delivered
        \/ status n = st_sent)
    /\ log
       = log1
         ++ [StorageSave kept; StorageGetPreferences (userId kept)]
         ++ calls
         ++ [StorageSave n]
         ++ map (fun m => CallAfterSend (NotificationMiddleware.name m) n)
                (List.filter has_afterSend (middleware c))
         ++ imap (fun k _ => PublishNotification (userId n) k n)
                 (default [] (subscribers c !! userId n))
         ++ imap (fun k _ =>
                    PublishEvent (userId n) k
                      {| ev_type := ev_sent; ev_notification := n;
                         timestamp := ts |})
                 (default [] (eventSubscribers c !! userId n))
    /\ Forall (fun ev => is_enqueue ev = false) log.
Proof.
  intros Hq Hsend. apply send_Ok_inv in Hsend.
  destruct Hsend
    as (built & st0 & kept & st1 & log1 & st2 & o & log3
        & Hb & Hm & Hs & Hd & ->).
  apply dispatch_Ok_inv in Hd as (sA & lA & ts & Hfirst & -> & ->).
  unfold enqueue_or_sendNow in Hfirst. rewrite Hq in Hfirst.
  pose proof (sendNow_log (fun ev => is_enqueue ev = false) c kept st2
                eq_refl (fun _ => eq_refl) (fun _ _ => eq_refl)
                (fun _ => eq_refl) (fun _ => eq_refl)) as Hquiet.
  rewrite Hfirst in Hquiet. simpl in Hquiet.
  apply sendNow_Ok_status in Hfirst as (receipts & calls & Hn & _ & ->).
  exists built, st0, kept, st1, log1, calls, ts.
  split; [done |]. split; [done |].
  assert (status n = aggregate receipts) as Hstatus by (by rewrite Hn).
  split; [by rewrite Hstatus |].
  split; [rewrite Hstatus; apply aggregate_cases |].
  split.
  { simpl. rewrite <- !app_assoc. simpl.
    by replace (userId n) with (userId kept) by (by rewrite Hn). }
  apply Forall_app. split.
  - eapply List.Forall_impl; [| exact (logs_beforeSend_only _ _ _ _ _ _ Hm)].
    intros [] Hev; done.
  - constructor; [done |]. apply Forall_app. split; [exact Hquiet |].
    apply Forall_app. split; [| apply Forall_app; split].
    + apply List.Forall_forall. intros ev Hin. apply in_map_iff in Hin.
      by destruct Hin as (m & <- & _).
    + by apply Forall_imap_all.
    + by apply Forall_imap_all.
Qed.

(** X16. A failing [afterSend] hook undoes nothing and silences the
    subscribers: when the notification was stored and handed over (enqueued
    or delivered) and an [afterSend] hook then throws, [send] rejects (with
    that error, or with the one an [onError] hook throws), the [onError]
    hooks are given the notification as handed over, and no subscriber is
    told, although the storage and the queue or the transports have it. *)
Theorem X16_afterSend_failure_hides_a_sent_notification
    (c : NotificationCenter.t St) input st built st0 kept st1 log1 st2
    current st3 log3 e st4 log4 :
  buildNotification c input st = (Ok built, st0, []) ->
  applyBeforeSendMiddleware c built st0 = (Ok (Some kept), st1, log1) ->
  StorageAdapter.save (storage c) kept st1 = (Ok tt, st2) ->
  enqueue_or_sendNow c kept (kept, st2) = (Ok tt, (current, st3), log3) ->
  applyAfterSendMiddleware c current st3 = (Throw e, st4, log4) ->
  exists r st5 log5,
    applyErrorMiddleware c e current st4 = (r, st5, log5)
    /\ send c input st
       = (match r with Ok _ => Throw e | Throw e' => Throw e' end, st5,
          log1 ++ StorageSave kept :: log3 ++ log4 ++ log5)
    /\ Forall (fun ev => exists mw, ev = CallAfterSend mw current) log4
    /\ Forall (fun ev => exists mw, ev = CallOnError mw e current) log5
    /\ Forall (fun ev => is_publish ev = false)
              (log1 ++ StorageSave kept :: log3 ++ log4 ++ log5).
Proof.
  intros Hb Hm Hs Hfirst Hafter.
  destruct (applyErrorMiddleware c e current st4) as [[r st5] log5] eqn:Herr.
  exists r, st5, log5. split; [done |].
  assert (dispatch c kept (kept, st2)
          = (Throw e, (current, st4), log3 ++ log4)) as Hd.
  { rewrite dispatch_unfold. rewrite (bind_Ok _ _ _ _ _ _ Hfirst).
    rewrite bind_get_object.
    rewrite (bind_Throw _ _ (current, st3) e (current, st4) log4); [done |].
    unfold lift. simpl. by rewrite Hafter. }
  pose proof (try_block_Throw _ _ _ _ _ _ _ _ _ _ Hd Herr) as Ht.
  rewrite (send_try _ _ _ _ _ _ _ _ _ _ _ _ _ _ Hb Hm Hs Ht).
  simpl. rewrite <- app_assoc.
  split; [done |].
  pose proof (applyAfterSendMiddleware_calls _ _ _ _ _ _ Hafter) as [Ha _].
  pose proof (applyErrorMiddleware_calls _ _ _ _ _ _ _ Herr) as [He _].
  split; [done |]. split; [done |].
  apply Forall_app. split.
  - eapply List.Forall_impl; [| exact (logs_beforeSend_only _ _ _ _ _ _ Hm)].
    intros [] Hev; done.
  - constructor; [done |]. apply Forall_app. split; [| apply Forall_app; split].
    + assert (Forall (fun ev => is_publish ev = false)
                     (snd (enqueue_or_sendNow c kept (kept, st2)))) as Hlog.
      { unfold enqueue_or_sendNow. destruct (queue c) as [q |].
        - destruct (scheduledFor kept) as [when |].
          + rewrite (bind_silent _ _ (kept, st2) (Date_now st2) (kept, st2))
              by reflexivity.
            unfold lift, call. simpl.
            destruct (QueueAdapter.enqueueDelayed q kept _ st2). simpl.
            by repeat constructor.
          + unfold lift, call. simpl.
            destruct (QueueAdapter.enqueue q kept st2). simpl.
            by repeat constructor.
        - by apply sendNow_log. }
      by rewrite Hfirst in Hlog.
    + eapply List.Forall_impl; [| exact Ha]. by intros ev [mw ->].
    + eapply List.Forall_impl; [| exact He]. by intros ev [mw ->].
Qed.

Lemma logs_weaken {W A} (P Q : Event -> Prop) (m : M W A) :
  (forall ev, P ev -> Q ev) -> logs P m -> logs Q m.
Proof.
  intros HPQ Hm s. eapply List.Forall_impl; [exact HPQ | apply Hm].
Qed.

Lemma logs_for_each_in {W A} P (f : A -> M W unit) (l : list A) :
  (forall x, In x l -> logs P (f x)) -> logs P (for_each f l).
Proof.
  induction l as [| x l IH]; intros Hf; simpl; [apply logs_ret |].
  apply logs_bind; [apply Hf; by left |].
  intros _. apply IH. intros y Hy. apply Hf. by right.
Qed.

Lemma logs_beforeSend_names (ms : list (NotificationMiddleware.t St)) n :
  logs (hooks_among (map NotificationMiddleware.name ms))
       (beforeSend_loop ms n).
Proof.
  revert n. induction ms as [| m ms IH]; intros n; simpl.
  - apply logs_ret.
  - assert (forall n',
              logs (hooks_among (NotificationMiddleware.name m
                                 :: map NotificationMiddleware.name ms))
                   (beforeSend_loop ms n')) as Hrest.
    { intros n'. eapply logs_weaken; [| apply IH].
      intros ev Hev mw Hmw. right. by apply Hev. }
    destruct (NotificationMiddleware.beforeSend m); [| apply Hrest].
    apply logs_bind.
    + apply logs_call. intros mw [= <-]. by left.
    + intros [n' |]; [apply Hrest | apply logs_ret].
Qed.

Lemma logs_send_names (c : NotificationCenter.t St) input :
  logs (hooks_among (map NotificationMiddleware.name (middleware c)))
       (send c input).
Proof.
  set (P := hooks_among (map NotificationMiddleware.name (middleware c))).
  assert (forall ev, hook_name ev = None -> P ev) as Hother.
  { intros ev Hev mw Hmw. congruence. }
  assert (forall m, In m (middleware c) ->
            forall ev, hook_name ev = Some (NotificationMiddleware.name m) ->
                       P ev) as Hhook.
  { intros m Hm ev Hev mw Hmw. rewrite Hev in Hmw. injection Hmw as <-.
    apply in_map_iff. by exists m. }
  unfold send. apply logs_bind; [apply logs_buildNotification |].
  intros built. apply logs_bind; [apply logs_beforeSend_names |].
  intros [kept |]; [| apply logs_throw].
  apply logs_bind; [apply logs_call; by apply Hother |].
  intros _. apply logs_with_object. apply logs_try_catch.
  - rewrite dispatch_unfold. apply logs_bind.
    { unfold enqueue_or_sendNow. destruct (queue c) as [q |].
      - destruct (scheduledFor kept).
        + apply logs_bind; [apply logs_lift, logs_gets |].
          intros now. apply logs_lift, logs_call. by apply Hother.
        + apply logs_lift, logs_call. by apply Hother.
      - intros [n st]. apply sendNow_log; intros; by apply Hother. }
    intros _. apply logs_bind; [apply logs_get_object |].
    intros current. apply logs_bind.
    { apply logs_lift. unfold applyAfterSendMiddleware.
      apply logs_for_each_in. intros m Hm.
      destruct (NotificationMiddleware.afterSend m); [| apply logs_ret].
      apply logs_call. by apply (Hhook m Hm). }
    intros _. apply logs_bind.
    { apply logs_lift, logs_notifySubscribers. intros; by apply Hother. }
    intros _. apply logs_bind; [apply logs_lift, logs_gets |].
    intros now. apply logs_bind; [| intros; apply logs_ret].
    apply logs_lift, logs_notifyEventSubscribers. intros; by apply Hother.
  - intros e. unfold on_dispatch_error.
    apply logs_bind; [apply logs_get_object |].
    intros current. apply logs_bind; [| intros; apply logs_throw].
    apply logs_lift. unfold applyErrorMiddleware.
    apply logs_for_each_in. intros m Hm.
    destruct (NotificationMiddleware.onError m); [| apply logs_ret].
    apply logs_call. by apply (Hhook m Hm).
Qed.

Lemma center_eta (c : NotificationCenter.t St) :
  c = {| storage := storage c; transports := transports c; queue := queue c;
         templates := templates c; middleware := middleware c;
         subscribers := subscribers c;
         eventSubscribers := eventSubscribers c;
         unreadSubscribers := unreadSubscribers c |}.
Proof. by destruct c. Qed.

Lemma filter_all {A} (p : A -> bool) (l : list A) :
  (forall x, In x l -> p x = true) -> List.filter p l = l.
Proof.
  induction l as [| x l IH]; intros Hp; simpl; [done |].
  rewrite (Hp x) by (by left). f_equal. apply IH.
  intros y Hy. apply Hp. by right.
Qed.

(** X17. [removeMiddleware(name)] removes every middleware of that name:
    no later [send] calls a hook of a middleware so named, even when several
    were added under the name.  Removing a name that no middleware has
    changes nothing, and it undoes a [use] of a middleware whose name no
    other has. *)
Theorem X17_removed_middleware_is_never_called (c : NotificationCenter.t St)
    (name : string) :
  (forall input st,
     Forall (fun ev => hook_name ev <> Some name)
            (snd (send (CenterMethods.removeMiddleware c name) input st)))
  /\ ((forall m, In m (middleware c) ->
         NotificationMiddleware.name m <> name) ->
      CenterMethods.removeMiddleware c name = c)
  /\ (forall m, NotificationMiddleware.name m = name ->
        (forall m', In m' (middleware c) ->
           NotificationMiddleware.name m' <> name) ->
        CenterMethods.removeMiddleware (use c m) name = c).
Proof.
  assert (forall ms : list (NotificationMiddleware.t St),
            (forall m, In m ms -> NotificationMiddleware.name m <> name) ->
            List.filter
              (fun m => negb (String.eqb (NotificationMiddleware.name m) name))
              ms = ms) as Hkeep.
  { intros ms Hms. apply filter_all. intros m Hm.
    destruct (String.eqb_spec (NotificationMiddleware.name m) name); [| done].
    by destruct (Hms m Hm). }
  split; [| split].
  - intros input st.
    eapply List.Forall_impl;
      [| exact (logs_send_names (CenterMethods.removeMiddleware c name)
                                input st)].
    intros ev Hev Hname. apply Hev in Hname. simpl in Hname.
    apply in_map_iff in Hname as (m & Hm & Hin).
    apply filter_In in Hin as [_ Hin].
    destruct (String.eqb_spec (NotificationMiddleware.name m) name);
      [discriminate | done].
  - intros Hnone. unfold CenterMethods.removeMiddleware.
    rewrite (Hkeep _ Hnone). symmetry. apply center_eta.
  - intros m Hm Hnone. unfold CenterMethods.removeMiddleware, use. simpl.
    rewrite List.filter_app, (Hkeep _ Hnone). simpl.
    rewrite Hm, String.eqb_refl. simpl. rewrite app_nil_r.
    symmetry. apply center_eta.
Qed.

(** X18. The template registry: a registered template is found under its
    id (a second one under the same id replaces the first), the others stay,
    and once unregistered it is gone, so that a [send] naming it is rejected
    with [Template <id> not found] before anything is called. *)
Theorem X18_templates_registry (c : NotificationCenter.t St)
    (template : NotificationTemplate) (tid : string) :
  CenterMethods.getTemplate (registerTemplate c template) (tpl_id template)
  = Some template
  /\ (forall earlier, tpl_id earlier = tpl_id template ->
        CenterMethods.getTemplate
          (registerTemplate (registerTemplate c earlier) template)
          (tpl_id template) = Some template)
  /\ (tid <> tpl_id template ->
      CenterMethods.getTemplate (registerTemplate c template) tid
      = CenterMethods.getTemplate c tid)
  /\ CenterMethods.getTemplate (CenterMethods.unregisterTemplate c tid) tid
     = None
  /\ (forall other, other <> tid ->
        CenterMethods.getTemplate (CenterMethods.unregisterTemplate c tid)
                                  other
        = CenterMethods.getTemplate c other)
  /\ (forall input st,
        in_template input = Some tid -> tid <> EmptyString ->
        send (CenterMethods.unregisterTemplate c tid) input st
        = (Throw (mkError ("Template " +:+ tid +:+ " not found")), st, [])).
Proof.
  unfold CenterMethods.getTemplate, CenterMethods.unregisterTemplate,
    registerTemplate. simpl.
  split; [by rewrite lookup_insert_eq |].
  split; [intros earlier _; by rewrite lookup_insert_eq |].
  split; [intros Hne; by rewrite lookup_insert_ne |].
  split; [by rewrite lookup_delete_eq |].
  split; [intros other Hne; by rewrite lookup_delete_ne |].
  intros input st Hname Hne.
  apply send_build_Throw.
  apply buildNotification_unknown_template; [done | done |].
  simpl. by rewrite lookup_delete_eq.
Qed.

Lemma buildNotification_fields (c : NotificationCenter.t St)
    input st built st0 log0 :
  buildNotification c input st = (Ok built, st0, log0) ->
  scheduledFor built = in_scheduledFor input
  /\ userId built = in_userId input
  /\ status built = st_pending
  /\ st0 = snd (Math_random_base36 st).
Proof.
  unfold buildNotification.
  destruct (truthy_string (in_template input)) eqn:Htruthy.
  - apply truthy_string_true in Htruthy. destruct Htruthy as (tname & Hn & _).
    rewrite Hn. change (default EmptyString (Some tname)) with tname.
    destruct (templates c !! tname) as [tpl |] eqn:Htpl; [| discriminate].
    unfold resolve_text, of_result, bind, gets, ret, generateId.
    destruct (template_text (d_title (defaults tpl)) (in_data input));
      [| discriminate].
    destruct (template_text (d_body (defaults tpl)) (in_data input));
      [| discriminate].
    destruct (Math_random_base36 st) as [suffix st1].
    destruct (in_expiresAt input);
      [| destruct (truthy_number (d_expiresIn (defaults tpl)))];
      by intros [= <- <- <-].
  - unfold bind, gets, ret, generateId.
    destruct (Math_random_base36 st) as [suffix st1].
    by intros [= <- <- <-].
Qed.

(** X19. [schedule(input, when)] with a queue and no [beforeSend] hook:
    [when] replaces whatever [scheduledFor] the input has, the notification
    is stored [pending] and handed to [enqueueDelayed] with the time left
    until [when] (negative when [when] is past), no transport is called, and
    the id returned is the stored notification's,
    [notif_<clock>_<random suffix>]. *)
Theorem X19_schedule_hands_over_with_the_time_left
    (c : NotificationCenter.t St) (q : QueueAdapter.t St) input when
    st nid st' log :
  queue c = Some q ->
  List.filter has_beforeSend (middleware c) = [] ->
  CenterMethods.schedule c input when st = (Ok nid, st', log) ->
  exists built st0 st2 rest,
    buildNotification c (CenterMethods.with_scheduledFor when input) st
    = (Ok built, st0, [])
    /\ StorageAdapter.save (storage c) built st0 = (Ok tt, st2)
    /\ scheduledFor built = Some when
    /\ status built = st_pending
    /\ nid = id built
    /\ nid = "notif_" +:+ pretty (Date_now st) +:+ "_"
             +:+ fst (Math_random_base36 st)
    /\ log = StorageSave built
             :: QueueEnqueueDelayed built (when - Date_now st2) :: rest
    /\ Forall (fun ev => is_transport_call ev = false) log.
Proof.
  intros Hq Hhooks Hrun. unfold CenterMethods.schedule in Hrun.
  apply bind_inv in Hrun.
  destruct Hrun as [(e & _ & [=]) | (n & s1 & l1 & l2 & Hsend & Hret & ->)].
  injection Hret as <- <- <-. rewrite app_nil_r.
  apply send_Ok_inv in Hsend.
  destruct Hsend
    as (built & st0 & kept & st1 & log1 & st2 & o & log3
        & Hb & Hm & Hs & Hd & Hlog).
  unfold applyBeforeSendMiddleware in Hm.
  rewrite (beforeSend_loop_no_hooks _ _ _ Hhooks) in Hm.
  injection Hm as <- <- <-.
  apply dispatch_Ok_inv in Hd as (sA & lA & ts' & Hfirst & -> & Hlog3).
  pose proof (buildNotification_fields _ _ _ _ _ _ Hb)
    as (Hwhen & _ & Hpending & _).
  pose proof (buildNotification_Ok_inv _ _ _ _ _ _ Hb) as [Hid _].
  simpl in Hwhen.
  unfold enqueue_or_sendNow in Hfirst. rewrite Hq, Hwhen in Hfirst.
  rewrite (bind_silent _ _ (built, st2) (Date_now st2) (built, st2))
    in Hfirst by reflexivity.
  apply lift_inv in Hfirst as [Hcall Ho]. simpl in Hcall, Ho. subst n.
  unfold call in Hcall.
  destruct (QueueAdapter.enqueueDelayed q built (when - Date_now st2) st2).
  injection Hcall as _ _ <-.
  eexists built, st0, st2, _.
  split; [done |]. split; [done |]. split; [done |]. split; [done |].
  split; [done |]. split; [done |].
  rewrite Hlog, Hlog3. simpl. split; [reflexivity |].
  constructor; [done |]. constructor; [done |].
  apply Forall_app. split; [| apply Forall_app; split].
  - apply List.Forall_forall. intros ev Hin. apply in_map_iff in Hin.
    by destruct Hin as (m & <- & _).
  - by apply Forall_imap_all.
  - by apply Forall_imap_all.
Qed.

(** X20. A notification without channels: the delivery pass asks for the
    preferences, calls no transport, marks the notification [failed] and
    stores it so; the bundled build of the same pass stores it with the
    status it had. *)
Theorem X20_no_channels_means_failed (c : NotificationCenter.t St)
    (n : Notification) (st : St) :
  channels n = [] ->
  (forall n' st' log,
     sendNow c (n, st) = (Ok tt, (n', st'), log) ->
     n' = set_status st_failed n
     /\ log = [StorageGetPreferences (userId n); StorageSave n'])
  /\ (forall n' st' log,
        sendNow_bundled c (n, st) = (Ok tt, (n', st'), log) ->
        n' = n
        /\ log = [StorageGetPreferences (userId n); StorageSave n]).
Proof.
  intros Hch. split.
  - intros n' st' log Hrun. apply sendNow_Ok_inv in Hrun.
    destruct Hrun as (prefs & st1 & receipts & st2 & calls
                      & _ & Hall & _ & Hn & -> & _ & _ & _ & Hnone).
    rewrite Hch in Hall. simpl in Hall. injection Hall as <- <- <-.
    rewrite (Hnone ltac:(constructor)) in Hn. by subst.
  - intros n' st' log. unfold sendNow_bundled.
    rewrite bind_get_object. rewrite Hch.
    unfold bind, lift, getPreferences, call, get_object, gets, ret. simpl.
    destruct (StorageAdapter.getPreferences (storage c) (userId n) st)
      as [[prefs | e] st1]; [| discriminate].
    simpl. destruct (StorageAdapter.save (storage c) n st1) as [[[] | e] st2];
      [| discriminate].
    by intros [= <- <- <-].
Qed.

End CenterSend.

(* ===================================================================== *)
(** ** The worker *)
(* ===================================================================== *)

Section Worker.
Context {St : Type} `{Runtime St}.
Import NotificationCenter.

Lemma logs_await {A} (P : Event -> Prop) (op : Eff St A) : logs P (await op).
Proof. intros st. unfold await. destruct (op st). constructor. Qed.

Lemma logs_sendNow (P : Event -> Prop) (c : NotificationCenter.t St) :
  (forall uid, P (StorageGetPreferences uid)) ->
  (forall ch n, P (TransportCanSend ch n)) ->
  (forall ch n prefs, P (TransportSend ch n prefs)) ->
  (forall r, P (StorageSaveReceipt r)) ->
  (forall n, P (StorageSave n)) ->
  logs P (sendNow c).
Proof. intros ? ? ? ? ? [n st]. by apply sendNow_log. Qed.

Lemma promise_all_map_Ok_logs {A B} (f : A -> M St B) (l : list A)
    st rs st' log :
  promise_all (map f l) st = (Ok rs, st', log) ->
  Forall2 (fun x r => exists sa sb lg,
                        f x sa = (Ok r, sb, lg)
                        /\ forall ev, In ev lg -> In ev log) l rs.
Proof.
  revert st rs log. induction l as [| x l IH]; intros st rs log Hrun;
    simpl in Hrun.
  - injection Hrun as <- _ _. constructor.
  - destruct (f x st) as [[r s1] l1] eqn:Hx.
    destruct (promise_all (map f l) s1) as [[others s2] l2] eqn:Hrest.
    destruct r as [a | e]; [| discriminate].
    destruct others as [others | e]; [| discriminate].
    injection Hrun as <- <- <-.
    constructor.
    + exists st, s1, l1. split; [done |].
      intros ev Hev. apply in_or_app. by left.
    + eapply Forall2_impl; [exact (IH _ _ _ Hrest) |]. simpl.
      intros y r (sa & sb & lg & Hy & Hin). exists sa, sb, lg.
      split; [done |]. intros ev Hev. apply in_or_app. right. by apply Hin.
Qed.

(** X21. A tick of the worker takes up to [concurrency] notifications from
    the queue and makes one delivery pass for each.  It calls no middleware
    hook, tells no subscriber and puts nothing back on the queue, whatever
    happens; when it completes, each notification taken was stored with the
    outcome of its pass, [failed], [delivered] or [sent] ([sendNow] of
    [notification_center.ts]). *)
Theorem X21_worker_tick_delivers_and_tells_no_one
    (c : NotificationCenter.t St) (q : QueueWorker.t St) (concurrency : Z)
    (st : St) :
  Forall (fun ev => is_hook_call ev = false /\ is_publish ev = false
                    /\ is_enqueue ev = false)
         (snd (CenterMethods.worker_tick c q concurrency st))
  /\ (forall taken st1 st',
        queue c <> None ->
        QueueWorker.dequeueBatch q concurrency st = (Ok taken, st1) ->
        fst (CenterMethods.worker_tick c q concurrency st) = (Ok tt, st') ->
        Forall (fun n =>
                  exists outcome,
                    (outcome = st_failed \/ outcome = st_delivered
                     \/ outcome = st_sent)
                    /\ In (StorageSave (set_status outcome n))
                          (snd (CenterMethods.worker_tick c q concurrency st)))
               taken).
Proof.
  split.
  - assert (logs (fun ev => is_hook_call ev = false /\ is_publish ev = false
                            /\ is_enqueue ev = false)
                 (CenterMethods.worker_tick c q concurrency)) as Hlogs;
      [| apply Hlogs].
    unfold CenterMethods.worker_tick.
    destruct (queue c); [| apply logs_ret].
    apply logs_bind; [apply logs_await |].
    intros taken. apply logs_bind; [| intros; apply logs_ret].
    apply logs_promise_all. apply List.Forall_forall. intros m Hm.
    apply in_map_iff in Hm as (n & <- & _).
    apply logs_with_object. by apply logs_sendNow.
  - intros taken st1 st' Hq Htaken Hrun.
    unfold CenterMethods.worker_tick in *.
    destruct (queue c) as [queue |]; [| done]. clear Hq.
    unfold bind, await in *. rewrite Htaken in *.
    destruct (promise_all _ st1) as [[[finals | e] st2] log] eqn:Hall;
      [| discriminate].
    simpl in *. rewrite app_nil_r.
    apply promise_all_map_Ok_logs in Hall.
    clear -Hall. induction Hall as [| n r taken rs Hn _ IH]; constructor;
      [| exact IH].
    destruct Hn as (sa & sb & lg & Hpass & Hin).
    unfold with_object in Hpass.
    destruct (sendNow c (n, sa)) as [[r' [n' sb']] lg'] eqn:Hsend.
    injection Hpass as -> <- <-. destruct r.
    apply sendNow_Ok_status in Hsend as (receipts & calls & -> & _ & ->).
    exists (aggregate receipts). split; [apply aggregate_cases |].
    apply Hin. right. apply in_or_app. right. by left.
Qed.

End Worker.

(* ===================================================================== *)
(** ** [start] and [stop] *)
(* ===================================================================== *)

Section LifecycleProofs.
Context {St : Type} `{Runtime St}.

Lemma start_when_running (c : NotificationCenter.t St) (q : QueueWorker.t St)
    cfg life st :
  isRunning life = true ->
  CenterMethods.start c q cfg (life, st) = (Ok tt, (life, st), []).
Proof.
  intros Hrun. unfold CenterMethods.start. unfold bind at 1.
  unfold get_local, gets. simpl. by rewrite Hrun.
Qed.

Lemma stop_when_stopped (c : NotificationCenter.t St) (q : QueueWorker.t St)
    life st :
  isRunning life = false ->
  CenterMethods.stop c q (life, st) = (Ok tt, (life, st), []).
Proof.
  intros Hrun. unfold CenterMethods.stop. unfold bind at 1.
  unfold get_local, gets. simpl. by rewrite Hrun.
Qed.

Lemma start_run (c : NotificationCenter.t St) (q : QueueWorker.t St)
    cfg life st :
  isRunning life = false ->
  CenterMethods.start c q cfg (life, st)
  = let life1 := CenterMethods.set_isRunning true life in
    let finish := fun l => if truthy_bool (cleanup cfg ≫= c_enabled)
                           then CenterMethods.startCleanup cfg l else l in
    match NotificationCenter.queue c with
    | Some _ =>
        match QueueWorker.start q st with
        | (Ok _, st1) =>
            (Ok tt,
             (finish
                (if negb (bool_decide (workers cfg ≫= w_enabled = Some false))
                 then CenterMethods.startWorker cfg life1 else life1),
              st1), [])
        | (Throw e, st1) => (Throw e, (life1, st1), [])
        end
    | None => (Ok tt, (finish life1, st), [])
    end.
Proof.
  intros Hrun. unfold CenterMethods.start.
  cbv beta iota delta [negb fst snd bind set_local beside await ret
                       get_local gets].
  rewrite Hrun. cbv beta iota zeta.
  destruct (NotificationCenter.queue c) as [queue |].
  - destruct (QueueWorker.start q st) as [[[] | e] st1]; [| done].
    destruct (bool_decide (workers cfg ≫= w_enabled = Some false));
      by destruct (truthy_bool (cleanup cfg ≫= c_enabled)).
  - by destruct (truthy_bool (cleanup cfg ≫= c_enabled)).
Qed.

Lemma stop_run (c : NotificationCenter.t St) (q : QueueWorker.t St)
    life st :
  isRunning life = true ->
  CenterMethods.stop c q (life, st)
  = let life1 :=
      {| isRunning := false; workerInterval := None;
         timers := match workerInterval life with
                   | Some handle => clearInterval handle (timers life)
                   | None => timers life
                   end |} in
    match NotificationCenter.queue c with
    | Some _ =>
        match QueueWorker.stop q st with
        | (r, st1) => (r, (life1, st1), [])
        end
    | None => (Ok tt, (life1, st), [])
    end.
Proof.
  intros Hrun. unfold CenterMethods.stop.
  cbv beta iota delta [negb fst snd bind set_local beside await ret
                       get_local gets].
  rewrite Hrun. cbv beta iota zeta.
  destruct (workerInterval life) as [handle |] eqn:Hw.
  - destruct (NotificationCenter.queue c) as [queue |]; [| done].
    by destruct (QueueWorker.stop q st) as [[[] | e] st1].
  - destruct (NotificationCenter.queue c) as [queue |].
    + unfold CenterMethods.set_isRunning. rewrite Hw.
      by destruct (QueueWorker.stop q st) as [[[] | e] st1].
    + unfold CenterMethods.set_isRunning. by rewrite Hw.
Qed.

Lemma tidy_never_started : tidy never_started.
Proof. repeat split; simpl; try by constructor. done. Qed.

Lemma tidy_set_isRunning_true life :
  tidy life -> tidy (CenterMethods.set_isRunning true life).
Proof. intros (? & ? & ? & ? & ?). by repeat split. Qed.

Lemma NoDup_handles_fresh (t : Timers) job ms :
  NoDup (map fst (running t)) ->
  Forall (fun entry => (fst entry < fresh t)%nat) (running t) ->
  NoDup (map fst (running t ++ [(fresh t, (job, ms))]))
  /\ Forall (fun entry => (fst entry < Datatypes.S (fresh t))%nat)
            (running t ++ [(fresh t, (job, ms))]).
Proof.
  intros Hnd Hold. split.
  - rewrite map_app. simpl. apply NoDup_app. split; [done |]. split.
    + intros h Hh [<- | []]%list_elem_of_In.
      apply list_elem_of_In, in_map_iff in Hh as (entry & Hfst & Hin).
      pose proof (proj1 (List.Forall_forall _ _) Hold entry Hin) as Hlt.
      simpl in Hlt. lia.
    + apply NoDup_singleton.
  - apply Forall_app. split.
    + eapply List.Forall_impl; [| exact Hold]. simpl. intros; lia.
    + constructor; [simpl; lia | constructor].
Qed.

Lemma tidy_startCleanup cfg life :
  tidy life -> tidy (CenterMethods.startCleanup cfg life).
Proof.
  intros (Hnd & Hold & Hworker & Hstopped & Hhandle).
  unfold CenterMethods.startCleanup, setInterval, tidy. simpl.
  destruct (NoDup_handles_fresh (timers life) CleanupJob
              (if truthy_number (cleanup cfg ≫= c_interval)
               then default 0 (cleanup cfg ≫= c_interval) else 3600000)
              Hnd Hold) as [Hnd' Hold'].
  split; [done |]. split; [done |]. split; [| split; [done |]].
  - apply Forall_app. split; [done |]. constructor; [| constructor].
    simpl. split; [done |]. intros Hw. apply Hhandle in Hw. lia.
  - intros handle Hw. apply Hhandle in Hw. lia.
Qed.

Lemma tidy_startWorker cfg life :
  tidy life -> isRunning life = true -> workerInterval life = None ->
  tidy (CenterMethods.startWorker cfg life).
Proof.
  intros (Hnd & Hold & Hworker & Hstopped & Hhandle) Hrun Hnone.
  unfold CenterMethods.startWorker, setInterval, tidy. simpl.
  set (ms := if truthy_number (workers cfg ≫= w_pollInterval) then _ else _).
  set (k := if truthy_number (workers cfg ≫= w_concurrency) then _ else _).
  destruct (NoDup_handles_fresh (timers life) (WorkerJob k) ms Hnd Hold)
    as [Hnd' Hold'].
  split; [done |]. split; [done |].
  split; [| split; [by rewrite Hrun | intros handle [= <-]; lia]].
  apply Forall_app. split; [| by constructor].
  apply List.Forall_forall. intros entry Hin.
  pose proof (proj1 (List.Forall_forall _ _) Hworker entry Hin) as Hentry.
  pose proof (proj1 (List.Forall_forall _ _) Hold entry Hin) as Hlt.
  simpl in Hentry, Hlt. rewrite Hnone in Hentry. split.
  - intros Hjob. apply Hentry in Hjob. discriminate.
  - intros [= Hsame]. lia.
Qed.

Lemma tidy_stopped life :
  tidy life ->
  tidy {| isRunning := false; workerInterval := None;
          timers := match workerInterval life with
                    | Some handle => clearInterval handle (timers life)
                    | None => timers life
                    end |}.
Proof.
  intros (Hnd & Hold & Hworker & Hstopped & Hhandle). unfold tidy. simpl.
  destruct (workerInterval life) as [handle |] eqn:Hw; simpl.
  - split.
    { clear -Hnd. induction (running (timers life)) as [| entry l IH];
        simpl; [constructor |].
      apply NoDup_cons in Hnd as [Hnotin Hnd].
      destruct (negb (Nat.eqb (fst entry) handle)); simpl; [| by apply IH].
      constructor; [| by apply IH].
      intros Hin. apply Hnotin.
      apply list_elem_of_In, in_map_iff in Hin as (e' & Hfst & Hin).
      apply filter_In in Hin as [Hin _].
      apply list_elem_of_In, in_map_iff. by exists e'. }
    split.
    { apply List.Forall_forall. intros entry Hin.
      apply filter_In in Hin as [Hin _].
      by apply (proj1 (List.Forall_forall _ _) Hold). }
    split; [| done].
    apply List.Forall_forall. intros entry Hin. split; [| done].
    intros Hjob. apply filter_In in Hin as [Hin Hne].
    pose proof (proj1 (proj1 (List.Forall_forall _ _) Hworker entry Hin) Hjob)
      as Hsame.
    simpl in Hsame. injection Hsame as Hsame.
    simpl in Hne. rewrite <- Hsame, Nat.eqb_refl in Hne. discriminate.
  - split; [done |]. split; [done |]. split; [| done].
    apply List.Forall_forall. intros entry Hin. split; [| done].
    intros Hjob.
    pose proof (proj1 (proj1 (List.Forall_forall _ _) Hworker entry Hin) Hjob).
    congruence.
Qed.

Lemma tidy_call (c : NotificationCenter.t St) (q : QueueWorker.t St) cfg
    call life st :
  tidy life ->
  tidy (fst (snd (fst (lifecycle_call c q cfg call (life, st))))).
Proof.
  intros Htidy. destruct call; simpl.
  - destruct (isRunning life) eqn:Hrun.
    + by rewrite start_when_running.
    + rewrite start_run by done. cbv zeta.
      assert (tidy (CenterMethods.set_isRunning true life)) as Hlife1
        by (by apply tidy_set_isRunning_true).
      assert (forall l, tidy l ->
                tidy (if truthy_bool (cleanup cfg ≫= c_enabled)
                      then CenterMethods.startCleanup cfg l else l))
        as Hfinish.
      { intros l Hl. destruct (truthy_bool _); [| done].
        by apply tidy_startCleanup. }
      destruct (NotificationCenter.queue c) as [queue |];
        [| by apply Hfinish].
      destruct (QueueWorker.start q st) as [[[] | e] st1]; [| done].
      simpl. apply Hfinish.
      destruct (bool_decide _); simpl; [done |].
      apply tidy_startWorker; [done | done |]. simpl.
      destruct Htidy as (_ & _ & _ & Hstopped & _). by apply Hstopped.
  - destruct (isRunning life) eqn:Hrun.
    + rewrite stop_run by done. cbv zeta.
      destruct (NotificationCenter.queue c) as [queue |].
      * destruct (QueueWorker.stop q st) as [r st1]. simpl.
        by apply tidy_stopped.
      * by apply tidy_stopped.
    + by rewrite stop_when_stopped.
Qed.

Lemma tidy_calls (c : NotificationCenter.t St) (q : QueueWorker.t St) cfg
    calls s :
  tidy (fst s) -> tidy (fst (lifecycle_calls c q cfg calls s)).
Proof.
  revert s. induction calls as [| call calls IH]; intros [life st] Htidy;
    [done |].
  simpl. apply IH.
  destruct (lifecycle_call c q cfg call (life, st)) as [[r [life' st']] log]
    eqn:Hcall.
  pose proof (tidy_call c q cfg call life st Htidy) as Hnext.
  by rewrite Hcall in Hnext.
Qed.



Lemma count_cleanup_stopped life :
  tidy life ->
  count_jobs is_cleanup_job
    (match workerInterval life with
     | Some handle => clearInterval handle (timers life)
     | None => timers life
     end)
  = count_jobs is_cleanup_job (timers life).
Proof.
  intros (_ & _ & Hworker & _ & _).
  destruct (workerInterval life) as [handle |]; [| done].
  unfold count_jobs, clearInterval. simpl.
  induction (running (timers life)) as [| entry l IH]; [done |].
  apply Forall_cons in Hworker as [Hentry Hworker]. simpl.
  destruct (Nat.eqb_spec (fst entry) handle) as [<- | Hne]; simpl.
  - assert (is_worker_job entry = true) as Hjob by (by apply Hentry).
    assert (is_cleanup_job entry = false) as ->.
    { unfold is_worker_job in Hjob. unfold is_cleanup_job.
      by destruct (fst (snd entry)). }
    by apply IH.
  - destruct (is_cleanup_job entry); simpl; [f_equal |]; by apply IH.
Qed.

(** X23. The cleanup interval is never cleared.  From any state a center
    reaches through calls of [start] and [stop]: a [stop] leaves every
    cleanup interval running, and with cleanup enabled every [start] of the
    stopped center that resolves sets one more. *)
Theorem X23_stop_leaves_the_cleanup_running (c : NotificationCenter.t St)
    (q : QueueWorker.t St) (cfg : Settings) (calls : list LifecycleCall)
    (st : St) :
  let life := fst (lifecycle_calls c q cfg calls (never_started, st)) in
  (forall st1,
     count_jobs is_cleanup_job
       (timers (fst (snd (fst (CenterMethods.stop c q (life, st1))))))
     = count_jobs is_cleanup_job (timers life))
  /\ (forall st1 after st2,
        isRunning life = false ->
        truthy_bool (cleanup cfg ≫= c_enabled) = true ->
        CenterMethods.start c q cfg (life, st1) = (Ok tt, (after, st2), []) ->
        count_jobs is_cleanup_job (timers after)
        = Datatypes.S (count_jobs is_cleanup_job (timers life))).
Proof.
  intros life.
  assert (tidy life) as Htidy
    by (apply tidy_calls; apply tidy_never_started).
  split.
  - intros st1. destruct (isRunning life) eqn:Hrun.
    + rewrite stop_run by done. cbv zeta.
      destruct (NotificationCenter.queue c) as [queue |].
      * destruct (QueueWorker.stop q st1) as [r st2]. simpl.
        by apply count_cleanup_stopped.
      * simpl. by apply count_cleanup_stopped.
    + by rewrite stop_when_stopped.
  - intros st1 after st2 Hrun Hcleanup Hstart.
    rewrite start_run in Hstart by done. cbv zeta in Hstart.
    rewrite Hcleanup in Hstart.
    assert (forall l,
              count_jobs is_cleanup_job
                (timers (CenterMethods.startCleanup cfg l))
              = Datatypes.S (count_jobs is_cleanup_job (timers l)))
      as Hmore.
    { intros l. unfold CenterMethods.startCleanup, setInterval, count_jobs.
      simpl. rewrite List.filter_app, length_app. simpl. lia. }
    assert (forall l,
              count_jobs is_cleanup_job
                (timers (CenterMethods.startWorker cfg l))
              = count_jobs is_cleanup_job (timers l)) as Hsame.
    { intros l. unfold CenterMethods.startWorker, setInterval, count_jobs.
      simpl. rewrite List.filter_app, length_app. simpl. lia. }
    destruct (NotificationCenter.queue c) as [queue |].
    + destruct (QueueWorker.start q st1) as [[[] | e] st1']; [| done].
      injection Hstart as <- _. rewrite Hmore.
      destruct (negb _); [by rewrite Hsame | done].
    + injection Hstart as <- _. by rewrite Hmore.
Qed.

(** X24. A [start] whose queue refuses to start rejects with the queue's
    error and leaves the center marked as running with no interval set:
    until [stop] is called, a further [start] does nothing. *)
Theorem X24_failed_start_blocks_the_next (c : NotificationCenter.t St)
    (q : QueueWorker.t St) (queue : QueueAdapter.t St) (cfg : Settings)
    (life : Lifecycle) (st st1 : St) (e : JsError) :
  NotificationCenter.queue c = Some queue ->
  isRunning life = false ->
  QueueWorker.start q st = (Throw e, st1) ->
  CenterMethods.start c q cfg (life, st)
  = (Throw e, (CenterMethods.set_isRunning true life, st1), [])
  /\ timers (CenterMethods.set_isRunning true life) = timers life
  /\ (forall st2,
        CenterMethods.start c q cfg
          (CenterMethods.set_isRunning true life, st2)
        = (Ok tt, (CenterMethods.set_isRunning true life, st2), [])).
Proof.
  intros Hq Hrun Hstart. split; [| split; [done |]].
  - rewrite start_run by done. cbv zeta. by rewrite Hq, Hstart.
  - intros st2. by apply start_when_running.
Qed.

End LifecycleProofs.

(* ===================================================================== *)
(** ** The center on the memory storage *)
(* ===================================================================== *)

Section MemoryCenter.
Import MemoryStorageAdapter MemoryStorageQueries.

Lemma with_mem_id (h : Host) : with_mem (fun m => m) h = h.
Proof. by destruct h. Qed.

(** X25. [updatePreferences] on the memory storage merges one level deep:
    a field the update names replaces the stored one whole (so the settings
    of the channels the update does not list are gone), a field it leaves
    out is kept, [userId] is the user of the call and [updatedAt] the clock
    whatever the update says, and what [getPreferences] then returns is this
    merge; the preferences of other users stay. *)
Theorem X25_updatePreferences_merges_one_level
    (c : NotificationCenter.t Host) (uid : string)
    (prefs : PartialPreferences) (h : Host) :
  NotificationCenter.storage c = memory_storage ->
  let current := getPreferences uid (mem h) in
  let after :=
    snd (fst (CenterMethods.updatePreferences c memory_queries uid prefs h)) in
  CenterMethods.updatePreferences c memory_queries uid prefs h
  = (Ok tt, after, [StorageGetPreferences uid])
  /\ getPreferences uid (mem after)
     = {| pref_userId := uid;
          pref_channels := match pp_channels prefs with
                           | Some given => given
                           | None => pref_channels current
                           end;
          globalMute := match pp_globalMute prefs with
                        | Some given => given
                        | None => globalMute current
                        end;
          updatedAt := Some (clock h);
          pref_data := match pp_data prefs with
                       | Some given => given
                       | None => pref_data current
                       end |}
  /\ (forall other, other <> uid ->
        getPreferences other (mem after) = getPreferences other (mem h))
  /\ notifications (mem after) = notifications (mem h)
  /\ receipts (mem after) = receipts (mem h).
Proof.
  intros Hstorage current after. subst after.
  unfold CenterMethods.updatePreferences, NotificationCenter.getPreferences.
  rewrite Hstorage.
  cbv beta iota delta [bind call gets await memory_storage memory_queries
                       StorageAdapter.getPreferences
                       StorageQueries.savePreferences fst snd].
  simpl. fold current.
  split; [done |]. unfold getPreferences. simpl.
  split.
  - rewrite lookup_insert_eq. simpl. unfold CenterMethods.merge_preferences.
    by destruct (pp_channels prefs), (pp_globalMute prefs), (pp_data prefs).
  - split; [| done]. intros other Hne. by rewrite lookup_insert_ne.
Qed.

Lemma with_mem_same (f : MemoryStorageAdapter.t -> MemoryStorageAdapter.t)
    (h : Host) :
  f (mem h) = mem h -> with_mem f h = h.
Proof. intros Hf. unfold with_mem. rewrite Hf. by destruct h. Qed.

(** [markAsRead] of the center on the memory storage, step by step. *)
Lemma center_markAsRead_run (c : NotificationCenter.t Host) nid h :
  NotificationCenter.storage c = memory_storage ->
  CenterMethods.markAsRead c memory_queries nid h
  = let h1 := with_mem (markAsRead nid (clock h)) h in
    match findById nid (mem h1) with
    | None => (Ok tt, h1, [StorageFindById nid])
    | Some marked =>
        match NotificationCenter.notifyEventSubscribers c
                {| ev_type := ev_read; ev_notification := marked;
                   timestamp := clock h |} h1 with
        | (Ok _, h2, pubs) =>
            match NotificationCenter.notifyUnreadSubscribers c
                    (userId marked) (countUnread (userId marked) (mem h2))
                    h2 with
            | (r3, h3, upubs) =>
                (r3, h3,
                 StorageFindById nid
                 :: pubs ++ StorageCountUnread (userId marked) :: upubs)
            end
        | (Throw e, h2, pubs) => (Throw e, h2, StorageFindById nid :: pubs)
        end
    end.
Proof.
  intros Hstorage. unfold CenterMethods.markAsRead. rewrite Hstorage.
  cbv beta iota zeta delta [bind call gets await memory_storage memory_queries
                            StorageAdapter.findById StorageAdapter.countUnread
                            StorageQueries.markAsRead ret].
  set (h1 := with_mem (markAsRead nid (clock h)) h).
  destruct (findById nid (mem h1)) as [marked |]; [| done].
  change (Date_now h1) with (clock h).
  destruct (NotificationCenter.notifyEventSubscribers c _ h1)
    as [[[[] | e] h2] pubs]; [| done].
  destruct (NotificationCenter.notifyUnreadSubscribers c _ _ h2)
    as [[r3 h3] upubs].
  reflexivity.
Qed.

(** X26. [markAsRead] of the center on the memory storage.  For an id that
    is not stored it resolves and tells no one.  For a stored notification,
    every event published is the [read] event carrying the notification as
    now stored ([read], [readAt] the clock), also when it had been read
    before; when the call resolves, the event subscribers of its user were
    told first, then the storage was asked for the unread count and the
    count subscribers were told; with no event subscriber in between, that
    count is the old one, less one when the notification was unread. *)
Theorem X26_center_markAsRead_tells_the_owner
    (c : NotificationCenter.t Host) (nid : string) (h : Host) :
  NotificationCenter.storage c = memory_storage ->
  (findById nid (mem h) = None ->
   CenterMethods.markAsRead c memory_queries nid h
   = (Ok tt, h, [StorageFindById nid]))
  /\ (forall n r h' log,
        findById nid (mem h) = Some n ->
        CenterMethods.markAsRead c memory_queries nid h = (r, h', log) ->
        let event := {| ev_type := ev_read;
                        ev_notification := mark_read (clock h) n;
                        timestamp := clock h |} in
        (forall uid k ev, In (PublishEvent uid k ev) log ->
                          uid = userId n /\ ev = event)
        /\ (r = Ok tt ->
            exists count,
              log = StorageFindById nid
                    :: imap (fun k _ => PublishEvent (userId n) k event)
                            (default [] (NotificationCenter.eventSubscribers c
                                           !! userId n))
                    ++ StorageCountUnread (userId n)
                    :: imap (fun k _ => PublishUnread (userId n) k count)
                            (default [] (NotificationCenter.unreadSubscribers c
                                           !! userId n))
              /\ (NotificationCenter.eventSubscribers c !! userId n = None ->
                  count = countUnread (userId n) (mem h)
                          - (if bool_decide (status n = st_read)
                             then 0 else 1)))).
Proof.
  intros Hstorage. split.
  - intros Hnone. rewrite center_markAsRead_run by done. cbv zeta.
    assert (with_mem (markAsRead nid (clock h)) h = h) as ->.
    { apply with_mem_same. unfold markAsRead.
      unfold findById in Hnone. by rewrite Hnone. }
    by rewrite Hnone.
  - intros n r h' log Hn Hrun event.
    rewrite center_markAsRead_run in Hrun by done. cbv zeta in Hrun.
    set (h1 := with_mem (markAsRead nid (clock h)) h) in *.
    assert (findById nid (mem h1) = Some (mark_read (clock h) n)) as Hfound.
    { unfold h1, findById. simpl. unfold findById in Hn.
      rewrite (markAsRead_found _ _ _ _ Hn). simpl.
      by rewrite lookup_insert_eq. }
    rewrite Hfound in Hrun. fold event in Hrun.
    change (userId (mark_read (clock h) n)) with (userId n) in Hrun.
    destruct (NotificationCenter.notifyEventSubscribers c event h1)
      as [[r2 h2] pubs] eqn:Hpub.
    assert (Forall (fun ev => exists k, ev = PublishEvent (userId n) k event)
                   pubs) as Hpubs.
    { pose proof (logs_notifyEventSubscribers
                    (fun ev => exists k, ev = PublishEvent (userId n) k event)
                    c event) as Hlogs.
      specialize (Hlogs (fun k => ex_intro _ k eq_refl) h1).
      by rewrite Hpub in Hlogs. }
    destruct r2 as [[] | e].
    + destruct (NotificationCenter.notifyUnreadSubscribers c (userId n)
                  (countUnread (userId n) (mem h2)) h2)
        as [[r3 h3] upubs] eqn:Hunread.
      injection Hrun as <- <- <-. split.
      * intros uid k ev [Hin | Hin]; [discriminate |].
        apply in_app_or in Hin as [Hin | [Hin | Hin]]; [| discriminate |].
        -- apply (proj1 (List.Forall_forall _ _) Hpubs) in Hin as [k' Hin].
           by injection Hin as -> _ ->.
        -- pose proof (logs_notifyUnreadSubscribers_any c (userId n)
                         (countUnread (userId n) (mem h2)) h2) as Hlogs.
           rewrite Hunread in Hlogs.
           apply (proj1 (List.Forall_forall _ _) Hlogs) in Hin as (k' & Hin).
           discriminate.
      * intros ->. exists (countUnread (userId n) (mem h2)).
        apply notifyEventSubscribers_Ok in Hpub as Hpubs_eq.
        apply notifyUnreadSubscribers_Ok in Hunread as Hupubs_eq.
        simpl in Hpubs_eq. rewrite Hpubs_eq, Hupubs_eq.
        split; [done |].
        intros Hnone. unfold NotificationCenter.notifyEventSubscribers in Hpub.
        simpl in Hpub. rewrite Hnone in Hpub. injection Hpub as <- _.
        unfold h1. simpl. unfold findById in Hn.
        by apply countUnread_markAsRead.
    + injection Hrun as <- <- <-. split; [| discriminate].
      intros uid k ev [Hin | Hin]; [discriminate |].
      apply (proj1 (List.Forall_forall _ _) Hpubs) in Hin as [k' Hin].
      by injection Hin as -> _ ->.
Qed.

Lemma promise_all_deletes (c : NotificationCenter.t Host)
    (ns : list Notification) (h : Host) :
  NotificationCenter.storage c = memory_storage ->
  promise_all
    (map (fun notif =>
            call (StorageDelete (id notif))
                 (StorageAdapter.delete (NotificationCenter.storage c)
                                        (id notif))) ns) h
  = (Ok (map (fun _ => tt) ns),
     with_mem (fun m => fold_left (fun acc n => delete (id n) acc) ns m) h,
     map (fun n => StorageDelete (id n)) ns).
Proof.
  intros Hstorage. rewrite Hstorage. revert h.
  induction ns as [| n ns IH]; intros h.
  - simpl. unfold ret. by rewrite with_mem_id.
  - cbn [map promise_all]. unfold call at 1. simpl StorageAdapter.delete.
    cbv beta iota. rewrite IH. reflexivity.
Qed.

Lemma fold_delete_all (l : list Notification) m :
  (forall k, notifications (fold_left (fun acc n => delete (id n) acc) l m)
             !! k
             = if bool_decide (k ∈ map id l) then None
               else notifications m !! k)
  /\ (forall k, receipts (fold_left (fun acc n => delete (id n) acc) l m) !! k
                = if bool_decide (k ∈ map id l) then None
                  else receipts m !! k)
  /\ preferences (fold_left (fun acc n => delete (id n) acc) l m)
     = preferences m.
Proof.
  revert m. induction l as [| n l IH]; intros m; cbn [fold_left].
  - by repeat split.
  - destruct (IH (delete (id n) m)) as (Hn & Hr & Hp).
    assert (forall {V} (before : gmap string V) k,
              (if bool_decide (k ∈ map id l) then None
               else base.delete (id n) before !! k)
              = if bool_decide (k ∈ map id (n :: l)) then None
                else before !! k) as Hstep.
    { intros V before k.
      destruct (bool_decide (k ∈ map id l)) eqn:Hin.
      - apply bool_decide_eq_true in Hin.
        by rewrite bool_decide_eq_true_2 by (by right).
      - apply bool_decide_eq_false in Hin. simpl.
        destruct (decide (id n = k)) as [<- | Hne].
        + rewrite bool_decide_eq_true_2 by left. apply lookup_delete_eq.
        + rewrite lookup_delete_ne by done.
          rewrite bool_decide_eq_false_2; [reflexivity |].
          intros Hk. apply elem_of_cons in Hk. destruct Hk; congruence. }
    split; [intros k; rewrite Hn; apply Hstep |].
    split; [intros k; rewrite Hr; apply Hstep | by rewrite Hp].
Qed.

Lemma id_of_the_users m uid k :
  well_keyed m ->
  k ∈ map id (findByUser uid (Some no_filters) m)
  <-> exists n, notifications m !! k = Some n /\ userId n = uid.
Proof.
  intros Hkeys. rewrite list_elem_of_In, in_map_iff. split.
  - intros (n & <- & Hin). apply findByUser_all_In in Hin as [Hin Hu].
    apply in_values in Hin as (k' & Hk').
    exists n. split; [| done]. by rewrite (Hkeys _ _ Hk').
  - intros (n & Hk & Hu). exists n. split; [by apply Hkeys |].
    apply findByUser_all_In. split; [apply in_values; eauto | done].
Qed.

(** X27. [deleteAll] and [markAllAsRead] of the center publish an unread
    count of 0 without asking the storage; on the memory storage that is the
    count.  When [deleteAll] starts telling the subscribers, it has called
    [delete] for each notification of the user: those and their receipts are
    gone, the user has nothing unread, and the notifications, receipts and
    counts of other users are as before.  When [markAllAsRead] starts
    telling them, the user has nothing unread. *)
Theorem X27_zero_is_the_count_left (c : NotificationCenter.t Host)
    (uid : string) (h : Host) :
  NotificationCenter.storage c = memory_storage ->
  well_keyed (mem h) ->
  let gone := findByUser uid (Some no_filters) (mem h) in
  let h1 := with_mem (fun m => fold_left (fun acc n => delete (id n) acc)
                                         gone m) h in
  let h2 := with_mem (markAllAsRead uid (clock h)) h in
  CenterMethods.deleteAll c memory_queries uid h
  = (fst (fst (NotificationCenter.notifyUnreadSubscribers c uid 0 h1)),
     snd (fst (NotificationCenter.notifyUnreadSubscribers c uid 0 h1)),
     map (fun n => StorageDelete (id n)) gone
     ++ snd (NotificationCenter.notifyUnreadSubscribers c uid 0 h1))
  /\ (forall k n, notifications (mem h) !! k = Some n ->
        notifications (mem h1) !! k
        = (if bool_decide (userId n = uid) then None else Some n)
        /\ getReceipts k (mem h1)
           = if bool_decide (userId n = uid) then []
             else getReceipts k (mem h))
  /\ (forall k, notifications (mem h) !! k = None ->
        notifications (mem h1) !! k = None)
  /\ countUnread uid (mem h1) = 0
  /\ (forall other, other <> uid ->
        countUnread other (mem h1) = countUnread other (mem h))
  /\ CenterMethods.markAllAsRead c memory_queries uid h
     = NotificationCenter.notifyUnreadSubscribers c uid 0 h2
  /\ countUnread uid (mem h2) = 0.
Proof.
  intros Hstorage Hkeys gone h1 h2.
  destruct (fold_delete_all gone (mem h)) as (Hn & Hr & Hp).
  assert (forall k n, notifications (mem h) !! k = Some n ->
            bool_decide (k ∈ map id gone) = bool_decide (userId n = uid))
    as Hgone.
  { intros k n Hk. apply bool_decide_ext. unfold gone.
    rewrite (id_of_the_users _ _ _ Hkeys). split.
    - intros (n' & Hk' & Hu). congruence.
    - intros Hu. by exists n. }
  assert (forall k, notifications (mem h1) !! k
                    = match notifications (mem h) !! k with
                      | Some n => if negb (bool_decide (userId n = uid))
                                  then Some n else None
                      | None => None
                      end) as Hleft.
  { intros k. unfold h1. simpl. rewrite Hn.
    destruct (notifications (mem h) !! k) as [n |] eqn:Hk.
    - rewrite (Hgone _ _ Hk). by destruct (bool_decide (userId n = uid)).
    - by destruct (bool_decide _). }
  split.
  { unfold CenterMethods.deleteAll.
    cbv beta iota zeta delta [bind await memory_queries
                              StorageQueries.findByUser].
    fold gone. rewrite (promise_all_deletes c gone h Hstorage). fold h1.
    destruct (NotificationCenter.notifyUnreadSubscribers c uid 0 h1)
      as [[r h'] pubs].
    reflexivity. }
  split.
  { intros k n Hk. split.
    - rewrite Hleft, Hk. by destruct (bool_decide (userId n = uid)).
    - unfold getReceipts, h1. simpl. rewrite Hr, (Hgone _ _ Hk).
      by destruct (bool_decide (userId n = uid)). }
  split; [intros k Hk; by rewrite Hleft, Hk |].
  split.
  { rewrite countUnread_count.
    rewrite (count_stored_kept
               (fun n => negb (bool_decide (userId n = uid)))
               (is_unread_of uid) (notifications (mem h)) _ Hleft).
    rewrite count_stored_none; [done |].
    intros k n _. unfold is_unread_of.
    by destruct (bool_decide (userId n = uid)). }
  split.
  { intros other Hother. rewrite !countUnread_count. f_equal.
    rewrite (count_stored_kept
               (fun n => negb (bool_decide (userId n = uid)))
               (is_unread_of other) (notifications (mem h)) _ Hleft).
    apply count_stored_ext. intros k n _. unfold is_unread_of.
    destruct (bool_decide (userId n = uid)) eqn:Hu; [| done].
    apply bool_decide_eq_true in Hu. simpl.
    by rewrite bool_decide_eq_false_2 by congruence. }
  split.
  { unfold CenterMethods.markAllAsRead.
    cbv beta iota zeta delta [bind await memory_queries
                              StorageQueries.markAllAsRead].
    fold h2.
    by destruct (NotificationCenter.notifyUnreadSubscribers c uid 0 h2)
      as [[r h'] pubs]. }
  unfold h2. simpl. by apply countUnread_markAllAsRead.
Qed.

Lemma count_one_lookup {K : Type} `{Countable K} (key k : K)
    (counts : gmap K Z) :
  count_one key counts !! k
  = if bool_decide (key = k) then Some (default 0 (counts !! k) + 1)
    else counts !! k.
Proof.
  unfold count_one. destruct (decide (key = k)) as [<- | Hne].
  - by rewrite lookup_insert_eq, bool_decide_eq_true_2.
  - by rewrite lookup_insert_ne, bool_decide_eq_false_2.
Qed.

(** What a loop of [counts[key] = (counts[key] || 0) + 1] leaves under a
    key: nothing when the key was never met, else how often it was. *)
Lemma count_one_fold {K : Type} `{Countable K} {A : Type} (key : A -> K)
    (l : list A) (counts : gmap K Z) (k : K) :
  fold_left (fun m x => count_one (key x) m) l counts !! k
  = match counts !! k,
          length (List.filter (fun x => bool_decide (key x = k)) l) with
    | None, O => None
    | before, seen => Some (default 0 before + Z.of_nat seen)
    end.
Proof.
  revert counts. induction l as [| x l IH]; intros counts; cbn [fold_left].
  - simpl. destruct (counts !! k); simpl; [f_equal; lia | done].
  - rewrite IH, count_one_lookup. cbn [List.filter].
    destruct (bool_decide (key x = k)); cbn [length].
    + destruct (counts !! k) as [v |]; simpl;
        destruct (length _); f_equal; lia.
    + done.
Qed.

Lemma count_one_from_empty {K : Type} `{Countable K} {A : Type}
    (key : A -> K) (l : list A) (k : K) :
  default 0 (fold_left (fun m x => count_one (key x) m) l ∅ !! k)
  = Z.of_nat (length (List.filter (fun x => bool_decide (key x = k)) l))
  /\ fold_left (fun m x => count_one (key x) m) l ∅ !! k <> Some 0.
Proof.
  rewrite count_one_fold, lookup_empty.
  destruct (length (List.filter _ l)) as [| seen]; simpl.
  - split; [reflexivity | discriminate].
  - split; [lia | discriminate].
Qed.

Lemma count_notification_fold (all : list Notification)
    (stats : NotificationStats) :
  total (fold_left CenterMethods.count_notification all stats) = total stats
  /\ unread (fold_left CenterMethods.count_notification all stats)
     = unread stats
  /\ byStatus (fold_left CenterMethods.count_notification all stats)
     = fold_left (fun m n => count_one (status n) m) all (byStatus stats)
  /\ byPriority (fold_left CenterMethods.count_notification all stats)
     = fold_left (fun m n => count_one (priority n) m) all (byPriority stats)
  /\ byChannel (fold_left CenterMethods.count_notification all stats)
     = fold_left (fun m ch => count_one ch m) (concat (map channels all))
                 (byChannel stats).
Proof.
  revert stats. induction all as [| n all IH]; intros stats;
    cbn [fold_left map concat]; [by repeat split |].
  destruct (IH (CenterMethods.count_notification stats n))
    as (-> & -> & -> & -> & ->).
  simpl. by rewrite fold_left_app.
Qed.

Lemma filter_filter_length {A} (p q : A -> bool) (l : list A) :
  length (List.filter p (List.filter q l))
  = length (List.filter (fun x => q x && p x) l).
Proof.
  induction l as [| x l IH]; simpl; [done |].
  destruct (q x); simpl; [destruct (p x); simpl |]; by rewrite IH.
Qed.

Lemma count_of_the_users (p : Notification -> bool) uid m :
  length (List.filter p (findByUser uid (Some no_filters) m))
  = count_stored (fun n => bool_decide (userId n = uid) && p n)
                 (notifications m).
Proof.
  unfold findByUser, count_stored.
  rewrite (filter_length_Permutation
             p _ _ (findByUser_all_Permutation (values m) uid)).
  apply filter_filter_length.
Qed.

Lemma length_of_the_users uid m :
  length (findByUser uid (Some no_filters) m)
  = count_stored (fun n => bool_decide (userId n = uid)) (notifications m).
Proof.
  unfold findByUser, count_stored.
  by rewrite (Permutation_length
                (findByUser_all_Permutation (values m) uid)).
Qed.

(** X28. [getStats] on the memory storage: [total] is how many notifications
    the user has stored and [unread] how many of them are not [read];
    [byStatus] and [byPriority] hold for each status and priority how many
    have it, [byChannel] how often a channel is listed by them, and a key
    that was never met has no entry rather than 0; so [unread] and the
    [read] entry add up to [total].  Only the unread count is asked of the
    storage through a logged call, and nothing is changed. *)
Theorem X28_getStats_counts_the_users_notifications
    (c : NotificationCenter.t Host) (uid : string) (h : Host) :
  NotificationCenter.storage c = memory_storage ->
  exists stats,
    CenterMethods.getStats c memory_queries uid h
    = (Ok stats, h, [StorageCountUnread uid])
    /\ total stats
       = Z.of_nat (count_stored (fun n => bool_decide (userId n = uid))
                                (notifications (mem h)))
    /\ unread stats = countUnread uid (mem h)
    /\ (forall s,
          default 0 (byStatus stats !! s)
          = Z.of_nat (count_stored
                        (fun n => bool_decide (userId n = uid)
                                  && bool_decide (status n = s))
                        (notifications (mem h)))
          /\ byStatus stats !! s <> Some 0)
    /\ (forall p,
          default 0 (byPriority stats !! p)
          = Z.of_nat (count_stored
                        (fun n => bool_decide (userId n = uid)
                                  && bool_decide (priority n = p))
                        (notifications (mem h)))
          /\ byPriority stats !! p <> Some 0)
    /\ (forall ch,
          default 0 (byChannel stats !! ch)
          = Z.of_nat (length
                        (List.filter
                           (fun listed => bool_decide (listed = ch))
                           (concat (map channels
                                        (findByUser uid (Some no_filters)
                                                    (mem h))))))
          /\ byChannel stats !! ch <> Some 0)
    /\ unread stats + default 0 (byStatus stats !! st_read) = total stats.
Proof.
  intros Hstorage. unfold CenterMethods.getStats. rewrite Hstorage.
  cbv beta iota zeta delta [bind await call ret memory_queries memory_storage
                            StorageQueries.findByUser
                            StorageAdapter.countUnread].
  set (all := findByUser uid (Some no_filters) (mem h)).
  set (stats0 := {| total := Z.of_nat (length all);
                    unread := countUnread uid (mem h);
                    byStatus := ∅; byChannel := ∅; byPriority := ∅ |}).
  exists (fold_left CenterMethods.count_notification all stats0).
  destruct (count_notification_fold all stats0) as (Ht & Hu & Hs & Hp & Hc).
  rewrite Ht, Hu, Hs, Hp, Hc. simpl.
  split; [done |].
  split; [unfold all; by rewrite length_of_the_users |].
  split; [done |].
  split.
  { intros s. destruct (count_one_from_empty status all s) as [-> Hne].
    split; [| done]. unfold all. by rewrite count_of_the_users. }
  split.
  { intros p. destruct (count_one_from_empty priority all p) as [-> Hne].
    split; [| done]. unfold all. by rewrite count_of_the_users. }
  split.
  { intros ch.
    apply (count_one_from_empty (fun listed : ChannelType => listed)). }
  destruct (count_one_from_empty status all st_read) as [-> _].
  unfold all. rewrite count_of_the_users, length_of_the_users.
  rewrite countUnread_count. unfold count_stored, is_unread_of.
  induction (map snd (map_to_list (notifications (mem h)))) as [| n l IH];
    simpl; [done |].
  destruct (bool_decide (userId n = uid)); simpl; [| exact IH].
  destruct (decide (status n = st_read)) as [Hs' | Hs'].
  - rewrite (bool_decide_eq_true_2 _ Hs').
    rewrite (bool_decide_eq_false_2 (status n <> st_read)) by tauto.
    simpl. lia.
  - rewrite (bool_decide_eq_false_2 _ Hs').
    rewrite (bool_decide_eq_true_2 (status n <> st_read)) by done.
    simpl. lia.
Qed.

End MemoryCenter.

(* ===================================================================== *)
(** ** [healthCheck] *)
(* ===================================================================== *)

Section HealthCheck.
Context {St : Type} `{Runtime St}.

Lemma check_one_run (results : gmap ChannelType bool)
    (entry : ChannelType * option (Eff St bool)) (st : St) :
  exists healthy st',
    CenterMethods.check_one results entry st
    = (Ok (<[fst entry := healthy]> results), st', [])
    /\ healthy = match snd entry with
                 | Some check => match fst (check st) with
                                 | Ok answer => answer
                                 | Throw _ => false
                                 end
                 | None => true
                 end.
Proof.
  unfold CenterMethods.check_one. destruct (snd entry) as [check |].
  - unfold try_catch, bind, await, ret.
    destruct (check st) as [[answer | e] st1]; simpl; eauto.
  - unfold ret. eauto.
Qed.

Lemma check_all_run (entries : list (ChannelType * option (Eff St bool)))
    (acc : gmap ChannelType bool) (st : St) :
  exists results st',
    CenterMethods.check_all acc entries st = (Ok results, st', [])
    /\ (forall ch, ~ In ch (map fst entries) -> results !! ch = acc !! ch)
    /\ (forall ch, In ch (map fst entries) ->
          exists healthy,
            results !! ch = Some healthy
            /\ (healthy = false ->
                exists check, In (ch, Some check) entries))
    /\ (forall pre ch check post,
          entries = pre ++ (ch, Some check) :: post ->
          ~ In ch (map fst post) ->
          exists s,
            results !! ch = Some match fst (check s) with
                                 | Ok answer => answer
                                 | Throw _ => false
                                 end).
Proof.
  revert acc st. induction entries as [| entry entries IH]; intros acc st.
  - exists acc, st. split; [done |]. split; [done |]. split; [by intros |].
    intros [| ? ?] ? ? ? [=].
  - destruct (check_one_run acc entry st) as (healthy & st1 & Hone & Hhealthy).
    destruct (IH (<[fst entry := healthy]> acc) st1)
      as (results & st' & Hrest & Hout & Hin & Hlast).
    exists results, st'. split.
    { cbn [CenterMethods.check_all]. unfold bind. by rewrite Hone, Hrest. }
    split.
    { intros ch Hch. rewrite Hout by (intros ?; apply Hch; by right).
      apply lookup_insert_ne. intros Heq. apply Hch. by left. }
    split.
    { intros ch Hch.
      destruct (in_dec ChannelType_eq_dec ch (map fst entries))
        as [Hlater | Hnot].
      - destruct (Hin ch Hlater) as (b & Hb & Hfalse). exists b.
        split; [done |]. intros Hb'. destruct (Hfalse Hb') as [check Hcheck].
        exists check. by right.
      - destruct Hch as [Hhere | Hlater]; [| done]. subst ch.
        exists healthy. split.
        + rewrite (Hout _ Hnot). apply lookup_insert_eq.
        + intros ->. destruct entry as [name [check |]]; [| done].
          exists check. by left. }
    intros pre ch check post Hentries Hpost.
    destruct pre as [| first pre].
    + injection Hentries as -> ->. exists st.
      rewrite (Hout _ Hpost). simpl in *. rewrite lookup_insert_eq.
      by rewrite Hhealthy.
    + injection Hentries as -> ->. by apply (Hlast pre ch check post).
Qed.

(** X29. [healthCheck] never rejects and makes no logged call: it answers
    for exactly the transports it is given, [true] for one without a
    [healthCheck] method, and for one with the method what the method
    answers, or [false] when the method throws. *)
Theorem X29_healthCheck_never_rejects
    (entries : list (ChannelType * option (Eff St bool))) (st : St) :
  exists results st',
    CenterMethods.healthCheck entries st = (Ok results, st', [])
    /\ (forall ch, results !! ch = None <-> ~ In ch (map fst entries))
    /\ (forall ch, results !! ch = Some false ->
          exists check, In (ch, Some check) entries)
    /\ (forall pre ch check post,
          entries = pre ++ (ch, Some check) :: post ->
          ~ In ch (map fst post) ->
          exists s,
            results !! ch = Some match fst (check s) with
                                 | Ok answer => answer
                                 | Throw _ => false
                                 end).
Proof.
  destruct (check_all_run entries ∅ st)
    as (results & st' & Hrun & Hout & Hin & Hlast).
  exists results, st'. split; [exact Hrun |]. split; [| split; [| done]].
  - intros ch. split.
    + intros Hnone Hch. destruct (Hin ch Hch) as (b & Hb & _). congruence.
    + intros Hch. by rewrite (Hout _ Hch), lookup_empty.
  - intros ch Hfalse.
    destruct (in_dec ChannelType_eq_dec ch (map fst entries)) as [Hch | Hch].
    + destruct (Hin ch Hch) as (b & Hb & Hcheck).
      apply Hcheck. congruence.
    + rewrite (Hout _ Hch), lookup_empty in Hfalse. discriminate.
Qed.

End HealthCheck.

(* ===================================================================== *)
(** ** From [send] to the store, through the memory queue *)
(* ===================================================================== *)

Section QueuedCenter.
Import NotificationCenter.

Lemma draw_keeps_the_rest (h : Host) :
  mem (snd (Math_random_base36 h)) = mem h
  /\ clock (snd (Math_random_base36 h)) = clock h.
Proof. simpl. by destruct (draws h). Qed.

Lemma node_draw (node : Node) :
  snd (Math_random_base36 node)
  = {| host := snd (Math_random_base36 (host node)); jobs := jobs node |}.
Proof. simpl. by destruct (draws (host node)). Qed.

(** [send] on a center with the memory queue and storage, no middleware
    and no subscriber of the user. *)
Lemma queued_send_run (c : NotificationCenter.t Node) input node
    built st0 :
  queue c = Some memory_queue ->
  storage c = node_storage ->
  middleware c = [] ->
  subscribers c !! in_userId input = None ->
  eventSubscribers c !! in_userId input = None ->
  buildNotification c input node = (Ok built, st0, []) ->
  let stored :=
    {| host := with_mem (MemoryStorageAdapter.save built)
                        (snd (Math_random_base36 (host node)));
       jobs := jobs node |} in
  send c input node
  = (Ok built,
     with_jobs (match in_scheduledFor input with
                | Some when =>
                    MemoryQueueAdapter.enqueueDelayed
                      built (when - clock (host node)) (clock (host node))
                | None => MemoryQueueAdapter.enqueue built
                end) stored,
     [StorageSave built;
      match in_scheduledFor input with
      | Some when => QueueEnqueueDelayed built (when - clock (host node))
      | None => QueueEnqueue built
      end]).
Proof.
  intros Hq Hs Hm Hsub Hev Hb stored.
  pose proof (buildNotification_fields _ _ _ _ _ _ Hb)
    as (Hwhen & Huser & _ & Hst0).
  rewrite node_draw in Hst0. subst st0.
  destruct (draw_keeps_the_rest (host node)) as [_ Hclock].
  assert (applyBeforeSendMiddleware c built
            {| host := snd (Math_random_base36 (host node));
               jobs := jobs node |}
          = (Ok (Some built),
             {| host := snd (Math_random_base36 (host node));
                jobs := jobs node |}, [])) as Hbefore.
  { unfold applyBeforeSendMiddleware. by rewrite Hm. }
  assert (StorageAdapter.save (storage c) built
            {| host := snd (Math_random_base36 (host node));
               jobs := jobs node |}
          = (Ok tt, stored)) as Hsave.
  { by rewrite Hs. }
  assert (forall current (s : Node),
            userId current = in_userId input ->
            bind get_object
              (fun current =>
                 bind (lift (applyAfterSendMiddleware c current))
                   (fun _ =>
                      bind (lift (notifySubscribers c current))
                        (fun _ =>
                           bind (lift (gets Date_now))
                             (fun now =>
                                bind (lift (notifyEventSubscribers c
                                              {| ev_type := ev_sent;
                                                 ev_notification := current;
                                                 timestamp := now |}))
                                  (fun _ => ret current)))))
              (current, s)
            = (Ok current, (current, s), [])) as Hrest.
  { intros current s Hcurrent. rewrite bind_get_object.
    unfold applyAfterSendMiddleware, notifySubscribers,
      notifyEventSubscribers.
    rewrite Hm. simpl. rewrite Hcurrent, Hsub, Hev. reflexivity. }
  assert (dispatch c built (built, stored)
          = (Ok built,
             (built,
              with_jobs (match in_scheduledFor input with
                         | Some when =>
                             MemoryQueueAdapter.enqueueDelayed
                               built (when - clock (host node))
                               (clock (host node))
                         | None => MemoryQueueAdapter.enqueue built
                         end) stored),
             [match in_scheduledFor input with
              | Some when =>
                  QueueEnqueueDelayed built (when - clock (host node))
              | None => QueueEnqueue built
              end])) as Hd.
  { rewrite dispatch_unfold. unfold enqueue_or_sendNow.
    rewrite Hq, Hwhen. destruct (in_scheduledFor input) as [when |].
    - erewrite bind_Ok; [| reflexivity].
      rewrite Hrest by done. simpl. by destruct (draws (host node)).
    - erewrite bind_Ok; [| reflexivity].
      by rewrite Hrest. }
  assert (try_catch (dispatch c built) (on_dispatch_error c) (built, stored)
          = (Ok built,
             (built,
              with_jobs (match in_scheduledFor input with
                         | Some when =>
                             MemoryQueueAdapter.enqueueDelayed
                               built (when - clock (host node))
                               (clock (host node))
                         | None => MemoryQueueAdapter.enqueue built
                         end) stored),
             [match in_scheduledFor input with
              | Some when =>
                  QueueEnqueueDelayed built (when - clock (host node))
              | None => QueueEnqueue built
              end])) as Ht.
  { unfold try_catch. by rewrite Hd. }
  by rewrite (send_try _ _ _ _ _ _ _ _ _ _ _ _ _ _ Hb Hbefore Hsave Ht).
Qed.

(** X30. From [send] to the store through the memory queue, on a center
    with the memory storage, no middleware and no subscriber of the user.
    A send that resolves returns the notification [pending], as stored; it
    put it at the tail of the queue, or, with a [scheduledFor], on the
    delayed list with that time as its [executeAt].  When the queue was
    empty, the next tick of the worker that completes leaves the
    notification stored under the same id with the outcome of its delivery
    pass. *)
Theorem X30_from_send_to_the_store (c : NotificationCenter.t Node)
    (input : NotificationInput) (node node' : Node) (n : Notification)
    (log : list Event) :
  queue c = Some memory_queue ->
  storage c = node_storage ->
  middleware c = [] ->
  subscribers c !! in_userId input = None ->
  eventSubscribers c !! in_userId input = None ->
  send c input node = (Ok n, node', log) ->
  status n = st_pending
  /\ MemoryStorageAdapter.findById (id n) (mem (host node')) = Some n
  /\ (in_scheduledFor input = None ->
      MemoryQueueAdapter.queue (jobs node')
      = MemoryQueueAdapter.queue (jobs node) ++ [n]
      /\ MemoryQueueAdapter.delayedQueue (jobs node')
         = MemoryQueueAdapter.delayedQueue (jobs node))
  /\ (forall when, in_scheduledFor input = Some when ->
        MemoryQueueAdapter.queue (jobs node')
        = MemoryQueueAdapter.queue (jobs node)
        /\ MemoryQueueAdapter.delayedQueue (jobs node')
           = MemoryQueueAdapter.delayedQueue (jobs node) ++ [(n, when)])
  /\ (forall concurrency final log2,
        in_scheduledFor input = None ->
        MemoryQueueAdapter.queue (jobs node) = [] ->
        0 < concurrency ->
        CenterMethods.worker_tick c memory_queue_worker concurrency node'
        = (Ok tt, final, log2) ->
        exists outcome,
          (outcome = st_failed \/ outcome = st_delivered
           \/ outcome = st_sent)
          /\ MemoryStorageAdapter.findById (id n) (mem (host final))
             = Some (set_status outcome n)).
Proof.
  intros Hq Hs Hm Hsub Hev Hsend.
  pose proof (send_Ok_inv _ _ _ _ _ _ Hsend)
    as (built & st0 & _ & _ & _ & _ & _ & _ & Hb & _).
  pose proof (buildNotification_fields _ _ _ _ _ _ Hb)
    as (_ & _ & Hpending & _).
  rewrite (queued_send_run c input node built st0 Hq Hs Hm Hsub Hev Hb)
    in Hsend.
  injection Hsend as <- <- <-.
  destruct (draw_keeps_the_rest (host node)) as [Hmem _].
  split; [done |].
  split.
  { unfold MemoryStorageAdapter.findById. simpl. apply lookup_insert_eq. }
  split.
  { intros ->. by simpl. }
  split.
  { intros when ->. simpl. split; [done |]. do 3 f_equal. lia. }
  intros concurrency final log2 Hnow Hempty Hk Htick.
  rewrite Hnow in Htick.
  unfold CenterMethods.worker_tick in Htick. rewrite Hq in Htick.
  unfold bind, await in Htick. simpl in Htick. rewrite Hempty in Htick.
  destruct (Z.to_nat concurrency) as [| k] eqn:Hnat; [lia |].
  simpl in Htick.
  unfold with_object in Htick.
  match type of Htick with
  | context [sendNow c (built, ?s)] =>
      destruct (sendNow c (built, s)) as [[r [n' sb]] lg] eqn:Hpass
  end.
  replace (take k (@nil Notification)) with (@nil Notification) in Htick
    by (by destruct k).
  destruct r as [[] | e]; [| discriminate].
  simpl in Htick. injection Htick as <- _.
  apply sendNow_Ok_saved in Hpass
    as (receipts & calls & st2 & -> & _ & _ & Hsaved).
  exists (aggregate receipts). split; [apply aggregate_cases |].
  rewrite Hs in Hsaved. simpl in Hsaved. injection Hsaved as <-.
  unfold MemoryStorageAdapter.findById. simpl. apply lookup_insert_eq.
Qed.

End QueuedCenter.

(* ===================================================================== *)
(** ** The further properties at work *)
(* ===================================================================== *)

Lemma well_keyed_host_unread : well_keyed (mem host_unread).
Proof.
  change (mem host_unread)
    with (MemoryStorageAdapter.save (notification_on [inapp])
                                    MemoryStorageAdapter.empty).
  apply well_keyed_save, well_keyed_empty.
Qed.

Lemma X5_witness :
  well_keyed sample_store
  /\ forall nid now,
       well_keyed (MemoryStorageQueries.markAsRead nid now sample_store).
Proof.
  split; [apply well_keyed_sample_store |].
  exact (proj1 (proj2 (proj2 (X5_keys_stay_the_ids
                                sample_store well_keyed_sample_store)))).
Defined.

Lemma X6_witness :
  well_keyed sample_store
  /\ MemoryStorageAdapter.countUnread
       "u1" (MemoryStorageQueries.markAllAsRead "u1" 500 sample_store) = 0.
Proof.
  split; [apply well_keyed_sample_store |].
  exact (proj1 (X6_markAllAsRead_clears_one_user
                  "u1" 500 sample_store well_keyed_sample_store)).
Defined.

Lemma X8_witness :
  well_keyed sample_store
  /\ MemoryStorageAdapter.receipts
       (snd (MemoryStorageQueries.deleteExpired 400 sample_store))
     = MemoryStorageAdapter.receipts sample_store.
Proof.
  split; [apply well_keyed_sample_store |].
  exact (proj1 (proj2 (proj2 (proj2 (X8_deleteExpired_removes_the_expired
                                       400 sample_store
                                       well_keyed_sample_store))))).
Defined.

Lemma X10_witness :
  truthy_number (f_offset recent_first) = false
  /\ truthy_number (f_limit recent_first) = false
  /\ exists selected : Notification -> bool,
       Permutation
         (MemoryStorageQueries.findByUser_in sample_notes "u1"
                                             (Some recent_first))
         (List.filter selected sample_notes).
Proof.
  split; [reflexivity |]. split; [reflexivity |].
  destruct (X10_findByUser_selects sample_notes "u1" recent_first
              eq_refl eq_refl) as (selected & _ & Hperm & _).
  exists selected. exact Hperm.
Defined.

Lemma X12_witness :
  f_sortBy recent_first <> Some by_readAt
  /\ StronglySorted
       (fun a b => createdAt b <= createdAt a)
       (MemoryStorageQueries.findByUser_in sample_notes "u1"
                                           (Some recent_first)).
Proof.
  split; [discriminate |].
  exact (X12_findByUser_order sample_notes "u1" recent_first
           ltac:(discriminate)).
Defined.

Lemma X14_witness :
  NotificationCenter.queue center_queued = Some memory_queue
  /\ exists st' log,
       send center_queued input0 node0 = (Ok built0, st', log)
       /\ Forall (fun ev => is_transport_call ev = false) log.
Proof.
  split; [reflexivity |].
  set (run := send center_queued input0 node0).
  assert (run = (Ok built0, snd (fst run), snd run))
    as Hrun by (vm_compute; reflexivity).
  exists (snd (fst run)), (snd run). split; [exact Hrun |].
  destruct (X14_send_through_a_queue center_queued memory_queue input0
              node0 built0 (snd (fst run)) (snd run) eq_refl Hrun)
    as (_ & _ & _ & _ & _ & _ & _ & _ & _ & _ & Hquiet).
  exact Hquiet.
Defined.

Lemma X15_witness :
  NotificationCenter.queue center0 = None
  /\ exists st' log,
       send center0 input0 host0
       = (Ok (set_status st_delivered built0), st', log)
       /\ Forall (fun ev => is_enqueue ev = false) log.
Proof.
  split; [reflexivity |].
  set (run := send center0 input0 host0).
  assert (run = (Ok (set_status st_delivered built0), snd (fst run), snd run))
    as Hrun by (vm_compute; reflexivity).
  exists (snd (fst run)), (snd run). split; [exact Hrun |].
  destruct (X15_send_without_a_queue center0 input0 host0
              (set_status st_delivered built0) (snd (fst run)) (snd run)
              eq_refl Hrun)
    as (_ & _ & _ & _ & _ & _ & _ & _ & _ & _ & _ & _ & Hquiet).
  exact Hquiet.
Defined.

Lemma X16_witness :
  exists st' log,
    send center_metrics input0 host0
    = (Throw (mkError "metrics down"), st', log)
    /\ Forall (fun ev => is_publish ev = false) log
    /\ In (TransportSend inapp built0
             (MemoryStorageAdapter.getPreferences "u1" (mem host0))) log.
Proof.
  set (st2 := with_mem (MemoryStorageAdapter.save built0) host1).
  set (first := enqueue_or_sendNow center_metrics built0 (built0, st2)).
  assert (first = (Ok tt, (fst (snd (fst first)), snd (snd (fst first))),
                   snd first)) as Hfirst by (vm_compute; reflexivity).
  set (after := applyAfterSendMiddleware center_metrics
                  (fst (snd (fst first))) (snd (snd (fst first)))).
  assert (after = (Throw (mkError "metrics down"), snd (fst after), snd after))
    as Hafter by (vm_compute; reflexivity).
  assert (buildNotification center_metrics input0 host0
          = (Ok built0, host1, [])) as Hb by (vm_compute; reflexivity).
  assert (applyBeforeSendMiddleware center_metrics built0 host1
          = (Ok (Some built0), host1, [])) as Hm by (vm_compute; reflexivity).
  assert (StorageAdapter.save (storage center_metrics) built0 host1
          = (Ok tt, st2)) as Hs by (vm_compute; reflexivity).
  destruct (X16_afterSend_failure_hides_a_sent_notification
              center_metrics input0 host0 built0 host1 built0 host1 [] st2
              (fst (snd (fst first))) (snd (snd (fst first))) (snd first)
              (mkError "metrics down") (snd (fst after)) (snd after)
              Hb Hm Hs Hfirst Hafter)
    as (r & st5 & log5 & Herr & Hsend & _ & _ & Hquiet).
  assert (r = Ok tt) as ->.
  { assert (fst (fst (applyErrorMiddleware center_metrics
                        (mkError "metrics down") (fst (snd (fst first)))
                        (snd (fst after)))) = Ok tt) as Hr
      by (vm_compute; reflexivity).
    rewrite Herr in Hr. exact Hr. }
  eexists _, _. split; [exact Hsend |]. split; [exact Hquiet |].
  simpl. right. apply in_or_app. left.
  assert (forallb (fun _ => true) (snd first) = true
          /\ In (TransportSend inapp built0
                   (MemoryStorageAdapter.getPreferences "u1" (mem host0)))
                (snd first)) as [_ Hin]; [| exact Hin].
  split; [vm_compute; reflexivity |].
  vm_compute. right. right. left. reflexivity.
Defined.

Lemma X19_witness :
  NotificationCenter.queue center_queued = Some memory_queue
  /\ List.filter has_beforeSend (NotificationCenter.middleware center_queued)
     = []
  /\ exists st' log,
       CenterMethods.schedule center_queued input0 1700000060000 node0
       = (Ok "notif_1700000000000_k3x9q2m1z", st', log)
       /\ Forall (fun ev => is_transport_call ev = false) log.
Proof.
  split; [reflexivity |]. split; [reflexivity |].
  set (run := CenterMethods.schedule center_queued input0 1700000060000 node0).
  assert (run = (Ok "notif_1700000000000_k3x9q2m1z", snd (fst run), snd run))
    as Hrun by (vm_compute; reflexivity).
  exists (snd (fst run)), (snd run). split; [exact Hrun |].
  destruct (X19_schedule_hands_over_with_the_time_left
              center_queued memory_queue input0 1700000060000 node0
              "notif_1700000000000_k3x9q2m1z" (snd (fst run)) (snd run)
              eq_refl eq_refl Hrun)
    as (_ & _ & _ & _ & _ & _ & _ & _ & _ & _ & _ & Hquiet).
  exact Hquiet.
Defined.

Lemma X24_witness :
  NotificationCenter.queue center_down_queue = Some down_queue
  /\ isRunning never_started = false
  /\ CenterMethods.start center_down_queue down_queue_worker default_settings
       (never_started, host0)
     = (Throw (mkError "queue down"),
        (CenterMethods.set_isRunning true never_started, host0), []).
Proof.
  split; [reflexivity |]. split; [reflexivity |].
  exact (proj1 (X24_failed_start_blocks_the_next
                  center_down_queue down_queue_worker down_queue
                  default_settings never_started host0 host0
                  (mkError "queue down") eq_refl eq_refl eq_refl)).
Defined.

Lemma X26_witness :
  NotificationCenter.storage center_listening = memory_storage
  /\ CenterMethods.markAsRead center_listening memory_queries "n9" host_unread
     = (Ok tt, host_unread, [StorageFindById "n9"]).
Proof.
  split; [reflexivity |].
  apply (proj1 (X26_center_markAsRead_tells_the_owner
                  center_listening "n9" host_unread eq_refl)).
  vm_compute. reflexivity.
Defined.

Lemma X27_witness :
  NotificationCenter.storage center_listening = memory_storage
  /\ well_keyed (mem host_unread)
  /\ MemoryStorageAdapter.countUnread
       "u1"
       (mem (with_mem (MemoryStorageQueries.markAllAsRead
                         "u1" (clock host_unread)) host_unread)) = 0.
Proof.
  split; [reflexivity |]. split; [apply well_keyed_host_unread |].
  exact (proj2 (proj2 (proj2 (proj2 (proj2 (proj2
           (X27_zero_is_the_count_left center_listening "u1" host_unread
              eq_refl well_keyed_host_unread))))))).
Defined.

Lemma X20_witness :
  channels (notification_on []) = []
  /\ forall n' st' log,
       sendNow center0 (notification_on [], host0) = (Ok tt, (n', st'), log) ->
       n' = set_status st_failed (notification_on []).
Proof.
  split; [reflexivity |].
  intros n' st' log Hrun.
  exact (proj1 (proj1 (X20_no_channels_means_failed
                         center0 (notification_on []) host0 eq_refl)
                      n' st' log Hrun)).
Defined.

Lemma X25_witness :
  NotificationCenter.storage center0 = memory_storage
  /\ forall other, other <> "u1" ->
       MemoryStorageAdapter.getPreferences
         other
         (mem (snd (fst (CenterMethods.updatePreferences
                           center0 memory_queries "u1" mute_only host0))))
       = MemoryStorageAdapter.getPreferences other (mem host0).
Proof.
  split; [reflexivity |].
  exact (proj1 (proj2 (proj2 (X25_updatePreferences_merges_one_level
                                center0 "u1" mute_only host0 eq_refl)))).
Defined.

Lemma X28_witness :
  NotificationCenter.storage center0 = memory_storage
  /\ exists stats,
       CenterMethods.getStats center0 memory_queries "u1" host_unread
       = (Ok stats, host_unread, [StorageCountUnread "u1"])
       /\ unread stats + default 0 (byStatus stats !! st_read) = total stats.
Proof.
  split; [reflexivity |].
  destruct (X28_getStats_counts_the_users_notifications
              center0 "u1" host_unread eq_refl)
    as (stats & Hrun & _ & _ & _ & _ & _ & Hsum).
  exists stats. split; [exact Hrun | exact Hsum].
Defined.

Lemma X30_witness :
  NotificationCenter.queue center_queued = Some memory_queue
  /\ NotificationCenter.storage center_queued = node_storage
  /\ NotificationCenter.middleware center_queued = []
  /\ NotificationCenter.subscribers center_queued !! in_userId input0 = None
  /\ NotificationCenter.eventSubscribers center_queued !! in_userId input0
     = None
  /\ exists node' log,
       send center_queued input0 node0 = (Ok built0, node', log)
       /\ MemoryQueueAdapter.queue (jobs node') = [built0].
Proof.
  split; [reflexivity |]. split; [reflexivity |]. split; [reflexivity |].
  split; [reflexivity |]. split; [reflexivity |].
  set (run := send center_queued input0 node0).
  assert (run = (Ok built0, snd (fst run), snd run))
    as Hrun by (vm_compute; reflexivity).
  exists (snd (fst run)), (snd run). split; [exact Hrun |].
  destruct (X30_from_send_to_the_store center_queued input0 node0
              (snd (fst run)) built0 (snd run)
              eq_refl eq_refl eq_refl eq_refl eq_refl Hrun)
    as (_ & _ & Hqueue & _).
  exact (proj1 (Hqueue eq_refl)).
Defined.
